(** * The fine-tuning notebook: epoch trainer, epoch validator, training loop

    A shallow embedding of the code cells of [fine-tunning.ipynb] that
    carry behaviour of their own: [train], [val], the training loop and the
    final [print(max(val_accuracy))].

    - Python numbers are modelled as Python has them: unbounded integers
      ([Z]) and IEEE-754 binary64 floats (Rocq's primitive [float]); the
      mixed arithmetic of [+], [*], [/] and [float()] is written out in
      module [Py], with the exceptions it raises.
    - The deep-learning library (model, loss, autograd, optimizer, device
      transfer, plotting) is external to the notebook: its calls are the
      variables of section [Notebook]; what is fixed about them is only
      what the notebook relies on (shapes and the state each call may
      touch).
    - Exceptions are values of an error monad; the notebook has no
      handler, so [bind] is the only way a fault is treated. *)

From Stdlib Require Import ZArith List Lia Bool Floats.
Import ListNotations.
Local Open Scope Z_scope.

Set Warnings "-inexact-float".

(** ** Exceptions and fallible computations *)

Inductive exn : Type :=
| ZeroDivisionError            (* division by zero, int or float *)
| OverflowError                (* int too large to convert to float *)
| ValueError                   (* max() of an empty sequence; batch-size mismatch in the loss *)
| RuntimeError                 (* tensor shapes that do not broadcast *)
| LibraryError (code : nat).   (* any other fault of the external libraries *)

Inductive result (A : Type) : Type :=
| Ok (a : A)
| Raise (e : exn).
Arguments Ok {A} a.
Arguments Raise {A} e.

Definition bind {A B : Type} (m : result A) (k : A -> result B) : result B :=
match m with
| Ok a => k a
| Raise e => Raise e
end.

Notation "x <- m ;; k" := (bind m (fun x => k))
(at level 61, m at next level, right associativity).
Notation "' p <- m ;; k" := (bind m (fun x => match x with p => k end))
(at level 61, p pattern, m at next level, right associativity).

(** ** Python numbers *)

Module Py.

(** A Python number as the notebook's accumulators hold it: [running_loss]
    and [total] start as the int [0] and become floats, [running_corrects]
    stays an int. *)
Inductive num : Type :=
| Int (z : Z)
| Float (f : float).

(** The binary64 value nearest to an integer (ties to even), in the
    IEEE-754 specification the primitive floats are defined against. *)
Definition nearest (z : Z) : spec_float := binary_normalize prec emax z 0 false.

Definition float_of_Z (z : Z) : float := SF2Prim (nearest z).

(** [float(n)], and the conversion of an int operand in mixed
    arithmetic: correctly rounded, [OverflowError] when the int is too
    large for a double. *)
Definition finite_or_overflow (x : spec_float) : result float :=
  match x with
  | S754_infinity _ => Raise OverflowError
  | _ => Ok (SF2Prim x)
  end.

Definition int_to_float (z : Z) : result float := finite_or_overflow (nearest z).

Definition to_float (a : num) : result float :=
  match a with
  | Int z => int_to_float z
  | Float f => Ok f
  end.

(** [float(a)] *)
Definition pyfloat (a : num) : result num :=
  f <- to_float a ;; Ok (Float f).

(** [a + b] *)
Definition add (a b : num) : result num :=
  match a, b with
  | Int x, Int y => Ok (Int (x + y))
  | _, _ =>
      fa <- to_float a ;;
      fb <- to_float b ;;
      Ok (Float (fa + fb)%float)
  end.

(** [a * b] *)
Definition mul (a b : num) : result num :=
  match a, b with
  | Int x, Int y => Ok (Int (x * y))
  | _, _ =>
      fa <- to_float a ;;
      fb <- to_float b ;;
      Ok (Float (fa * fb)%float)
  end.

(** [a / b] on two ints with [b <> 0]: the correctly rounded quotient.
    The quotient of the magnitudes is taken with enough extra bits and
    rounded once, the remainder giving the rounding direction. *)
Definition int_true_divide (a b : Z) : result float :=
  let s := xorb (a <? 0) (b <? 0) in
  let ma := Z.abs a in
  let mb := Z.abs b in
  if ma =? 0 then Ok (if s then neg_zero else zero)
  else
    let sh := Z.max 0 (Z.log2 mb - Z.log2 ma + 55) in
    let (q, r) := Z.div_eucl (Z.shiftl ma sh) mb in
    finite_or_overflow (binary_round_aux prec emax s q (- sh) (new_location mb r)).

(** [a / b] (true division): always a float; a zero divisor raises
    [ZeroDivisionError], also when the dividend is a NaN or an infinity. *)
Definition truediv (a b : num) : result float :=
  match a, b with
  | Int x, Int y =>
      if y =? 0 then Raise ZeroDivisionError else int_true_divide x y
  | _, _ =>
      fa <- to_float a ;;
      fb <- to_float b ;;
      if (fb =? 0)%float then Raise ZeroDivisionError else Ok (fa / fb)%float
  end.

(** [f == n] for a float and an int: Python compares the exact values. *)
Definition float_eq_int (f : float) (n : Z) : bool :=
  match Prim2SF f with
  | S754_zero _ => n =? 0
  | S754_finite s m e =>
      let v := if s then Z.neg m else Z.pos m in
      if 0 <=? e then v * 2 ^ e =? n else v =? n * 2 ^ (- e)
  | _ => false
  end.

(** [a == b] *)
Definition eqb (a b : num) : bool :=
  match a, b with
  | Int x, Int y => x =? y
  | Float f, Float g => (f =? g)%float
  | Float f, Int n => float_eq_int f n
  | Int n, Float f => float_eq_int f n
  end.

(** [max(l)] on a list of floats: the first element, replaced by each
    later element that compares greater; [ValueError] on an empty list. *)
Definition max (l : list float) : result float :=
  match l with
  | [] => Raise ValueError
  | x :: xs => Ok (fold_left (fun m y => if (m <? y)%float then y else m) xs x)
  end.

End Py.

(** ** The tensor operations whose shapes the notebook relies on *)

Module Torch.

(** [t.size(0)] of a tensor held as the list of its rows. *)
Definition size0 {A : Type} (t : list A) : Z := Z.of_nat (length t).

Fixpoint zip_eqb (a b : list Z) : list bool :=
  match a, b with
  | x :: a', y :: b' => (x =? y) :: zip_eqb a' b'
  | _, _ => []
  end.

(** [a == b] on two one-dimensional integer tensors: elementwise, a
    one-element tensor is broadcast, other lengths do not match. *)
Definition eq (a b : list Z) : result (list bool) :=
  if (length a =? length b)%nat then Ok (zip_eqb a b)
  else if (length a =? 1)%nat then Ok (map (fun y => hd 0 a =? y) b)
  else if (length b =? 1)%nat then Ok (map (fun x => x =? hd 0 b) a)
  else Raise RuntimeError.

(** [torch.sum(m).item()] on a boolean tensor: the number of [True]. *)
Definition sum_item (m : list bool) : Z :=
  Z.of_nat (length (filter (fun b => b) m)).

End Torch.

(** ** The notebook *)

(** [epochs = 50]: the only hyper-parameter the loop itself reads. *)
Definition epochs : Z := 50.

(** [batch_size = 256]: the most samples a batch of the loaders holds. *)
Definition batch_size : Z := 256.

(** The calls that write the state of the library or of the display, as
    the notebook makes them. *)
Inductive call : Type :=
| CTrainMode                              (* model.train() *)
| CEvalMode                               (* model.eval() *)
| CZeroGrad                               (* optimizer.zero_grad() *)
| CForward (training grad_enabled : bool) (* model(x) *)
| CBackward                               (* loss.backward() *)
| CStep                                   (* optimizer.step() *)
| CPlot (tl vl ta va : list float).       (* the plotting block of the loop *)

Section Notebook.

(** *** The external collaborators *)

Context {Sample Row Output Loss Params Buffers Grads OptState : Type}.

(** A batch as the loader yields it: [for data, labels in loader]. *)
Record Batch : Type := { data : list Sample; labels : list Z }.

(** [t.cuda()] gives the tensor itself unless the device faults. *)
Variable cuda_fault : option exn.
(** [model(x)] under the given [training] and [grad_enabled] flags: the
    output tensor and the new buffers (running statistics); it reads the
    parameters and never writes them. *)
Variable forward :
  Params -> Buffers -> bool -> bool -> list Sample -> result (Output * Buffers).
(** The rows of an output tensor, one per sample: its first dimension. *)
Variable rows : Output -> list Row.
(** The index of the largest score of a row: [output.max(1)[1]]. *)
Variable argmax : Row -> Z.
(** The loss tensor of [nn.CrossEntropyLoss] on shapes that match. *)
Variable cross_entropy : Output -> list Z -> result Loss.
(** [loss.item()] *)
Variable item : Loss -> float.
(** [loss.backward()]: the gradients of the loss, added to the stored ones. *)
Variable backward : Loss -> Grads -> result Grads.
(** [optimizer.zero_grad()] *)
Variable zero_grad : Grads -> Grads.
(** [optimizer.step()] *)
Variable sgd_step : Params -> Grads -> OptState -> result (Params * OptState).
(** The plotting and display calls that end an epoch. *)
Variable live_plot : list float -> list float -> list float -> list float -> result unit.
(** The batches the loaders yield in epoch [e]; fetching a batch may fail. *)
Variables train_loader val_loader : nat -> list (result Batch).

(** *** The state: the notebook's globals and the library's *)

Record World : Type := {
  params : Params;                 (* model.parameters() *)
  buffers : Buffers;
  training : bool;                 (* model.training *)
  grad_enabled : bool;             (* torch.is_grad_enabled() *)
  grads : Grads;
  opt_state : OptState;            (* momentum buffers of the optimizer *)
  train_loss : list float;
  train_accuracy : list float;
  val_loss : list float;
  val_accuracy : list float;
  calls : list call                (* the calls made so far *)
}.

Definition log (c : call) (w : World) : World :=
  {| params := params w; buffers := buffers w; training := training w;
     grad_enabled := grad_enabled w; grads := grads w; opt_state := opt_state w;
     train_loss := train_loss w; train_accuracy := train_accuracy w;
     val_loss := val_loss w; val_accuracy := val_accuracy w;
     calls := calls w ++ [c] |}.

Definition set_training (b : bool) (w : World) : World :=
  {| params := params w; buffers := buffers w; training := b;
     grad_enabled := grad_enabled w; grads := grads w; opt_state := opt_state w;
     train_loss := train_loss w; train_accuracy := train_accuracy w;
     val_loss := val_loss w; val_accuracy := val_accuracy w;
     calls := calls w |}.

Definition set_grad_enabled (b : bool) (w : World) : World :=
  {| params := params w; buffers := buffers w; training := training w;
     grad_enabled := b; grads := grads w; opt_state := opt_state w;
     train_loss := train_loss w; train_accuracy := train_accuracy w;
     val_loss := val_loss w; val_accuracy := val_accuracy w;
     calls := calls w |}.

Definition set_buffers (b : Buffers) (w : World) : World :=
  {| params := params w; buffers := b; training := training w;
     grad_enabled := grad_enabled w; grads := grads w; opt_state := opt_state w;
     train_loss := train_loss w; train_accuracy := train_accuracy w;
     val_loss := val_loss w; val_accuracy := val_accuracy w;
     calls := calls w |}.

Definition set_grads (g : Grads) (w : World) : World :=
  {| params := params w; buffers := buffers w; training := training w;
     grad_enabled := grad_enabled w; grads := g; opt_state := opt_state w;
     train_loss := train_loss w; train_accuracy := train_accuracy w;
     val_loss := val_loss w; val_accuracy := val_accuracy w;
     calls := calls w |}.

Definition set_params (p : Params) (o : OptState) (w : World) : World :=
  {| params := p; buffers := buffers w; training := training w;
     grad_enabled := grad_enabled w; grads := grads w; opt_state := o;
     train_loss := train_loss w; train_accuracy := train_accuracy w;
     val_loss := val_loss w; val_accuracy := val_accuracy w;
     calls := calls w |}.

Definition append_train (l a : float) (w : World) : World :=
  {| params := params w; buffers := buffers w; training := training w;
     grad_enabled := grad_enabled w; grads := grads w; opt_state := opt_state w;
     train_loss := train_loss w ++ [l]; train_accuracy := train_accuracy w ++ [a];
     val_loss := val_loss w; val_accuracy := val_accuracy w;
     calls := calls w |}.

Definition append_val (l a : float) (w : World) : World :=
  {| params := params w; buffers := buffers w; training := training w;
     grad_enabled := grad_enabled w; grads := grads w; opt_state := opt_state w;
     train_loss := train_loss w; train_accuracy := train_accuracy w;
     val_loss := val_loss w ++ [l]; val_accuracy := val_accuracy w ++ [a];
     calls := calls w |}.

(** [train_accuracy = []; val_accuracy = []; train_loss = []; val_loss = []] *)
Definition reset_history (w : World) : World :=
  {| params := params w; buffers := buffers w; training := training w;
     grad_enabled := grad_enabled w; grads := grads w; opt_state := opt_state w;
     train_loss := []; train_accuracy := [];
     val_loss := []; val_accuracy := [];
     calls := calls w |}.

(** *** Programs: state and exceptions

    A program runs in a world and either finishes with a value or stops
    at an exception; both leave the world as it was at that point. *)

Inductive outcome (A : Type) : Type :=
| Done (a : A) (w : World)
| Fault (e : exn) (w : World).
Arguments Done {A} a w.
Arguments Fault {A} e w.

Definition prog (A : Type) : Type := World -> outcome A.

Definition ret {A : Type} (a : A) : prog A := fun w => Done a w.

Definition seq_bind {A B : Type} (m : prog A) (k : A -> prog B) : prog B :=
  fun w =>
    match m w with
    | Done a w' => k a w'
    | Fault e w' => Fault e w'
    end.

(** A computation without state, run as a program. *)
Definition lift {A : Type} (r : result A) : prog A :=
  fun w =>
    match r with
    | Ok a => Done a w
    | Raise e => Fault e w
    end.

Definition modify (f : World -> World) : prog unit := fun w => Done tt (f w).

Definition final_world {A : Type} (o : outcome A) : World :=
  match o with
  | Done _ w => w
  | Fault _ w => w
  end.

Notation "x <~ m ;; k" := (seq_bind m (fun x => k))
  (at level 61, m at next level, right associativity).
Notation "' p <~ m ;; k" := (seq_bind m (fun x => match x with p => k end))
  (at level 61, p pattern, m at next level, right associativity).
Notation "m ;;; k" := (seq_bind m (fun _ => k))
  (at level 61, right associativity).

(** *** Library calls as the notebook makes them *)

Definition cuda {A : Type} (t : A) : prog A :=
  lift (match cuda_fault with
        | Some e => Raise e
        | None => Ok t
        end).

(** [model.train()] and [model.eval()] *)
Definition model_train : prog unit :=
  modify (fun w => set_training true (log CTrainMode w)).

Definition model_eval : prog unit :=
  modify (fun w => set_training false (log CEvalMode w)).

(** [optimizer.zero_grad()] *)
Definition optimizer_zero_grad : prog unit :=
  modify (fun w => set_grads (zero_grad (grads w)) (log CZeroGrad w)).

(** [model(x)] *)
Definition model (x : list Sample) : prog Output :=
  fun w =>
    let w := log (CForward (training w) (grad_enabled w)) w in
    match forward (params w) (buffers w) (training w) (grad_enabled w) x with
    | Ok (output, bufs) => Done output (set_buffers bufs w)
    | Raise e => Fault e w
    end.

(** [criterion(output, y)]: the loss refuses an output and a target whose
    batch sizes differ. *)
Definition criterion (output : Output) (y : list Z) : result Loss :=
  if (length (rows output) =? length y)%nat then cross_entropy output y
  else Raise ValueError.

(** [loss.backward()] *)
Definition loss_backward (loss : Loss) : prog unit :=
  fun w =>
    let w := log CBackward w in
    match backward loss (grads w) with
    | Ok g => Done tt (set_grads g w)
    | Raise e => Fault e w
    end.

(** [optimizer.step()] *)
Definition optimizer_step : prog unit :=
  fun w =>
    let w := log CStep w in
    match sgd_step (params w) (grads w) (opt_state w) with
    | Ok (p, o) => Done tt (set_params p o w)
    | Raise e => Fault e w
    end.

(** [with torch.no_grad(): body]: gradient mode is switched off for the
    body and put back when the block is left, by an exception too. *)
Definition no_grad {A : Type} (body : prog A) : prog A :=
  fun w =>
    let prev := grad_enabled w in
    match body (set_grad_enabled false w) with
    | Done a w' => Done a (set_grad_enabled prev w')
    | Fault e w' => Fault e (set_grad_enabled prev w')
    end.

(** The plotting block that ends the body of the training loop. *)
Definition plot : prog unit :=
  fun w =>
    let w := log (CPlot (train_loss w) (val_loss w) (train_accuracy w) (val_accuracy w)) w in
    match live_plot (train_loss w) (val_loss w) (train_accuracy w) (val_accuracy w) with
    | Ok _ => Done tt w
    | Raise e => Fault e w
    end.

(** *** Running statistics *)

Record Stats : Type := {
  running_loss : Py.num;
  running_corrects : Py.num;
  total : Py.num
}.

(** [running_loss = 0; running_corrects = 0; total = 0] *)
Definition stats0 : Stats :=
  {| running_loss := Py.Int 0; running_corrects := Py.Int 0; total := Py.Int 0 |}.

(** The three statistics lines that end the body of both loops. *)
Definition update_stats (loss : Loss) (x : list Sample) (preds y : list Z)
    (st : Stats) : result Stats :=
  wl <- Py.mul (Py.Float (item loss)) (Py.Int (Torch.size0 x)) ;;
  rl <- Py.add (running_loss st) wl ;;
  m <- Torch.eq preds y ;;
  rc <- Py.add (running_corrects st) (Py.Int (Torch.sum_item m)) ;;
  n <- Py.pyfloat (Py.Int (Torch.size0 y)) ;;
  t <- Py.add (total st) n ;;
  Ok {| running_loss := rl; running_corrects := rc; total := t |}.

(** [epoch_loss = running_loss / total; epoch_acc = running_corrects / total] *)
Definition epoch_means (st : Stats) : result (float * float) :=
  epoch_loss <- Py.truediv (running_loss st) (total st) ;;
  epoch_acc <- Py.truediv (running_corrects st) (total st) ;;
  Ok (epoch_loss, epoch_acc).

(** [for data, labels in loader: body], the statistics threaded through. *)
Fixpoint for_batches (body : Batch -> Stats -> prog Stats)
    (loader : list (result Batch)) (st : Stats) : prog Stats :=
  match loader with
  | [] => ret st
  | fetch :: rest =>
      b <~ lift fetch ;;
      st <~ body b st ;;
      for_batches body rest st
  end.

(** *** [train] *)

(** The body of the loop of [train] on one batch. *)
Definition train_batch (b : Batch) (st : Stats) : prog Stats :=
  optimizer_zero_grad ;;;
  x <~ cuda (data b) ;;
  y <~ cuda (labels b) ;;
  output <~ model x ;;
  loss <~ lift (criterion output y) ;;
  let preds := map argmax (rows output) in
  loss_backward loss ;;;
  optimizer_step ;;;
  lift (update_stats loss x preds y st).

Definition train (loader : list (result Batch)) : prog (float * float) :=
  model_train ;;;
  st <~ for_batches train_batch loader stats0 ;;
  lift (epoch_means st).

(** *** [val] *)

Definition val_batch (b : Batch) (st : Stats) : prog Stats :=
  x <~ cuda (data b) ;;
  y <~ cuda (labels b) ;;
  output <~ model x ;;
  loss <~ lift (criterion output y) ;;
  let preds := map argmax (rows output) in
  lift (update_stats loss x preds y st).

Definition val (loader : list (result Batch)) : prog (float * float) :=
  model_eval ;;;
  st <~ no_grad (for_batches val_batch loader stats0) ;;
  lift (epoch_means st).

(** *** The training loop and the final report *)

(** The body of [for epoch in range(epochs)]. *)
Definition epoch_body (epoch : nat) : prog unit :=
  '(loss, acc) <~ train (train_loader epoch) ;;
  modify (append_train loss acc) ;;;
  '(loss, acc) <~ val (val_loader epoch) ;;
  modify (append_val loss acc) ;;;
  plot.

Fixpoint for_epochs (es : list nat) : prog unit :=
  match es with
  | [] => ret tt
  | epoch :: rest => epoch_body epoch ;;; for_epochs rest
  end.

(** [range(n)] *)
Definition range (n : Z) : list nat := seq 0 (Z.to_nat n).

(** The cell of the training loop: the four histories start empty. *)
Definition training_loop (epochs : Z) : prog unit :=
  modify reset_history ;;;
  for_epochs (range epochs).

(** [print(max(val_accuracy))] *)
Definition report : prog float :=
  fun w => lift (Py.max (val_accuracy w)) w.

(** The last two cells, run one after the other. *)
Definition notebook (epochs : Z) : prog float :=
  training_loop epochs ;;;
  report.

(** *** What the properties below speak of *)

(** The samples of a sequence of batches, by their labels ([y.size(0)]). *)
Definition samples (bs : list Batch) : Z :=
  fold_right (fun b n => Torch.size0 (labels b) + n) 0 bs.

(** The four history sequences of the training loop. *)
Definition history (w : World) : list float * list float * list float * list float :=
  (train_loss w, train_accuracy w, val_loss w, val_accuracy w).

(** The calls one batch of [train] makes, in order. *)
Definition train_batch_calls (grad : bool) : list call :=
  [CZeroGrad; CForward true grad; CBackward; CStep].

(** The world in which the loop of [train] starts. *)
Definition train_start (w : World) : World := set_training true (log CTrainMode w).

(** The world in which the loop of [val] starts. *)
Definition val_start (w : World) : World :=
  set_grad_enabled false (set_training false (log CEvalMode w)).

(** The world one batch of [train] leaves when every call succeeds. *)
Definition after_train_batch (bufs : Buffers) (g : Grads) (p : Params) (o : OptState)
    (w : World) : World :=
  set_params p o (log CStep (set_grads g (log CBackward
    (set_buffers bufs (log (CForward (training w) (grad_enabled w))
      (set_grads (zero_grad (grads w)) (log CZeroGrad w))))))).

(** Both loop bodies end by updating the statistics with a loss whose
    output has one row per label. *)
Definition updates_stats (body : Batch -> Stats -> prog Stats) : Prop :=
  forall b st st' w w',
    body b st w = Done st' w' ->
    exists loss output,
      length (rows output) = length (labels b) /\
      update_stats loss (data b) (map argmax (rows output)) (labels b) st = Ok st'.

(** A count held by an accumulator: the int [0] it starts as, or the float
    of the count. *)
Definition count_value (v : Py.num) (n : Z) : Prop :=
  (v = Py.Int 0 /\ n = 0) \/ v = Py.Float (Py.float_of_Z n).

(** The statistics after [n] samples. *)
Definition counted (n : Z) (st : Stats) : Prop :=
  count_value (total st) n /\
  exists c, running_corrects st = Py.Int c /\ 0 <= c <= n.

(** The statistics of an epoch that ran the loop body [body] from the
    world [w0] over the batches [bs] and returned the pair [r]: the sample
    count equals the number of samples seen after every prefix of the
    sequence, and [r] is the pair of quotients of the final accumulators. *)
Definition epoch_invariant (body : Batch -> Stats -> prog Stats) (w0 : World)
    (bs : list Batch) (r : float * float) : Prop :=
  exists st w1,
    for_batches body (map Ok bs) stats0 w0 = Done st w1 /\
    (forall k : nat, exists st_k w_k,
        for_batches body (map Ok (firstn k bs)) stats0 w0 = Done st_k w_k /\
        Py.eqb (total st_k) (Py.Int (samples (firstn k bs))) = true) /\
    Py.eqb (total st) (Py.Int (samples bs)) = true /\
    Py.truediv (running_loss st) (total st) = Ok (fst r) /\
    Py.truediv (running_corrects st) (total st) = Ok (snd r).

(** What [val] keeps: parameters, gradients and optimizer state, the
    histories, and the two mode flags once they are off; the only calls it
    adds are forward passes in evaluation mode without gradients. *)
Definition val_keeps (w w' : World) : Prop :=
  training w = false -> grad_enabled w = false ->
  params w' = params w /\ grads w' = grads w /\ opt_state w' = opt_state w /\
  history w' = history w /\
  training w' = false /\ grad_enabled w' = false /\
  exists k, calls w' = calls w ++ repeat (CForward false false) k.

(** What [train] keeps: the histories and the two mode flags. *)
Definition train_keeps (w w' : World) : Prop :=
  history w' = history w /\ training w' = training w /\
  grad_enabled w' = grad_enabled w.

(** Each of the four histories holds [k] elements. *)
Definition history_lengths (w : World) (k : nat) : Prop :=
  length (train_loss w) = k /\ length (train_accuracy w) = k /\
  length (val_loss w) = k /\ length (val_accuracy w) = k.

(** One pass of the loop body from [w] to [w']: [train], then [val], each
    followed by the two appends of its results. *)
Definition epoch_step (epoch : nat) (w w' : World) : Prop :=
  exists tl ta w1 vl va w2,
    train (train_loader epoch) w = Done (tl, ta) w1 /\
    val (val_loader epoch) (append_train tl ta w1) = Done (vl, va) w2 /\
    history w' = (train_loss w ++ [tl], train_accuracy w ++ [ta],
                  val_loss w ++ [vl], val_accuracy w ++ [va]).

(** The first call of the body of [train] on batch [b] that fails, fails
    with [e]: the device transfer, the forward pass, the loss, [backward],
    the optimizer step or the arithmetic of the statistics. *)
Inductive train_call_fault (b : Batch) (st : Stats) (w : World) (e : exn) : Prop :=
| TrainCuda :
    cuda_fault = Some e -> train_call_fault b st w e
| TrainForward :
    cuda_fault = None ->
    forward (params w) (buffers w) (training w) (grad_enabled w) (data b) = Raise e ->
    train_call_fault b st w e
| TrainCriterion (output : Output) (bufs : Buffers) :
    cuda_fault = None ->
    forward (params w) (buffers w) (training w) (grad_enabled w) (data b)
      = Ok (output, bufs) ->
    criterion output (labels b) = Raise e ->
    train_call_fault b st w e
| TrainBackward (output : Output) (bufs : Buffers) (loss : Loss) :
    cuda_fault = None ->
    forward (params w) (buffers w) (training w) (grad_enabled w) (data b)
      = Ok (output, bufs) ->
    criterion output (labels b) = Ok loss ->
    backward loss (zero_grad (grads w)) = Raise e ->
    train_call_fault b st w e
| TrainStep (output : Output) (bufs : Buffers) (loss : Loss) (g : Grads) :
    cuda_fault = None ->
    forward (params w) (buffers w) (training w) (grad_enabled w) (data b)
      = Ok (output, bufs) ->
    criterion output (labels b) = Ok loss ->
    backward loss (zero_grad (grads w)) = Ok g ->
    sgd_step (params w) g (opt_state w) = Raise e ->
    train_call_fault b st w e
| TrainStats (output : Output) (bufs : Buffers) (loss : Loss) (g : Grads)
    (p : Params) (o : OptState) :
    cuda_fault = None ->
    forward (params w) (buffers w) (training w) (grad_enabled w) (data b)
      = Ok (output, bufs) ->
    criterion output (labels b) = Ok loss ->
    backward loss (zero_grad (grads w)) = Ok g ->
    sgd_step (params w) g (opt_state w) = Ok (p, o) ->
    update_stats loss (data b) (map argmax (rows output)) (labels b) st = Raise e ->
    train_call_fault b st w e.

(** The same for the body of [val]. *)
Inductive val_call_fault (b : Batch) (st : Stats) (w : World) (e : exn) : Prop :=
| ValCuda :
    cuda_fault = Some e -> val_call_fault b st w e
| ValForward :
    cuda_fault = None ->
    forward (params w) (buffers w) (training w) (grad_enabled w) (data b) = Raise e ->
    val_call_fault b st w e
| ValCriterion (output : Output) (bufs : Buffers) :
    cuda_fault = None ->
    forward (params w) (buffers w) (training w) (grad_enabled w) (data b)
      = Ok (output, bufs) ->
    criterion output (labels b) = Raise e ->
    val_call_fault b st w e
| ValStats (output : Output) (bufs : Buffers) (loss : Loss) :
    cuda_fault = None ->
    forward (params w) (buffers w) (training w) (grad_enabled w) (data b)
      = Ok (output, bufs) ->
    criterion output (labels b) = Ok loss ->
    update_stats loss (data b) (map argmax (rows output)) (labels b) st = Raise e ->
    val_call_fault b st w e.

(** The outcome is the exception [e]. *)
Definition raises {A : Type} (e : exn) (o : outcome A) : Prop :=
  exists w, o = Fault e w.

(** The statistics after a batch of [nx] inputs and [ny] labels with loss
    [l] whose predictions all equal their label. *)
Definition stats_step (l : float) (nx ny : Z) (st : Stats) : result Stats :=
  wl <- Py.mul (Py.Float l) (Py.Int nx) ;;
  rl <- Py.add (running_loss st) wl ;;
  rc <- Py.add (running_corrects st) (Py.Int ny) ;;
  n <- Py.pyfloat (Py.Int ny) ;;
  t <- Py.add (total st) n ;;
  Ok {| running_loss := rl; running_corrects := rc; total := t |}.

(** The samples of the batches a loader yields, by their labels. *)
Definition loader_samples (loader : list (result Batch)) : Z :=
  fold_right (fun fetch n => match fetch with
                             | Ok b => Torch.size0 (labels b) + n
                             | Raise _ => n
                             end) 0 loader.

(** A value in the closed interval [0, 1]. *)
Definition in_unit_interval (a : float) : Prop :=
  (0 <=? a)%float = true /\ (a <=? 1)%float = true.

(** A float that is not negative: a zero, a positive number or the
    positive infinity; a NaN is not. *)
Definition nonneg (x : float) : Prop := (0 <=? x)%float = true.

(** A running loss that is not negative: the int [0] it starts as, or a
    float that is not negative. *)
Definition loss_nonneg (v : Py.num) : Prop :=
  v = Py.Int 0 \/ exists f, v = Py.Float f /\ nonneg f.

(** A loop body that ends by updating the statistics with the loss of the
    batch. *)
Definition updates_with_loss (body : Batch -> Stats -> prog Stats) : Prop :=
  forall b st st' w w',
    body b st w = Done st' w' ->
    exists loss output,
      criterion output (labels b) = Ok loss /\
      update_stats loss (data b) (map argmax (rows output)) (labels b) st = Ok st'.

(** A specification float that is positive: a positive number or the
    positive infinity. *)
Definition SFpositive (x : spec_float) : Prop :=
  (exists m e, x = S754_finite false m e) \/ x = S754_infinity false.

(** A count held by an accumulator that has seen at least one sample: a
    float that is positive. *)
Definition positive_count (v : Py.num) : Prop :=
  exists t, v = Py.Float t /\ SFpositive (Prim2SF t).

(** The accumulators of the statistics read as numbers: [running_loss] and
    [total] are the int [0] they start as, read as the float [0.0], or a
    float; [running_corrects] is an int. *)
Definition accumulators (st : Stats) (f t : float) (c : Z) : Prop :=
  (running_loss st = Py.Int 0 /\ f = 0%float \/ running_loss st = Py.Float f) /\
  (total st = Py.Int 0 /\ t = 0%float \/ total st = Py.Float t) /\
  running_corrects st = Py.Int c.

(** *** Proof tactics *)

Ltac break_match :=
  match goal with
  | |- context [match ?x with _ => _ end] =>
      lazymatch x with
      | context [match _ with _ => _ end] => fail
      | _ => destruct x eqn:?
      end
  end.

Ltac run_call H :=
  rewrite H;
  cbn [log set_grads set_buffers set_params params buffers training grad_enabled
       grads opt_state].

(** ** Binary64 facts the running statistics rest on

    Counts up to [2^53] are exact in binary64: converting them and adding
    them loses nothing, and the quotient of a count by a larger one rounds
    into the unit interval. The proofs run on the IEEE-754 specification
    ([SpecFloat]) that the primitive operations are defined against. *)

Lemma digits2_size (p : positive) : digits2_pos p = Pos.size p.
Proof. induction p; simpl; congruence. Qed.

Lemma Zdigits2_log2 (p : positive) : Zdigits2 (Zpos p) = Z.log2 (Zpos p) + 1.
Proof. destruct p; simpl; rewrite ?digits2_size; lia. Qed.

Lemma digits2_log2 (p : positive) : Zpos (digits2_pos p) = Z.log2 (Zpos p) + 1.
Proof. exact (Zdigits2_log2 p). Qed.

Lemma iter_xO (k p : positive) : Zpos (Pos.iter xO p k) = Zpos p * 2 ^ Zpos k.
Proof.
  induction k using Pos.peano_ind.
  - simpl. lia.
  - rewrite Pos.iter_succ, Pos2Z.inj_succ, Z.pow_succ_r by lia.
    rewrite Pos2Z.inj_xO, IHk. lia.
Qed.

Lemma iter_pos_iter {A} (f : A -> A) (k : positive) (x : A) :
  iter_pos f k x = Pos.iter f x k.
Proof.
  revert x. induction k; intros x; simpl.
  - rewrite !IHk. rewrite !Pos.iter_swap. reflexivity.
  - rewrite !IHk. reflexivity.
  - reflexivity.
Qed.

Lemma shr_1_double (p : positive) :
  shr_1 {| shr_m := Zpos (xO p); shr_r := false; shr_s := false |}
  = {| shr_m := Zpos p; shr_r := false; shr_s := false |}.
Proof. reflexivity. Qed.

Lemma shr_exact (k p : positive) :
  iter_pos shr_1 k {| shr_m := Zpos (Pos.iter xO p k); shr_r := false; shr_s := false |}
  = {| shr_m := Zpos p; shr_r := false; shr_s := false |}.
Proof.
  rewrite iter_pos_iter. revert p.
  induction k using Pos.peano_ind; intros p.
  - reflexivity.
  - rewrite Pos.iter_succ. rewrite Pos.iter_succ_r. rewrite IHk. reflexivity.
Qed.


Lemma shr_fexp_53 (m : positive) (e : Z) (l : location) :
  Z.log2 (Zpos m) = 52 -> -1074 <= e ->
  shr_fexp prec emax (Zpos m) e l = (shr_record_of_loc (Zpos m) l, e).
Proof.
  intros Hd He. unfold shr_fexp.
  rewrite Zdigits2_log2, Hd.
  replace (fexp prec emax (52 + 1 + e) - e) with 0
    by (unfold fexp, SpecFloat.emin, prec, emax; lia).
  reflexivity.
Qed.

(** The second half of [binary_round_aux] on a mantissa of 53 bits. *)
Lemma round_finish (s : bool) (m : positive) (e : Z) :
  Z.log2 (Zpos m) = 52 -> -1074 <= e <= 971 ->
  (let '(mrs, e') := shr_fexp prec emax (Zpos m) e loc_Exact in
   match shr_m mrs with
   | Z0 => S754_zero s
   | Zpos m' => if e' <=? emax - prec then S754_finite s m' e' else S754_infinity s
   | Zneg _ => S754_nan
   end) = S754_finite s m e.
Proof.
  intros Hd He. rewrite shr_fexp_53 by lia. simpl.
  destruct (Z.leb_spec e 971); [reflexivity|lia].
Qed.

(** A 53-bit mantissa with no pending rounding is kept as it is. *)
Lemma round_aux_exact (s : bool) (m : positive) (e : Z) :
  Z.log2 (Zpos m) = 52 -> -1074 <= e <= 971 ->
  binary_round_aux prec emax s (Zpos m) e loc_Exact = S754_finite s m e.
Proof.
  intros Hd He. unfold binary_round_aux.
  rewrite shr_fexp_53 by lia.
  cbn [shr_record_of_loc shr_m loc_of_shr_record round_nearest_even].
  apply round_finish; assumption.
Qed.

Lemma normalize_scaled (n K E : Z) :
  1 <= n < 2 ^ 53 -> 0 <= K -> -1000 <= E <= 900 ->
  binary_normalize prec emax (n * 2 ^ K) (E - K) false
  = S754_finite false (Z.to_pos (n * 2 ^ (52 - Z.log2 n))) (E + Z.log2 n - 52).
Proof.
  intros Hn HK HE.
  assert (Hl : 0 <= Z.log2 n < 53).
  { split; [apply Z.log2_nonneg|]. apply Z.log2_lt_pow2; lia. }
  set (d0 := Z.log2 n) in *.
  assert (Hpow : 0 < 2 ^ K) by (apply Z.pow_pos_nonneg; lia).
  assert (Hpow' : 0 < 2 ^ (52 - d0)) by (apply Z.pow_pos_nonneg; lia).
  assert (Hq : 0 < n * 2 ^ K) by nia.
  assert (Hm : 0 < n * 2 ^ (52 - d0)) by nia.
  assert (Hlm : Z.log2 (n * 2 ^ (52 - d0)) = 52).
  { rewrite Z.log2_mul_pow2 by lia. fold d0. lia. }
  destruct (n * 2 ^ K) as [|q|q] eqn:Eq; try lia.
  destruct (n * 2 ^ (52 - d0)) as [|m|m] eqn:Em; try lia.
  assert (Hlq : Z.log2 (Zpos q) = K + d0).
  { rewrite <- Eq. rewrite Z.log2_mul_pow2 by lia. reflexivity. }
  simpl Z.to_pos.
  unfold binary_normalize, binary_round.
  rewrite digits2_log2, Hlq.
  replace (fexp prec emax (K + d0 + 1 + (E - K))) with (E + d0 - 52)
    by (unfold fexp, SpecFloat.emin, prec, emax; lia).
  unfold shl_align.
  destruct (E + d0 - 52 - (E - K)) as [|d|d] eqn:Ed.
  - assert (K = 52 - d0) by lia. subst K.
    assert (q = m) by congruence. subst q.
    replace (E - (52 - d0)) with (E + d0 - 52) by lia.
    apply round_aux_exact; lia.
  - (* the mantissa is longer than 53 bits: its low bits are zero *)
    assert (HK' : K = 52 - d0 + Zpos d) by lia.
    assert (q = Pos.iter xO m d).
    { apply Pos2Z.inj. rewrite iter_xO, <- Eq, <- Em, HK'.
      rewrite Z.pow_add_r by lia. ring. }
    subst q.
    unfold binary_round_aux, shr_fexp at 1.
    rewrite Zdigits2_log2, Hlq.
    replace (fexp prec emax (K + d0 + 1 + (E - K)) - (E - K)) with (Zpos d)
      by (unfold fexp, SpecFloat.emin, prec, emax; lia).
    cbn [shr_record_of_loc shr]. rewrite shr_exact.
    cbn [shr_m loc_of_shr_record round_nearest_even].
    replace (E - K + Zpos d) with (E + d0 - 52) by lia.
    apply round_finish; lia.
  - assert (HK' : K + Zpos d = 52 - d0) by lia.
    assert (Pos.iter xO q d = m).
    { apply Pos2Z.inj. rewrite iter_xO, <- Eq, <- Em, <- HK'.
      rewrite Z.pow_add_r by lia. ring. }
    rewrite H.
    apply round_aux_exact; lia.
Qed.

Lemma nearest_canonical (n : Z) :
  1 <= n < 2 ^ 53 ->
  Py.nearest n = S754_finite false (Z.to_pos (n * 2 ^ (52 - Z.log2 n))) (Z.log2 n - 52).
Proof.
  intros Hn. unfold Py.nearest.
  pose proof (normalize_scaled n 0 0 Hn) as H.
  rewrite Z.pow_0_r, Z.mul_1_r in H. simpl in H. apply H; lia.
Qed.

Lemma nearest_0 : Py.nearest 0 = S754_zero false.
Proof. reflexivity. Qed.

Lemma nearest_2p53 : Py.nearest (2 ^ 53) = S754_finite false 4503599627370496 1.
Proof. vm_compute. reflexivity. Qed.

Lemma shl_align_value (m : positive) (e e' : Z) :
  e' <= e -> Zpos (fst (shl_align m e e')) = Zpos m * 2 ^ (e - e').
Proof.
  intros H. unfold shl_align.
  destruct (e' - e) as [|d|d] eqn:Ed; simpl fst.
  - replace (e - e') with 0 by lia. simpl. lia.
  - lia.
  - rewrite iter_xO. f_equal. f_equal. lia.
Qed.

(** The canonical mantissa and its value. *)
Lemma canonical_facts (n : Z) :
  1 <= n < 2 ^ 53 ->
  0 <= Z.log2 n <= 52 /\
  0 < n * 2 ^ (52 - Z.log2 n) /\
  Z.log2 (n * 2 ^ (52 - Z.log2 n)) = 52.
Proof.
  intros Hn.
  assert (Hl : 0 <= Z.log2 n < 53).
  { split; [apply Z.log2_nonneg|]. apply Z.log2_lt_pow2; lia. }
  assert (0 < 2 ^ (52 - Z.log2 n)) by (apply Z.pow_pos_nonneg; lia).
  repeat split; try lia; try nia.
  rewrite Z.log2_mul_pow2 by lia. lia.
Qed.

Lemma add_exact (a b : Z) :
  0 <= a -> 0 <= b -> a + b <= 2 ^ 53 ->
  SF64add (Py.nearest a) (Py.nearest b) = Py.nearest (a + b).
Proof.
  intros Ha Hb Hab.
  assert (Hfin : forall n, 1 <= n <= 2 ^ 53 -> exists m e, Py.nearest n = S754_finite false m e).
  { intros n Hn. destruct (Z.eq_dec n (2 ^ 53)) as [->|].
    - rewrite nearest_2p53. eauto.
    - rewrite nearest_canonical by lia. eauto. }
  destruct (Z.eq_dec a 0) as [->|Ha0].
  { rewrite nearest_0. simpl Z.add.
    destruct (Z.eq_dec b 0) as [->|Hb0]; [reflexivity|].
    destruct (Hfin b) as (m & e & ->); [lia|]. reflexivity. }
  destruct (Z.eq_dec b 0) as [->|Hb0].
  { rewrite nearest_0, Z.add_0_r.
    destruct (Hfin a) as (m & e & ->); [lia|]. reflexivity. }
  assert (Ha' : 1 <= a < 2 ^ 53) by lia.
  assert (Hb' : 1 <= b < 2 ^ 53) by lia.
  destruct (canonical_facts a Ha') as (Hla & Hma & _).
  destruct (canonical_facts b Hb') as (Hlb & Hmb & _).
  rewrite (nearest_canonical a), (nearest_canonical b) by assumption.
  unfold SF64add, SFadd.
  set (la := Z.log2 a) in *. set (lb := Z.log2 b) in *.
  set (K := 52 - Z.min la lb).
  assert (HK : 0 <= K <= 52) by lia.
  replace (Z.min (la - 52) (lb - 52)) with (0 - K) by lia.
  rewrite !shl_align_value by lia.
  rewrite !Z2Pos.id by assumption.
  unfold cond_Zopp.
  replace (a * 2 ^ (52 - la) * 2 ^ (la - 52 - (0 - K))
           + b * 2 ^ (52 - lb) * 2 ^ (lb - 52 - (0 - K)))
    with ((a + b) * 2 ^ K).
  2:{ rewrite <- !Z.mul_assoc, <- !Z.pow_add_r by lia.
      replace (52 - la + (la - 52 - (0 - K))) with K by lia.
      replace (52 - lb + (lb - 52 - (0 - K))) with K by lia. ring. }
  destruct (Z.eq_dec (a + b) (2 ^ 53)) as [E|E].
  - rewrite E, nearest_2p53.
    replace (2 ^ 53 * 2 ^ K) with (2 ^ 52 * 2 ^ (K + 1))
      by (rewrite Z.pow_add_r by lia; lia).
    replace (0 - K) with (1 - (K + 1)) by lia.
    rewrite normalize_scaled by lia. reflexivity.
  - rewrite normalize_scaled by lia.
    rewrite (nearest_canonical (a + b)) by lia.
    f_equal; lia.
Qed.

Lemma nearest_valid (n : Z) :
  0 <= n <= 2 ^ 53 -> valid_binary (Py.nearest n) = true.
Proof.
  intros Hn.
  destruct (Z.eq_dec n 0) as [->|]; [reflexivity|].
  destruct (Z.eq_dec n (2 ^ 53)) as [->|]; [reflexivity|].
  assert (Hn' : 1 <= n < 2 ^ 53) by lia.
  destruct (canonical_facts n Hn') as (Hl & Hm & Hlm).
  rewrite nearest_canonical by assumption.
  unfold SpecFloat.valid_binary, bounded, canonical_mantissa.
  rewrite digits2_log2, Z2Pos.id, Hlm by assumption.
  apply andb_true_intro. split.
  - apply Z.eqb_eq. unfold fexp, SpecFloat.emin, prec, emax. lia.
  - apply Z.leb_le. unfold prec, emax. lia.
Qed.

(** *** Division of a count by a larger count *)

Lemma nearest_repr (c : Z) :
  1 <= c <= 2 ^ 53 ->
  exists m e, Py.nearest c = S754_finite false m e /\
              Z.log2 (Zpos m) = 52 /\ -52 <= e <= 1 /\
              c * 2 ^ 52 = Zpos m * 2 ^ (e + 52).
Proof.
  intros Hc. destruct (Z.eq_dec c (2 ^ 53)) as [->|Hne].
  - exists 4503599627370496%positive, 1. rewrite nearest_2p53.
    repeat split; try reflexivity; lia.
  - assert (Hc' : 1 <= c < 2 ^ 53) by lia.
    destruct (canonical_facts c Hc') as (Hl & Hm & Hlm).
    exists (Z.to_pos (c * 2 ^ (52 - Z.log2 c))), (Z.log2 c - 52).
    rewrite nearest_canonical by assumption.
    rewrite Z2Pos.id by assumption.
    repeat split; try lia.
    rewrite <- Z.mul_assoc, <- Z.pow_add_r by lia.
    do 2 f_equal. lia.
Qed.

Lemma log2_52_bounds (m : positive) :
  Z.log2 (Zpos m) = 52 -> 2 ^ 52 <= Zpos m < 2 ^ 53.
Proof.
  intros H. pose proof (Z.log2_spec (Zpos m) (Pos2Z.is_pos m)) as Hs.
  rewrite H in Hs. exact Hs.
Qed.

Lemma bounds_log2_52 (m : Z) :
  2 ^ 52 <= m < 2 ^ 53 -> Z.log2 m = 52.
Proof. intros H. apply Z.log2_unique; lia. Qed.

Lemma loc_of_record_of_loc (m : Z) (l : location) :
  loc_of_shr_record (shr_record_of_loc m l) = l /\
  shr_m (shr_record_of_loc m l) = m.
Proof. destruct l as [|[]]; split; reflexivity. Qed.

Lemma round_nearest_even_bounds (m : Z) (l : location) :
  m <= round_nearest_even m l <= m + 1.
Proof.
  destruct l as [|[]]; simpl; try lia.
  destruct (Z.even m); lia.
Qed.

(** The second half of [binary_round_aux] after rounding a 53-bit
    mantissa: the mantissa is kept, or it was rounded up to [2^53]. *)
Lemma round_finish_carry (s : bool) (m e : Z) :
  2 ^ 52 <= m <= 2 ^ 53 -> -1074 <= e <= 900 ->
  exists m' e',
    (let '(mrs, e1) := shr_fexp prec emax m e loc_Exact in
     match shr_m mrs with
     | Z0 => S754_zero s
     | Zpos m1 => if e1 <=? emax - prec then S754_finite s m1 e1 else S754_infinity s
     | Zneg _ => S754_nan
     end) = S754_finite s m' e' /\
    Z.log2 (Zpos m') = 52 /\
    (e' = e \/ (e' = e + 1 /\ m' = 4503599627370496%positive)).
Proof.
  intros Hm He.
  destruct (Z.eq_dec m (2 ^ 53)) as [->|Hne].
  - exists 4503599627370496%positive, (e + 1).
    split; [|split; [reflexivity|right; split; reflexivity]].
    unfold shr_fexp. change (Zdigits2 (2 ^ 53)) with 54.
    replace (fexp prec emax (54 + e) - e) with 1
      by (unfold fexp, SpecFloat.emin, prec, emax; lia).
    simpl. destruct (Z.leb_spec (e + 1) 971); [reflexivity|lia].
  - destruct m as [|p|p]; try lia.
    exists p, e. rewrite round_finish by (try apply bounds_log2_52; lia).
    split; [reflexivity|]. split; [apply bounds_log2_52; lia|left; reflexivity].
Qed.

Lemma shr_1_half (q : positive) (r s : bool) :
  2 <= Zpos q ->
  exists r' s', shr_1 {| shr_m := Zpos q; shr_r := r; shr_s := s |}
                = {| shr_m := Zpos q / 2; shr_r := r'; shr_s := s' |}.
Proof.
  intros Hq. destruct q as [p|p|]; try lia.
  - exists true, (r || s). simpl shr_1. f_equal.
    rewrite Pos2Z.inj_xI.
    apply Z.div_unique with (r := 1); lia.
  - exists false, (r || s). simpl shr_1. f_equal.
    rewrite Pos2Z.inj_xO.
    apply Z.div_unique with (r := 0); lia.
Qed.

Lemma round_aux_bounds (q e : Z) (l : location) :
  2 ^ 52 <= q < 2 ^ 54 -> -1074 <= e <= 800 ->
  exists m2 e2,
    binary_round_aux prec emax false q e l = S754_finite false m2 e2 /\
    Z.log2 (Zpos m2) = 52 /\
    ((q < 2 ^ 53 /\ (e2 = e \/ (e2 = e + 1 /\ m2 = 4503599627370496%positive))) \/
     (2 ^ 53 <= q /\ (e2 = e + 1 \/ (e2 = e + 2 /\ m2 = 4503599627370496%positive)))).
Proof.
  intros Hq He.
  destruct q as [|q|q]; try lia.
  destruct (Z_lt_le_dec (Zpos q) (2 ^ 53)) as [Hlt|Hge].
  - unfold binary_round_aux.
    rewrite shr_fexp_53 by (try apply bounds_log2_52; lia).
    destruct (loc_of_record_of_loc (Zpos q) l) as (-> & ->).
    pose proof (round_nearest_even_bounds (Zpos q) l) as Hr.
    destruct (round_finish_carry false (round_nearest_even (Zpos q) l) e)
      as (m' & e' & -> & Hlm & Hcase); try lia.
    exists m', e'. split; [reflexivity|]. split; [assumption|].
    left. split; assumption.
  - unfold binary_round_aux, shr_fexp at 1.
    rewrite Zdigits2_log2.
    replace (Z.log2 (Zpos q)) with 53 by (symmetry; apply Z.log2_unique; lia).
    replace (fexp prec emax (53 + 1 + e) - e) with 1
      by (unfold fexp, SpecFloat.emin, prec, emax; lia).
    cbn [shr iter_pos].
    destruct l as [|[]]; cbn [shr_record_of_loc].
    all: match goal with |- context [shr_1 {| shr_m := _; shr_r := ?r; shr_s := ?s |}] =>
           destruct (shr_1_half q r s) as (r' & s' & ->); [lia|] end.
    all: cbn [shr_m].
    all: assert (Hh : 2 ^ 52 <= Zpos q / 2 < 2 ^ 53)
           by (split; [apply Z.div_le_lower_bound|apply Z.div_lt_upper_bound]; lia).
    all: match goal with |- context [round_nearest_even ?m ?l] =>
           pose proof (round_nearest_even_bounds m l) as Hr;
           destruct (round_finish_carry false (round_nearest_even m l) (e + 1))
             as (m' & e' & -> & Hlm & Hcase); try lia end.
    all: exists m', e'; split; [reflexivity|]; split; [assumption|].
    all: right; split; [assumption|].
    all: destruct Hcase as [->|[-> ->]]; [left; reflexivity|right; split; [lia|reflexivity]].
Qed.

Lemma div_core_53 (mc mn : positive) (ec en : Z) :
  Z.log2 (Zpos mc) = 52 -> Z.log2 (Zpos mn) = 52 ->
  -52 <= ec <= 1 -> -52 <= en <= 1 ->
  SFdiv_core_binary prec emax (Zpos mc) ec (Zpos mn) en
  = (Zpos mc * 2 ^ 53 / Zpos mn, ec - en - 53,
     new_location (Zpos mn) (Zpos mc * 2 ^ 53 mod Zpos mn)).
Proof.
  intros Hc Hn Hec Hen. unfold SFdiv_core_binary.
  rewrite !Zdigits2_log2, Hc, Hn.
  replace (Z.min (fexp prec emax (52 + 1 + ec - (52 + 1 + en))) (ec - en))
    with (ec - en - 53)
    by (unfold fexp, SpecFloat.emin, prec, emax; lia).
  replace (ec - en - (ec - en - 53)) with 53 by lia.
  rewrite Z.shiftl_mul_pow2 by lia.
  unfold Z.div, Z.modulo.
  destruct (Z.div_eucl (Zpos mc * 2 ^ 53) (Zpos mn)) as [q r]. reflexivity.
Qed.

Lemma div_counts_unit_interval (c n : Z) :
  0 <= c <= n -> 1 <= n <= 2 ^ 53 ->
  SFleb (S754_zero false) (SF64div (Py.nearest c) (Py.nearest n)) = true /\
  SFleb (SF64div (Py.nearest c) (Py.nearest n)) (S754_finite false 4503599627370496 (-52)) = true.
Proof.
  intros Hc Hn.
  destruct (nearest_repr n Hn) as (mn & en & -> & Hln & Hen & Hvn).
  destruct (Z.eq_dec c 0) as [->|Hc0].
  { rewrite nearest_0. split; reflexivity. }
  destruct (nearest_repr c) as (mc & ec & -> & Hlc & Hec & Hvc); [lia|].
  pose proof (log2_52_bounds mc Hlc) as Bc.
  pose proof (log2_52_bounds mn Hln) as Bn.
  (* the canonical forms are ordered as the counts are *)
  assert (Hord : ec < en \/ (ec = en /\ Zpos mc <= Zpos mn)).
  { destruct (Z_lt_le_dec ec en) as [|Hge]; [left; assumption|right].
    assert (Hle : Zpos mc * 2 ^ (ec + 52) <= Zpos mn * 2 ^ (en + 52)) by nia.
    assert (Hp : 0 < 2 ^ (en + 52)) by (apply Z.pow_pos_nonneg; lia).
    destruct (Z.eq_dec ec en) as [->|Hne].
    - split; [reflexivity|]. nia.
    - exfalso.
      replace (ec + 52) with (en + 52 + (ec - en)) in Hle by lia.
      rewrite Z.pow_add_r in Hle by lia.
      assert (HQ : 2 <= 2 ^ (ec - en)).
      { change 2 with (2 ^ 1) at 1. apply Z.pow_le_mono_r; lia. }
      set (P := 2 ^ (en + 52)) in *. set (Q := 2 ^ (ec - en)) in *.
      assert (P * 2 <= P * Q) by (apply Z.mul_le_mono_nonneg_l; lia).
      assert (2 ^ 52 * (P * 2) <= Zpos mc * (P * Q))
        by (apply Z.mul_le_mono_nonneg; lia).
      assert (Zpos mn * P < 2 ^ 53 * P) by (apply Z.mul_lt_mono_pos_r; lia).
      lia. }
  unfold SF64div, SFdiv.
  rewrite div_core_53 by assumption. cbn [xorb].
  destruct (Z.eq_dec (Zpos mc) (Zpos mn)) as [Heq|Hneq].
  - (* equal mantissas *)
    rewrite Heq. rewrite (Z.mul_comm (Zpos mn)), Z.div_mul, Z.mod_mul by lia.
    replace (new_location (Zpos mn) 0) with loc_Exact
      by (unfold new_location, new_location_even, new_location_odd;
          destruct (Z.even (Zpos mn)); reflexivity).
    destruct Hord as [Hlt|[-> _]].
    + destruct (round_aux_bounds (2 ^ 53) (ec - en - 53) loc_Exact)
        as (m2 & e2 & -> & Hl2 & Hcase); try lia.
      split; [reflexivity|].
      unfold SFleb, SFcompare.
      destruct Hcase as [[? _]|[_ [->|[-> ->]]]]; try lia.
      * destruct (Z.compare_spec (ec - en - 53 + 1) (-52)); try reflexivity; lia.
      * destruct (Z.compare_spec (ec - en - 53 + 2) (-52)); try reflexivity; try lia.
    + replace (en - en - 53) with (-53) by lia. split; reflexivity.
  - set (q := Zpos mc * 2 ^ 53 / Zpos mn).
    assert (Hq : 2 ^ 52 <= q < 2 ^ 54).
    { unfold q. split.
      - apply Z.div_le_lower_bound; lia.
      - apply Z.div_lt_upper_bound; lia. }
    destruct (round_aux_bounds q (ec - en - 53)
                (new_location (Zpos mn) (Zpos mc * 2 ^ 53 mod Zpos mn)))
      as (m2 & e2 & -> & Hl2 & Hcase); try lia.
    split; [reflexivity|].
    unfold SFleb, SFcompare.
    destruct Hord as [Hlt|[-> Hle]].
    + destruct Hcase as [[_ [->|[-> ->]]]|[_ [->|[-> ->]]]].
      all: match goal with |- context [Z.compare ?a ?b] =>
             destruct (Z.compare_spec a b); try reflexivity; try lia end.
    + assert (q < 2 ^ 53).
      { unfold q. apply Z.div_lt_upper_bound; lia. }
      destruct Hcase as [[_ [->|[-> ->]]]|[? _]]; try lia.
      all: match goal with |- context [Z.compare ?a ?b] =>
             destruct (Z.compare_spec a b); try reflexivity; try lia end.
Qed.
(** *** From the specification to the primitive floats *)

Lemma float_of_Z_spec (n : Z) :
  0 <= n <= 2 ^ 53 -> Prim2SF (Py.float_of_Z n) = Py.nearest n.
Proof.
  intros Hn. unfold Py.float_of_Z.
  apply Prim2SF_SF2Prim, nearest_valid, Hn.
Qed.

Lemma float_of_Z_add (a b : Z) :
  0 <= a -> 0 <= b -> a + b <= 2 ^ 53 ->
  (Py.float_of_Z a + Py.float_of_Z b)%float = Py.float_of_Z (a + b).
Proof.
  intros Ha Hb Hab. apply Prim2SF_inj.
  rewrite add_spec, !float_of_Z_spec by lia.
  apply add_exact; assumption.
Qed.

Lemma nearest_finite (n : Z) :
  0 <= n <= 2 ^ 53 ->
  Py.nearest n = S754_zero false \/ exists m e, Py.nearest n = S754_finite false m e.
Proof.
  intros Hn. destruct (Z.eq_dec n 0) as [->|]; [left; reflexivity|right].
  destruct (nearest_repr n) as (m & e & H & _); [lia|]. eauto.
Qed.

Lemma int_to_float_count (n : Z) :
  0 <= n <= 2 ^ 53 -> Py.int_to_float n = Ok (Py.float_of_Z n).
Proof.
  intros Hn. unfold Py.int_to_float, Py.finite_or_overflow, Py.float_of_Z.
  destruct (nearest_finite n Hn) as [->|(m & e & ->)]; reflexivity.
Qed.

Lemma float_of_Z_nonzero (n : Z) :
  1 <= n <= 2 ^ 53 -> (Py.float_of_Z n =? 0)%float = false.
Proof.
  intros Hn. rewrite eqb_spec, float_of_Z_spec by lia.
  destruct (nearest_repr n Hn) as (m & e & -> & _). reflexivity.
Qed.

Lemma float_of_Z_exact (n : Z) :
  0 <= n <= 2 ^ 53 -> Py.float_eq_int (Py.float_of_Z n) n = true.
Proof.
  intros Hn. unfold Py.float_eq_int. rewrite float_of_Z_spec by assumption.
  destruct (Z.eq_dec n 0) as [->|Hn0]; [reflexivity|].
  destruct (nearest_repr n) as (m & e & -> & Hl & He & Hv); [lia|].
  destruct (Z.leb_spec 0 e).
  - apply Z.eqb_eq. rewrite Z.pow_add_r in Hv by lia. lia.
  - apply Z.eqb_eq.
    assert (Hp : 0 < 2 ^ (e + 52)) by (apply Z.pow_pos_nonneg; lia).
    apply Z.mul_reg_r with (p := 2 ^ (e + 52)); [lia|].
    rewrite <- Hv, <- Z.mul_assoc, <- Z.pow_add_r by lia.
    do 2 f_equal. lia.
Qed.

Lemma float_of_Z_ratio (c n : Z) :
  0 <= c <= n -> 1 <= n <= 2 ^ 53 ->
  (0 <=? Py.float_of_Z c / Py.float_of_Z n)%float = true /\
  (Py.float_of_Z c / Py.float_of_Z n <=? 1)%float = true.
Proof.
  intros Hc Hn. rewrite !leb_spec, div_spec, !float_of_Z_spec by lia.
  apply div_counts_unit_interval; assumption.
Qed.

(** *** The order of floats that [max] relies on *)

Lemma SFcompare_Lt_irrefl (x : spec_float) : SFcompare x x <> Some Lt.
Proof.
  destruct x as [[]|[]| |[] m e]; simpl; try discriminate.
  all: rewrite Z.compare_refl.
  all: change (Pos.compare_cont Eq m m) with (Pos.compare m m).
  all: rewrite Pos.compare_refl; discriminate.
Qed.

Lemma SFcompare_Lt_trans (x y z : spec_float) :
  SFcompare x y = Some Lt -> SFcompare y z = Some Lt -> SFcompare x z = Some Lt.
Proof.
  destruct x as [[]|[]| |[] mx ex], y as [[]|[]| |[] my ey],
           z as [[]|[]| |[] mz ez]; simpl; try discriminate; try reflexivity.
  all: change (Pos.compare_cont Eq mx my) with (Pos.compare mx my).
  all: change (Pos.compare_cont Eq my mz) with (Pos.compare my mz).
  all: change (Pos.compare_cont Eq mx mz) with (Pos.compare mx mz).
  all: destruct (Z.compare_spec ex ey), (Z.compare_spec ey ez),
         (Z.compare_spec ex ez); try discriminate; try lia; try reflexivity.
  all: destruct (Pos.compare_spec mx my), (Pos.compare_spec my mz),
         (Pos.compare_spec mx mz); simpl; try discriminate; try lia;
         try reflexivity.
Qed.

Lemma ltb_irrefl (x : float) : (x <? x)%float = false.
Proof.
  rewrite ltb_spec. unfold SFltb.
  pose proof (SFcompare_Lt_irrefl (Prim2SF x)) as H.
  destruct (SFcompare (Prim2SF x) (Prim2SF x)) as [[]|]; congruence.
Qed.

Lemma ltb_trans (x y z : float) :
  (x <? y)%float = true -> (y <? z)%float = true -> (x <? z)%float = true.
Proof.
  rewrite !ltb_spec. unfold SFltb. intros H1 H2.
  rewrite (SFcompare_Lt_trans (Prim2SF x) (Prim2SF y) (Prim2SF z)).
  - reflexivity.
  - destruct (SFcompare (Prim2SF x) (Prim2SF y)) as [[]|]; congruence.
  - destruct (SFcompare (Prim2SF y) (Prim2SF z)) as [[]|]; congruence.
Qed.

Lemma ltb_false_of_lt (x y : float) :
  (x <? y)%float = true -> (y <? x)%float = false.
Proof.
  intros H. destruct (y <? x)%float eqn:E; [|reflexivity].
  pose proof (ltb_trans _ _ _ H E) as Hxx.
  rewrite ltb_irrefl in Hxx. discriminate.
Qed.

(** The running maximum of [max]: it is the start value or exceeds it, it
    is an element of the list, and no element exceeds it. *)
Lemma running_max_spec (xs : list float) (x : float) :
  let m := fold_left (fun m y => if (m <? y)%float then y else m) xs x in
  (m = x \/ (x <? m)%float = true) /\
  In m (x :: xs) /\
  forall y, In y (x :: xs) -> (m <? y)%float = false.
Proof.
  revert x. induction xs as [|y xs IH]; intros x; cbn zeta.
  - simpl. split; [left; reflexivity|]. split; [left; reflexivity|].
    intros y [<-|[]]. apply ltb_irrefl.
  - cbn [fold_left].
    destruct (x <? y)%float eqn:Hxy.
    + destruct (IH y) as (Hup & Hin & Hub).
      set (m := fold_left _ xs y) in *.
      assert (Hxm : (x <? m)%float = true).
      { destruct Hup as [->|Hym]; [assumption|]. exact (ltb_trans _ _ _ Hxy Hym). }
      split; [right; exact Hxm|]. split; [right; exact Hin|].
      intros z [<-|Hz]; [|exact (Hub z Hz)].
      apply ltb_false_of_lt, Hxm.
    + destruct (IH x) as (Hup & Hin & Hub).
      set (m := fold_left _ xs x) in *.
      split; [exact Hup|]. split.
      * destruct Hin as [Hm|Hin]; [left; exact Hm|right; right; exact Hin].
      * intros z [<-|[<-|Hz]].
        -- apply Hub. left. reflexivity.
        -- destruct Hup as [->|Hxm]; [exact Hxy|].
           destruct (m <? y)%float eqn:E; [|reflexivity].
           rewrite (ltb_trans _ _ _ Hxm E) in Hxy. discriminate.
        -- apply Hub. right. exact Hz.
Qed.

(** ** Programs *)

Lemma seq_bind_done {A B : Type} (m : prog A) (k : A -> prog B) (w w' : World) (a : A) :
  m w = Done a w' -> seq_bind m k w = k a w'.
Proof. intros H. unfold seq_bind. rewrite H. reflexivity. Qed.

Lemma seq_bind_fault {A B : Type} (m : prog A) (k : A -> prog B) (w w' : World) (e : exn) :
  m w = Fault e w' -> seq_bind m k w = Fault e w'.
Proof. intros H. unfold seq_bind. rewrite H. reflexivity. Qed.

Lemma seq_bind_inv {A B : Type} (m : prog A) (k : A -> prog B) (w w' : World) (b : B) :
  seq_bind m k w = Done b w' ->
  exists a w1, m w = Done a w1 /\ k a w1 = Done b w'.
Proof.
  unfold seq_bind. destruct (m w) as [a w1|e w1]; [|discriminate]. eauto.
Qed.

Lemma lift_inv {A : Type} (r : result A) (w w' : World) (a : A) :
  lift r w = Done a w' -> r = Ok a /\ w' = w.
Proof.
  unfold lift. destruct r; intros H; inversion H. split; reflexivity.
Qed.

Lemma lift_world {A : Type} (r : result A) (w : World) :
  final_world (lift r w) = w.
Proof. unfold lift. destruct r; reflexivity. Qed.

(** The loop over a loader that is the concatenation of two. *)
Lemma for_batches_app (body : Batch -> Stats -> prog Stats)
    (l1 l2 : list (result Batch)) (st : Stats) (w : World) :
  for_batches body (l1 ++ l2) st w
  = match for_batches body l1 st w with
    | Done st' w' => for_batches body l2 st' w'
    | Fault e w' => Fault e w'
    end.
Proof.
  revert st w. induction l1 as [|fetch l1 IH]; intros st w; [reflexivity|].
  cbn [app for_batches]. unfold seq_bind.
  destruct (lift fetch w) as [b w1|e w1]; [|reflexivity].
  destruct (body b st w1) as [st1 w2|e w2]; [|reflexivity].
  apply IH.
Qed.

(** A loop that finished fetched every batch and ran the body on each. *)
Lemma for_batches_done (body : Batch -> Stats -> prog Stats)
    (loader : list (result Batch)) (st st' : Stats) (w w' : World) :
  for_batches body loader st w = Done st' w' ->
  exists bs, loader = map Ok bs.
Proof.
  revert st w. induction loader as [|fetch rest IH]; intros st w H.
  - exists []. reflexivity.
  - cbn [for_batches] in H.
    apply seq_bind_inv in H. destruct H as (b & w1 & Hb & H).
    apply lift_inv in Hb. destruct Hb as [-> ->].
    apply seq_bind_inv in H. destruct H as (st1 & w2 & _ & H).
    destruct (IH _ _ H) as (bs & ->). exists (b :: bs). reflexivity.
Qed.

Lemma for_batches_cons (body : Batch -> Stats -> prog Stats) (b : Batch)
    (bs : list Batch) (st st' : Stats) (w w' : World) :
  for_batches body (map Ok (b :: bs)) st w = Done st' w' ->
  exists st1 w1, body b st w = Done st1 w1 /\
                 for_batches body (map Ok bs) st1 w1 = Done st' w'.
Proof.
  cbn [map for_batches]. intros H.
  apply seq_bind_inv in H. destruct H as (b' & w1 & Hb & H).
  apply lift_inv in Hb. destruct Hb as [Hb ->]. inversion Hb; subst b'.
  apply seq_bind_inv in H. exact H.
Qed.

Lemma for_epochs_app (es1 es2 : list nat) (w : World) :
  for_epochs (es1 ++ es2) w
  = match for_epochs es1 w with
    | Done _ w' => for_epochs es2 w'
    | Fault e w' => Fault e w'
    end.
Proof.
  revert w. induction es1 as [|e es1 IH]; intros w; [reflexivity|].
  cbn [app for_epochs]. unfold seq_bind.
  destruct (epoch_body e w) as [[] w1|x w1]; [|reflexivity].
  apply IH.
Qed.

(** ** One batch *)

Lemma bind_inv {A B : Type} (m : result A) (k : A -> result B) (b : B) :
  bind m k = Ok b -> exists a, m = Ok a /\ k a = Ok b.
Proof. destruct m as [a|e]; simpl; [eauto|discriminate]. Qed.

Lemma update_stats_done (loss : Loss) (x : list Sample) (preds y : list Z)
    (st st' : Stats) :
  update_stats loss x preds y st = Ok st' ->
  exists wl m n,
    Py.mul (Py.Float (item loss)) (Py.Int (Torch.size0 x)) = Ok wl /\
    Py.add (running_loss st) wl = Ok (running_loss st') /\
    Torch.eq preds y = Ok m /\
    Py.add (running_corrects st) (Py.Int (Torch.sum_item m)) = Ok (running_corrects st') /\
    Py.pyfloat (Py.Int (Torch.size0 y)) = Ok n /\
    Py.add (total st) n = Ok (total st').
Proof.
  unfold update_stats. intros H.
  apply bind_inv in H. destruct H as (wl & Hwl & H).
  apply bind_inv in H. destruct H as (rl & Hrl & H).
  apply bind_inv in H. destruct H as (m & Hm & H).
  apply bind_inv in H. destruct H as (rc & Hrc & H).
  apply bind_inv in H. destruct H as (n & Hn & H).
  apply bind_inv in H. destruct H as (t & Ht & H).
  inversion H; subst st'; cbn [running_loss running_corrects total].
  exists wl, m, n. repeat split; assumption.
Qed.

Lemma train_batch_done (b : Batch) (st st' : Stats) (w w' : World) :
  train_batch b st w = Done st' w' ->
  exists output bufs loss g p o,
    cuda_fault = None /\
    forward (params w) (buffers w) (training w) (grad_enabled w) (data b)
      = Ok (output, bufs) /\
    criterion output (labels b) = Ok loss /\
    backward loss (zero_grad (grads w)) = Ok g /\
    sgd_step (params w) g (opt_state w) = Ok (p, o) /\
    update_stats loss (data b) (map argmax (rows output)) (labels b) st = Ok st' /\
    w' = after_train_batch bufs g p o w.
Proof.
  unfold train_batch, seq_bind, optimizer_zero_grad, modify, cuda, lift, model,
    loss_backward, optimizer_step, after_train_batch.
  destruct cuda_fault as [e|]; [discriminate|].
  cbn [log set_grads set_buffers set_params params buffers training grad_enabled
       grads opt_state].
  destruct (forward _ _ _ _ _) as [[output bufs]|e] eqn:Hf; [|discriminate].
  destruct (criterion output (labels b)) as [loss|e] eqn:Hc; [|discriminate].
  cbn [log set_grads set_buffers set_params params buffers training grad_enabled
       grads opt_state].
  destruct (backward loss _) as [g|e] eqn:Hb; [|discriminate].
  cbn [log set_grads set_buffers set_params params buffers training grad_enabled
       grads opt_state].
  destruct (sgd_step _ _ _) as [[p o]|e] eqn:Hs; [|discriminate].
  destruct (update_stats _ _ _ _ _) as [st1|e] eqn:Hst; [|discriminate].
  intros H. inversion H; subst.
  exists output, bufs, loss, g, p, o. repeat split; assumption || reflexivity.
Qed.

Lemma val_batch_done (b : Batch) (st st' : Stats) (w w' : World) :
  val_batch b st w = Done st' w' ->
  exists output bufs loss,
    cuda_fault = None /\
    forward (params w) (buffers w) (training w) (grad_enabled w) (data b)
      = Ok (output, bufs) /\
    criterion output (labels b) = Ok loss /\
    update_stats loss (data b) (map argmax (rows output)) (labels b) st = Ok st' /\
    w' = set_buffers bufs (log (CForward (training w) (grad_enabled w)) w).
Proof.
  unfold val_batch, seq_bind, cuda, lift, model.
  destruct cuda_fault as [e|]; [discriminate|].
  cbn [log set_buffers params buffers training grad_enabled].
  destruct (forward _ _ _ _ _) as [[output bufs]|e] eqn:Hf; [|discriminate].
  destruct (criterion output (labels b)) as [loss|e] eqn:Hc; [|discriminate].
  destruct (update_stats _ _ _ _ _) as [st1|e] eqn:Hst; [|discriminate].
  intros H. inversion H; subst.
  exists output, bufs, loss. repeat split; assumption || reflexivity.
Qed.

Lemma criterion_shape (output : Output) (y : list Z) (loss : Loss) :
  criterion output y = Ok loss -> length (rows output) = length y.
Proof.
  unfold criterion. destruct (Nat.eqb_spec (length (rows output)) (length y));
    [trivial|discriminate].
Qed.

Lemma train_batch_updates_stats : updates_stats train_batch.
Proof.
  intros b st st' w w' H.
  destruct (train_batch_done _ _ _ _ _ H)
    as (output & bufs & loss & g & p & o & _ & _ & Hc & _ & _ & Hu & _).
  exists loss, output. split; [exact (criterion_shape _ _ _ Hc)|exact Hu].
Qed.

Lemma val_batch_updates_stats : updates_stats val_batch.
Proof.
  intros b st st' w w' H.
  destruct (val_batch_done _ _ _ _ _ H)
    as (output & bufs & loss & _ & _ & Hc & Hu & _).
  exists loss, output. split; [exact (criterion_shape _ _ _ Hc)|exact Hu].
Qed.

(** ** Counting samples and correct predictions *)

Lemma zip_eqb_length (a b : list Z) :
  (length (Torch.zip_eqb a b) <= length b)%nat.
Proof.
  revert b. induction a as [|x a IH]; intros [|y b]; simpl; try lia.
  specialize (IH b). lia.
Qed.

Lemma sum_item_bounds (m : list bool) :
  0 <= Torch.sum_item m <= Z.of_nat (length m).
Proof.
  unfold Torch.sum_item. split; [lia|].
  apply Nat2Z.inj_le. induction m as [|[] m IH]; simpl; lia.
Qed.

Lemma eq_count_bounds (preds y : list Z) (m : list bool) :
  length preds = length y -> Torch.eq preds y = Ok m ->
  0 <= Torch.sum_item m <= Torch.size0 y.
Proof.
  intros Hlen. unfold Torch.eq. rewrite Hlen, Nat.eqb_refl.
  intros H. inversion H; subst m.
  pose proof (sum_item_bounds (Torch.zip_eqb preds y)).
  pose proof (zip_eqb_length preds y). unfold Torch.size0. lia.
Qed.

Lemma counted_stats0 : counted 0 stats0.
Proof.
  split; [left; split; reflexivity|]. exists 0. split; [reflexivity|lia].
Qed.

Lemma count_value_to_float (v : Py.num) (n : Z) :
  count_value v n -> 0 <= n <= 2 ^ 53 -> Py.to_float v = Ok (Py.float_of_Z n).
Proof.
  intros [[-> ->]| ->] Hn; [|reflexivity].
  apply int_to_float_count. lia.
Qed.

Lemma size0_nonneg {A : Type} (t : list A) : 0 <= Torch.size0 t.
Proof. unfold Torch.size0. lia. Qed.

Lemma samples_nonneg (bs : list Batch) : 0 <= samples bs.
Proof.
  induction bs as [|b bs IH]; simpl; [lia|].
  pose proof (size0_nonneg (labels b)). lia.
Qed.

Lemma add_float_is_float (a : Py.num) (f : float) (r : Py.num) :
  Py.add a (Py.Float f) = Ok r -> exists g, r = Py.Float g.
Proof.
  destruct a as [z|g]; simpl; intros H.
  - apply bind_inv in H. destruct H as (fa & _ & H). inversion H. eauto.
  - inversion H. eauto.
Qed.

Lemma mul_float_is_float (f : float) (b r : Py.num) :
  Py.mul (Py.Float f) b = Ok r -> exists g, r = Py.Float g.
Proof.
  destruct b as [z|g]; simpl; intros H.
  - apply bind_inv in H. destruct H as (fb & _ & H). inversion H. eauto.
  - inversion H. eauto.
Qed.

Lemma update_stats_counted (loss : Loss) (x : list Sample) (preds y : list Z)
    (st st' : Stats) (n : Z) :
  counted n st -> 0 <= n -> n + Torch.size0 y <= 2 ^ 53 ->
  length preds = length y ->
  update_stats loss x preds y st = Ok st' ->
  total st' = Py.Float (Py.float_of_Z (n + Torch.size0 y)) /\
  (exists c, running_corrects st' = Py.Int c /\ 0 <= c <= n + Torch.size0 y) /\
  (exists f, running_loss st' = Py.Float f).
Proof.
  intros [Ht (c & Hc & Hcn)] Hn Hsum Hlen Hu.
  pose proof (size0_nonneg y) as Hy.
  destruct (update_stats_done _ _ _ _ _ _ Hu)
    as (wl & m & k & Hwl & Hrl & Hm & Hrc & Hk & Htot).
  split; [|split].
  - unfold Py.pyfloat in Hk. cbn [Py.to_float] in Hk.
    rewrite int_to_float_count in Hk by lia. simpl in Hk. inversion Hk; subst k.
    assert (Hadd : Py.add (total st) (Py.Float (Py.float_of_Z (Torch.size0 y)))
                   = Ok (Py.Float (Py.float_of_Z n + Py.float_of_Z (Torch.size0 y)))).
    { assert (Hf : Py.to_float (total st) = Ok (Py.float_of_Z n))
        by (apply count_value_to_float; [assumption|lia]).
      destruct (total st) as [z|g]; cbn [Py.add Py.to_float] in *.
      - rewrite Hf. reflexivity.
      - inversion Hf. reflexivity. }
    rewrite Hadd in Htot. inversion Htot.
    rewrite float_of_Z_add by lia. reflexivity.
  - rewrite Hc in Hrc. simpl in Hrc. inversion Hrc.
    pose proof (eq_count_bounds _ _ _ Hlen Hm).
    eexists. split; [reflexivity|lia].
  - destruct (mul_float_is_float _ _ _ Hwl) as (g & ->).
    exact (add_float_is_float _ _ _ Hrl).
Qed.

Lemma for_batches_counted (body : Batch -> Stats -> prog Stats) :
  updates_stats body ->
  forall (bs : list Batch) (st st' : Stats) (w w' : World) (n : Z),
    counted n st -> 0 <= n -> n + samples bs <= 2 ^ 53 ->
    for_batches body (map Ok bs) st w = Done st' w' ->
    counted (n + samples bs) st' /\
    (bs <> [] ->
     total st' = Py.Float (Py.float_of_Z (n + samples bs)) /\
     exists f, running_loss st' = Py.Float f).
Proof.
  intros Hbody bs. induction bs as [|b bs IH]; intros st st' w w' n Hst Hn Hsum H.
  - simpl in H. inversion H; subst. simpl. rewrite Z.add_0_r.
    split; [assumption|]. intros []; reflexivity.
  - apply for_batches_cons in H. destruct H as (st1 & w1 & Hb & H).
    destruct (Hbody _ _ _ _ _ Hb) as (loss & output & Hlen & Hu).
    pose proof (samples_nonneg bs) as Hs.
    pose proof (size0_nonneg (labels b)) as Hy.
    cbn [samples fold_right] in Hsum |- *. fold (samples bs) in Hsum |- *.
    destruct (update_stats_counted loss (data b) (map argmax (rows output))
                (labels b) st st1 n) as (Ht1 & Hc1 & Hl1);
      try assumption; try lia.
    { rewrite length_map. exact Hlen. }
    assert (Hst1 : counted (n + Torch.size0 (labels b)) st1).
    { split; [right; exact Ht1|exact Hc1]. }
    destruct (IH st1 st' w1 w' (n + Torch.size0 (labels b))) as (Hfin & Hne);
      try assumption; try lia.
    rewrite Z.add_assoc. split; [exact Hfin|]. intros _.
    destruct bs as [|b' bs'].
    + simpl in H. inversion H; subst. simpl. rewrite Z.add_0_r.
      split; assumption.
    + apply Hne. discriminate.
Qed.

(** ** One epoch *)

Lemma train_done (loader : list (result Batch)) (w w' : World) (r : float * float) :
  train loader w = Done r w' ->
  exists st, for_batches train_batch loader stats0 (train_start w) = Done st w' /\
             epoch_means st = Ok r.
Proof.
  unfold train, seq_bind, model_train, modify, train_start.
  destruct (for_batches _ _ _ _) as [st w1|e w1]; [|discriminate].
  intros H. apply lift_inv in H. destruct H as [H ->]. eauto.
Qed.

Lemma val_done (loader : list (result Batch)) (w w' : World) (r : float * float) :
  val loader w = Done r w' ->
  exists st w1, for_batches val_batch loader stats0 (val_start w) = Done st w1 /\
                w' = set_grad_enabled (grad_enabled w) w1 /\
                epoch_means st = Ok r.
Proof.
  unfold val, seq_bind, model_eval, modify, no_grad, val_start.
  cbn [grad_enabled set_training log].
  destruct (for_batches _ _ _ _) as [st w1|e w1]; [|discriminate].
  intros H. apply lift_inv in H. destruct H as [H ->]. eauto.
Qed.

Lemma epoch_means_inv (st : Stats) (l a : float) :
  epoch_means st = Ok (l, a) ->
  Py.truediv (running_loss st) (total st) = Ok l /\
  Py.truediv (running_corrects st) (total st) = Ok a.
Proof.
  unfold epoch_means. intros H.
  apply bind_inv in H. destruct H as (l' & Hl & H).
  apply bind_inv in H. destruct H as (a' & Ha & H).
  inversion H; subst. split; assumption.
Qed.

Lemma truediv_by_zero_count (v t : Py.num) (r : float) :
  count_value t 0 -> Py.truediv v t = Ok r -> False.
Proof.
  intros [[-> _]| ->]; destruct v as [z|f];
    cbn [Py.truediv Py.to_float bind]; intros H.
  - simpl in H. discriminate.
  - vm_compute in H. discriminate.
  - destruct (Py.int_to_float z); cbn [bind] in H; [|discriminate].
    change (Py.float_of_Z 0 =? 0)%float with true in H. discriminate.
  - change (Py.float_of_Z 0 =? 0)%float with true in H. discriminate.
Qed.

Lemma epoch_means_counts (st : Stats) (n c : Z) (f : float) :
  total st = Py.Float (Py.float_of_Z n) ->
  running_corrects st = Py.Int c ->
  running_loss st = Py.Float f ->
  0 <= c <= n -> 1 <= n <= 2 ^ 53 ->
  epoch_means st
  = Ok ((f / Py.float_of_Z n)%float, (Py.float_of_Z c / Py.float_of_Z n)%float).
Proof.
  intros Ht Hc Hf Hcn Hn. unfold epoch_means. rewrite Ht, Hc, Hf.
  cbn [Py.truediv Py.to_float bind].
  rewrite int_to_float_count by lia. cbn [bind].
  rewrite float_of_Z_nonzero by lia. reflexivity.
Qed.

Lemma samples_app (p q : list Batch) : samples (p ++ q) = samples p + samples q.
Proof.
  induction p as [|b p IH]; simpl; [reflexivity|].
  fold (samples (p ++ q)). fold (samples p). rewrite IH. lia.
Qed.

Lemma for_batches_prefix (body : Batch -> Stats -> prog Stats) (p q : list Batch)
    (st st' : Stats) (w w' : World) :
  for_batches body (map Ok (p ++ q)) st w = Done st' w' ->
  exists st1 w1, for_batches body (map Ok p) st w = Done st1 w1 /\
                 for_batches body (map Ok q) st1 w1 = Done st' w'.
Proof.
  rewrite map_app, for_batches_app.
  destruct (for_batches body (map Ok p) st w) as [st1 w1|e w1]; [|discriminate].
  eauto.
Qed.

Lemma count_value_exact (v : Py.num) (n : Z) :
  count_value v n -> 0 <= n <= 2 ^ 53 -> Py.eqb v (Py.Int n) = true.
Proof.
  intros [[-> ->]| ->] Hn; simpl; [reflexivity|].
  apply float_of_Z_exact, Hn.
Qed.

(** What one epoch over the batches [bs] does to the statistics, whichever
    loop body runs. *)
Lemma epoch_counts (body : Batch -> Stats -> prog Stats) (bs : list Batch)
    (st : Stats) (w w' : World) (r : float * float) :
  updates_stats body -> samples bs <= 2 ^ 53 ->
  for_batches body (map Ok bs) stats0 w = Done st w' ->
  epoch_means st = Ok r ->
  1 <= samples bs /\
  exists c f,
    total st = Py.Float (Py.float_of_Z (samples bs)) /\
    running_corrects st = Py.Int c /\ 0 <= c <= samples bs /\
    running_loss st = Py.Float f /\
    r = ((f / Py.float_of_Z (samples bs))%float,
         (Py.float_of_Z c / Py.float_of_Z (samples bs))%float).
Proof.
  intros Hbody Hsum Hloop Hmeans.
  pose proof (samples_nonneg bs) as Hs.
  destruct (for_batches_counted body Hbody bs stats0 st w w' 0 counted_stats0)
    as ((Ht & c & Hc & Hcn) & Hne); try assumption; try lia.
  rewrite Z.add_0_l in *.
  assert (Hpos : 1 <= samples bs).
  { destruct (Z_lt_le_dec (samples bs) 1) as [Hz|]; [|assumption]. exfalso.
    assert (E : samples bs = 0) by lia. rewrite E in Ht.
    destruct r as [l a]. apply epoch_means_inv in Hmeans.
    exact (truediv_by_zero_count _ _ _ Ht (proj1 Hmeans)). }
  split; [exact Hpos|].
  destruct Hne as (Ht' & f & Hf).
  { intros ->. simpl in Hpos. lia. }
  exists c, f. repeat split; try assumption; try lia.
  rewrite (epoch_means_counts st (samples bs) c f) in Hmeans by (assumption || lia).
  inversion Hmeans. reflexivity.
Qed.

(** ** The statistics of an epoch (claims C1, C4, C9) *)

Lemma epoch_invariant_holds (body : Batch -> Stats -> prog Stats) (w0 w1 : World)
    (bs : list Batch) (st : Stats) (r : float * float) :
  updates_stats body -> samples bs <= 2 ^ 53 ->
  for_batches body (map Ok bs) stats0 w0 = Done st w1 ->
  epoch_means st = Ok r ->
  epoch_invariant body w0 bs r.
Proof.
  intros Hbody Hsum Hloop Hmeans.
  pose proof (samples_nonneg bs) as Hs.
  exists st, w1. split; [exact Hloop|]. split; [|split].
  - intros k.
    pose proof Hloop as Hl. rewrite <- (firstn_skipn k bs) in Hl.
    apply for_batches_prefix in Hl. destruct Hl as (st_k & w_k & Hk & _).
    exists st_k, w_k. split; [exact Hk|].
    assert (Hle : samples (firstn k bs) <= samples bs).
    { rewrite <- (firstn_skipn k bs) at 2. rewrite samples_app.
      pose proof (samples_nonneg (skipn k bs)). lia. }
    pose proof (samples_nonneg (firstn k bs)) as Hk0.
    destruct (for_batches_counted body Hbody (firstn k bs) stats0 st_k w0 w_k 0
                counted_stats0) as ((Ht & _) & _); try assumption; try lia.
    rewrite Z.add_0_l in Ht. apply count_value_exact; [exact Ht|lia].
  - destruct (for_batches_counted body Hbody bs stats0 st w0 w1 0 counted_stats0)
      as ((Ht & _) & _); try assumption; try lia.
    rewrite Z.add_0_l in Ht. apply count_value_exact; [exact Ht|lia].
  - destruct r as [l a]. exact (epoch_means_inv _ _ _ Hmeans).
Qed.

(** An epoch of at most 2^45 batches of at most [batch_size] samples
    holds at most 2^53 samples. *)
Lemma loader_epoch_in_range (bs : list Batch) :
  (forall b, In b bs -> Torch.size0 (labels b) <= batch_size) ->
  Z.of_nat (length bs) <= 2 ^ 45 ->
  samples bs <= 2 ^ 53.
Proof.
  intros Hsz Hlen.
  assert (H : samples bs <= batch_size * Z.of_nat (length bs)).
  { clear Hlen. induction bs as [|b bs IH]; [simpl; lia|].
    cbn [samples fold_right length]. fold (samples bs).
    assert (Hb : Torch.size0 (labels b) <= batch_size) by (apply Hsz; left; reflexivity).
    assert (Hr : samples bs <= batch_size * Z.of_nat (length bs))
      by (apply IH; intros b' Hin; apply Hsz; right; exact Hin).
    lia. }
  unfold batch_size in *. lia.
Qed.

Lemma total_is_exact (body : Batch -> Stats -> prog Stats) (bs : list Batch)
    (st : Stats) (w0 w1 : World) :
  updates_stats body -> samples bs <= 2 ^ 53 ->
  for_batches body (map Ok bs) stats0 w0 = Done st w1 ->
  Py.eqb (total st) (Py.Int (samples bs)) = true.
Proof.
  intros Hbody Hsum Hloop. pose proof (samples_nonneg bs) as Hs.
  destruct (for_batches_counted body Hbody bs stats0 st w0 w1 0 counted_stats0)
    as ((Ht & _) & _); try assumption; try lia.
  rewrite Z.add_0_l in Ht. apply count_value_exact; [exact Ht|lia].
Qed.


Lemma batch_corrects_increment (body : Batch -> Stats -> prog Stats) :
  updates_stats body ->
  forall b st st' w w' c,
    body b st w = Done st' w' -> running_corrects st = Py.Int c ->
    exists d, running_corrects st' = Py.Int (c + d) /\
              0 <= d <= Torch.size0 (labels b).
Proof.
  intros Hbody b st st' w w' c Hb Hc.
  destruct (Hbody _ _ _ _ _ Hb) as (loss & output & Hlen & Hu).
  destruct (update_stats_done _ _ _ _ _ _ Hu)
    as (wl & m & k & _ & _ & Hm & Hrc & _ & _).
  rewrite Hc in Hrc. simpl in Hrc. inversion Hrc.
  exists (Torch.sum_item m). split; [reflexivity|].
  apply (eq_count_bounds (map argmax (rows output))); [|exact Hm].
  rewrite length_map. exact Hlen.
Qed.

Lemma accuracy_bounds (body : Batch -> Stats -> prog Stats) (bs : list Batch)
    (st : Stats) (w w' : World) (l a : float) :
  updates_stats body -> samples bs <= 2 ^ 53 ->
  for_batches body (map Ok bs) stats0 w = Done st w' ->
  epoch_means st = Ok (l, a) ->
  (0 <=? a)%float = true /\ (a <=? 1)%float = true.
Proof.
  intros Hbody Hsum Hloop Hmeans.
  destruct (epoch_counts body bs st w w' (l, a) Hbody Hsum Hloop Hmeans)
    as (Hpos & c & f & _ & _ & Hc & _ & Hr).
  inversion Hr; subst. apply float_of_Z_ratio; lia.
Qed.

(** C4: each batch adds to the count of correct predictions at most what
    it adds to the count of samples, and the accuracy that an epoch of
    [train] or [val] returns lies in [0, 1]. The side condition is that
    the epoch holds at most 2^53 samples, the range in which the float
    that counts them is exact ([loader_epoch_in_range]). *)
Theorem accuracy_in_unit_interval :
  (forall b st st' w w' c,
      train_batch b st w = Done st' w' \/ val_batch b st w = Done st' w' ->
      running_corrects st = Py.Int c ->
      exists d, running_corrects st' = Py.Int (c + d) /\
                0 <= d <= Torch.size0 (labels b)) /\
  (forall bs w w' l a,
      samples bs <= 2 ^ 53 ->
      train (map Ok bs) w = Done (l, a) w' \/ val (map Ok bs) w = Done (l, a) w' ->
      (0 <=? a)%float = true /\ (a <=? 1)%float = true).
Proof.
  split.
  - intros b st st' w w' c [H|H] Hc.
    + exact (batch_corrects_increment _ train_batch_updates_stats _ _ _ _ _ _ H Hc).
    + exact (batch_corrects_increment _ val_batch_updates_stats _ _ _ _ _ _ H Hc).
  - intros bs w w' l a Hsum [H|H].
    + apply train_done in H. destruct H as (st & Hloop & Hmeans).
      exact (accuracy_bounds _ _ _ _ _ _ _ train_batch_updates_stats Hsum Hloop Hmeans).
    + apply val_done in H. destruct H as (st & w1 & Hloop & _ & Hmeans).
      exact (accuracy_bounds _ _ _ _ _ _ _ val_batch_updates_stats Hsum Hloop Hmeans).
Qed.

Lemma means_defined (body : Batch -> Stats -> prog Stats) (bs : list Batch)
    (st : Stats) (w w' : World) :
  updates_stats body -> 1 <= samples bs <= 2 ^ 53 ->
  for_batches body (map Ok bs) stats0 w = Done st w' ->
  exists r, epoch_means st = Ok r.
Proof.
  intros Hbody Hsum Hloop.
  destruct (for_batches_counted body Hbody bs stats0 st w w' 0 counted_stats0)
    as ((_ & c & Hc & Hcn) & Hne); try assumption; try lia.
  rewrite Z.add_0_l in *.
  destruct Hne as (Ht & f & Hf).
  { intros ->. simpl in Hsum. lia. }
  eexists. apply (epoch_means_counts st (samples bs) c f); assumption || lia.
Qed.

(** ** A count that is positive (claim C9)

    The sum of positive floats is positive under rounding, whatever its
    size, and an int below [2^1022] converts to a float. *)

Lemma shr_1_m (r : shr_record) : 0 <= shr_m r -> shr_m (shr_1 r) = shr_m r / 2.
Proof.
  destruct r as [m r s]. cbn [shr_m]. intros H.
  destruct m as [|[p|p|]|p]; cbn [shr_1 shr_m]; try reflexivity; try lia.
  - rewrite Pos2Z.inj_xI. apply Z.div_unique with (r := 1); lia.
  - rewrite Pos2Z.inj_xO. apply Z.div_unique with (r := 0); lia.
Qed.

Lemma iter_shr_1_m (k : positive) (r : shr_record) :
  0 <= shr_m r -> shr_m (iter_pos shr_1 k r) = shr_m r / 2 ^ Zpos k.
Proof.
  intros H. rewrite iter_pos_iter.
  induction k using Pos.peano_ind.
  - simpl (Pos.iter _ _ 1). apply shr_1_m, H.
  - rewrite Pos.iter_succ, shr_1_m.
    + rewrite IHk, Pos2Z.inj_succ, Z.pow_succ_r, Z.div_div by lia.
      f_equal. lia.
    + rewrite IHk. apply Z.div_pos; [exact H|]. apply Z.pow_pos_nonneg; lia.
Qed.

Lemma shr_fexp_range (m : positive) (e : Z) (l : location) :
  -1074 <= e ->
  exists mrs e',
    shr_fexp prec emax (Zpos m) e l = (mrs, e') /\
    1 <= shr_m mrs < 2 ^ 53 /\
    e <= e' <= Z.max e (Z.log2 (Zpos m) + e - 52).
Proof.
  intros He. unfold shr_fexp. rewrite Zdigits2_log2.
  pose proof (Z.log2_spec (Zpos m) (Pos2Z.is_pos m)) as [Hlo Hhi].
  pose proof (Z.log2_nonneg (Zpos m)) as HL.
  set (L := Z.log2 (Zpos m)) in *.
  replace (fexp prec emax (L + 1 + e) - e) with (Z.max (L - 52) (-1074 - e))
    by (unfold fexp, SpecFloat.emin, prec, emax; lia).
  destruct (Z.max (L - 52) (-1074 - e)) as [|p|p] eqn:En; cbn [shr].
  - eexists _, _. split; [reflexivity|].
    destruct (loc_of_record_of_loc (Zpos m) l) as (_ & ->).
    assert (L <= 52) by lia.
    assert (2 ^ (Z.succ L) <= 2 ^ 53) by (apply Z.pow_le_mono_r; lia).
    lia.
  - eexists _, _. split; [reflexivity|].
    rewrite iter_shr_1_m
      by (destruct (loc_of_record_of_loc (Zpos m) l) as (_ & ->); lia).
    destruct (loc_of_record_of_loc (Zpos m) l) as (_ & ->).
    assert (Ep : Zpos p = L - 52) by lia. rewrite Ep.
    assert (Hp : 0 < 2 ^ (L - 52)) by (apply Z.pow_pos_nonneg; lia).
    assert (E1 : 2 ^ L = 2 ^ (L - 52) * 2 ^ 52)
      by (rewrite <- Z.pow_add_r by lia; f_equal; lia).
    assert (E2 : 2 ^ Z.succ L = 2 ^ (L - 52) * 2 ^ 53)
      by (rewrite <- Z.pow_add_r by lia; f_equal; lia).
    split; [split|lia].
    + apply Z.le_trans with (2 ^ 52); [lia|].
      apply Z.div_le_lower_bound; lia.
    + apply Z.div_lt_upper_bound; lia.
  - eexists _, _. split; [reflexivity|].
    destruct (loc_of_record_of_loc (Zpos m) l) as (_ & ->).
    assert (L <= 52) by lia.
    assert (2 ^ (Z.succ L) <= 2 ^ 53) by (apply Z.pow_le_mono_r; lia).
    lia.
Qed.

(** Rounding a positive mantissa at an exponent that a float can have
    gives a positive float, or the positive infinity when the value is
    too large. *)
Lemma round_aux_positive (m : positive) (e : Z) (l : location) :
  -1074 <= e ->
  (exists m2 e2, binary_round_aux prec emax false (Zpos m) e l
                 = S754_finite false m2 e2 /\ -1074 <= e2) \/
  (binary_round_aux prec emax false (Zpos m) e l = S754_infinity false /\
   970 <= Z.max e (Z.log2 (Zpos m) + e - 52)).
Proof.
  intros He. unfold binary_round_aux.
  destruct (shr_fexp_range m e l He) as (mrs' & e' & -> & Hm' & He').
  pose proof (round_nearest_even_bounds (shr_m mrs') (loc_of_shr_record mrs')) as Hr.
  destruct (round_nearest_even (shr_m mrs') (loc_of_shr_record mrs')) as [|m1|m1] eqn:E1;
    try lia.
  destruct (shr_fexp_range m1 e' loc_Exact) as (mrs'' & e'' & -> & Hm'' & He''); [lia|].
  assert (HL1 : Z.log2 (Zpos m1) <= 53).
  { destruct (Z.eq_dec (Zpos m1) (2 ^ 53)) as [->|]; [reflexivity|].
    assert (Z.log2 (Zpos m1) < 53) by (apply Z.log2_lt_pow2; lia). lia. }
  destruct (shr_m mrs'') as [|m2|m2] eqn:E2; try lia.
  destruct (Z.leb_spec e'' (emax - prec)) as [Hle|Hgt].
  - left. exists m2, e''. split; [reflexivity|lia].
  - right. split; [reflexivity|]. unfold emax, prec in Hgt. lia.
Qed.

Lemma binary_round_positive (m : positive) (e : Z) :
  -1074 <= e ->
  (exists m2 e2, binary_round prec emax false m e = S754_finite false m2 e2) \/
  binary_round prec emax false m e = S754_infinity false.
Proof.
  intros He. unfold binary_round.
  assert (Hf : -1074 <= fexp prec emax (Zpos (digits2_pos m) + e))
    by (unfold fexp, SpecFloat.emin, prec, emax; lia).
  set (F := fexp prec emax (Zpos (digits2_pos m) + e)) in *.
  assert (Hez : -1074 <= snd (shl_align m e F)).
  { unfold shl_align. destruct (F - e); cbn [snd]; lia. }
  destruct (shl_align m e F) as [mz ez]. cbn [snd] in Hez.
  destruct (round_aux_positive mz ez loc_Exact Hez) as [(m2 & e2 & -> & _)|[-> _]]; eauto.
Qed.

Lemma valid_exponent (s : bool) (m : positive) (e : Z) :
  valid_binary (S754_finite s m e) = true -> -1074 <= e.
Proof.
  unfold valid_binary, bounded, canonical_mantissa. intros H.
  apply andb_true_iff in H. destruct H as [H _].
  apply Z.eqb_eq in H. rewrite <- H. unfold fexp, SpecFloat.emin, prec, emax. lia.
Qed.

Lemma SFadd_positive (x y : spec_float) :
  valid_binary x = true -> valid_binary y = true ->
  SFpositive x -> SFpositive y -> SFpositive (SF64add x y).
Proof.
  intros Vx Vy [(mx & ex & ->)| ->] [(my & ey & ->)| ->];
    try (right; reflexivity).
  apply valid_exponent in Vx, Vy.
  unfold SF64add, SFadd, binary_normalize. cbn [cond_Zopp].
  rewrite <- Pos2Z.inj_add.
  apply binary_round_positive. lia.
Qed.

Lemma SFpositive_ltb (x : spec_float) :
  SFpositive x -> SFltb (S754_zero false) x = true.
Proof. intros [(m & e & ->)| ->]; reflexivity. Qed.

Lemma positive_add (x y : float) :
  SFpositive (Prim2SF x) -> SFpositive (Prim2SF y) -> SFpositive (Prim2SF (x + y)).
Proof.
  intros Hx Hy. rewrite add_spec.
  apply SFadd_positive; try assumption; apply Prim2SF_valid.
Qed.

Lemma binary_round_finite (m : positive) :
  Z.log2 (Zpos m) < 1022 ->
  exists m2 e2, binary_round prec emax false m 0 = S754_finite false m2 e2.
Proof.
  intros HL. pose proof (Z.log2_nonneg (Zpos m)) as HL0.
  unfold binary_round. rewrite digits2_log2.
  replace (fexp prec emax (Z.log2 (Zpos m) + 1 + 0)) with (Z.log2 (Zpos m) - 52)
    by (unfold fexp, SpecFloat.emin, prec, emax; lia).
  unfold shl_align.
  destruct (Z.log2 (Zpos m) - 52 - 0) as [|d|d] eqn:Ed.
  - destruct (round_aux_positive m 0 loc_Exact) as [(m2 & e2 & -> & _)|[_ Hbig]];
      [lia|eauto|lia].
  - destruct (round_aux_positive m 0 loc_Exact) as [(m2 & e2 & -> & _)|[_ Hbig]];
      [lia|eauto|lia].
  - assert (Hlog : Z.log2 (Zpos (Pos.iter xO m d)) = 52).
    { rewrite iter_xO, Z.log2_mul_pow2 by lia. lia. }
    destruct (round_aux_positive (Pos.iter xO m d) (Z.log2 (Zpos m) - 52) loc_Exact)
      as [(m2 & e2 & -> & _)|[_ Hbig]]; [lia|eauto|].
    rewrite Hlog in Hbig. lia.
Qed.

Lemma int_to_float_defined (c : Z) :
  0 <= c < 2 ^ 1022 -> exists f, Py.int_to_float c = Ok f.
Proof.
  intros Hc. unfold Py.int_to_float, Py.nearest, binary_normalize.
  destruct c as [|p|p]; [eexists; reflexivity| |lia].
  assert (HL : Z.log2 (Zpos p) < 1022) by (apply Z.log2_lt_pow2; lia).
  destruct (binary_round_finite p HL) as (m2 & e2 & ->). eexists. reflexivity.
Qed.

Lemma float_of_Z_positive (n : Z) :
  1 <= n <= 2 ^ 53 -> SFpositive (Prim2SF (Py.float_of_Z n)).
Proof.
  intros Hn. rewrite float_of_Z_spec by lia.
  destruct (nearest_repr n Hn) as (m & e & -> & _). left. eauto.
Qed.

Lemma positive_count_nonzero (t : float) :
  SFpositive (Prim2SF t) -> (0 <? t)%float = true /\ (t =? 0)%float = false.
Proof.
  intros H. rewrite ltb_spec, eqb_spec.
  destruct H as [(m & e & ->)| ->]; split; reflexivity.
Qed.

Lemma update_stats_positive (loss : Loss) (x : list Sample) (preds y : list Z)
    (st st' : Stats) :
  1 <= Torch.size0 y <= 2 ^ 53 ->
  total st = Py.Int 0 \/ positive_count (total st) ->
  update_stats loss x preds y st = Ok st' ->
  positive_count (total st').
Proof.
  intros Hy Ht Hu.
  destruct (update_stats_done _ _ _ _ _ _ Hu) as (wl & m & k & _ & _ & _ & _ & Hk & Htot).
  unfold Py.pyfloat in Hk. cbn [Py.to_float] in Hk.
  rewrite int_to_float_count in Hk by lia. cbn [bind] in Hk. inversion Hk; subst k.
  pose proof (float_of_Z_positive _ Hy) as Hpos.
  destruct Ht as [Ht|(t & Ht & Hp)]; rewrite Ht in Htot; cbn [Py.add Py.to_float] in Htot.
  - rewrite int_to_float_count in Htot by lia. cbn [bind] in Htot.
    inversion Htot as [E]. eexists. split; [reflexivity|].
    rewrite add_spec, (float_of_Z_spec 0) by lia. rewrite nearest_0.
    destruct Hpos as [(m0 & e0 & ->)| ->];
      [left; eexists _, _; reflexivity|right; reflexivity].
  - cbn [bind] in Htot. inversion Htot as [E]. eexists. split; [reflexivity|].
    apply positive_add; assumption.
Qed.

Lemma for_batches_positive (body : Batch -> Stats -> prog Stats) :
  updates_stats body ->
  forall (bs : list Batch) (st st' : Stats) (w w' : World),
    bs <> [] ->
    (forall b, In b bs -> 1 <= Torch.size0 (labels b) <= 2 ^ 53) ->
    total st = Py.Int 0 \/ positive_count (total st) ->
    for_batches body (map Ok bs) st w = Done st' w' ->
    positive_count (total st').
Proof.
  intros Hbody bs. induction bs as [|b bs IH]; intros st st' w w' Hne Hsz Ht H;
    [congruence|].
  apply for_batches_cons in H. destruct H as (st1 & w1 & Hb & H).
  destruct (Hbody _ _ _ _ _ Hb) as (loss & output & _ & Hu).
  assert (H1 : positive_count (total st1)).
  { apply (update_stats_positive loss (data b) (map argmax (rows output)) (labels b)
             st st1); try assumption.
    apply Hsz. left. reflexivity. }
  destruct bs as [|b' bs'].
  - simpl in H. inversion H; subst. exact H1.
  - apply (IH st1 st' w1 w'); [discriminate| |right; exact H1|exact H].
    intros b0 Hin. apply Hsz. right. exact Hin.
Qed.

Lemma running_loss_is_float (body : Batch -> Stats -> prog Stats) :
  updates_stats body ->
  forall (bs : list Batch) (st st' : Stats) (w w' : World),
    bs <> [] ->
    for_batches body (map Ok bs) st w = Done st' w' ->
    exists f, running_loss st' = Py.Float f.
Proof.
  intros Hbody bs. induction bs as [|b bs IH]; intros st st' w w' Hne H; [congruence|].
  apply for_batches_cons in H. destruct H as (st1 & w1 & Hb & H).
  destruct (Hbody _ _ _ _ _ Hb) as (loss & output & _ & Hu).
  destruct (update_stats_done _ _ _ _ _ _ Hu) as (wl & m & k & Hwl & Hrl & _).
  destruct (mul_float_is_float _ _ _ Hwl) as (g & ->).
  destruct bs as [|b' bs'].
  - simpl in H. inversion H; subst. exact (add_float_is_float _ _ _ Hrl).
  - apply (IH st1 st' w1 w'); [discriminate|exact H].
Qed.

Lemma corrects_counted (body : Batch -> Stats -> prog Stats) :
  updates_stats body ->
  forall (bs : list Batch) (st st' : Stats) (w w' : World) (c : Z),
    running_corrects st = Py.Int c ->
    for_batches body (map Ok bs) st w = Done st' w' ->
    exists d, running_corrects st' = Py.Int (c + d) /\ 0 <= d <= samples bs.
Proof.
  intros Hbody bs. induction bs as [|b bs IH]; intros st st' w w' c Hc H.
  - simpl in H. inversion H; subst. exists 0. rewrite Z.add_0_r.
    split; [exact Hc|simpl; lia].
  - apply for_batches_cons in H. destruct H as (st1 & w1 & Hb & H).
    destruct (batch_corrects_increment body Hbody _ _ _ _ _ _ Hb Hc)
      as (d1 & Hc1 & Hd1).
    destruct (IH _ _ _ _ _ Hc1 H) as (d & Hc' & Hd).
    exists (d1 + d). rewrite Z.add_assoc. split; [exact Hc'|].
    cbn [samples fold_right]. fold (samples bs). lia.
Qed.

(** The divisions that end an epoch over batches that each hold a sample. *)
Lemma means_of_positive_count (body : Batch -> Stats -> prog Stats) (bs : list Batch)
    (st : Stats) (w w' : World) :
  updates_stats body -> bs <> [] ->
  (forall b, In b bs -> 1 <= Torch.size0 (labels b) <= 2 ^ 53) ->
  for_batches body (map Ok bs) stats0 w = Done st w' ->
  exists t,
    total st = Py.Float t /\ (0 <? t)%float = true /\
    (exists l, Py.truediv (running_loss st) (total st) = Ok l) /\
    Py.truediv (running_corrects st) (total st) <> Raise ZeroDivisionError /\
    (samples bs < 2 ^ 1022 -> exists r, epoch_means st = Ok r).
Proof.
  intros Hbody Hne Hsz Hloop.
  destruct (for_batches_positive body Hbody bs stats0 st w w' Hne Hsz
              (or_introl eq_refl) Hloop) as (t & Ht & Hpos).
  destruct (positive_count_nonzero t Hpos) as [Hlt Hnz].
  destruct (running_loss_is_float body Hbody bs stats0 st w w' Hne Hloop) as (f & Hf).
  destruct (corrects_counted body Hbody bs stats0 st w w' 0 eq_refl Hloop)
    as (c & Hc & Hcn).
  rewrite Z.add_0_l in Hc.
  assert (Hloss : Py.truediv (running_loss st) (total st) = Ok (f / t)%float).
  { rewrite Hf, Ht. cbn [Py.truediv Py.to_float bind]. rewrite Hnz. reflexivity. }
  exists t. split; [exact Ht|]. split; [exact Hlt|]. split; [eauto|]. split.
  - rewrite Hc, Ht. cbn [Py.truediv Py.to_float]. unfold Py.int_to_float.
    destruct (Py.nearest c); cbn [Py.finite_or_overflow bind]; rewrite ?Hnz;
      discriminate.
  - intros Hs. destruct (int_to_float_defined c) as (fc & Hfc); [lia|].
    exists ((f / t)%float, (fc / t)%float). unfold epoch_means.
    rewrite Hloss. cbn [bind]. rewrite Hc, Ht.
    cbn [Py.truediv Py.to_float]. rewrite Hfc. cbn [bind]. rewrite Hnz. reflexivity.
Qed.

(** C9: on an empty batch sequence the sample count stays zero and
    [train] and [val] stop at the division with [ZeroDivisionError]; on a
    sequence that is not empty, of batches that each hold a sample (at
    most 2^53 in a batch, as every batch of a loader does), the count is
    strictly positive whatever the number of samples and neither division
    divides by zero: when the loop over the batches finishes, the function
    returns its pair (fewer than 2^1022 samples in the epoch, beyond which
    an int no longer converts to a float). *)
Theorem epoch_means_division :
  (forall w, train [] w = Fault ZeroDivisionError (train_start w)) /\
  (forall w, val [] w
             = Fault ZeroDivisionError (set_grad_enabled (grad_enabled w) (val_start w))) /\
  (forall bs w st w1,
      1 <= samples bs <= 2 ^ 53 ->
      for_batches train_batch (map Ok bs) stats0 (train_start w) = Done st w1 ->
      exists r, train (map Ok bs) w = Done r w1) /\
  (forall bs w st w1,
      1 <= samples bs <= 2 ^ 53 ->
      for_batches val_batch (map Ok bs) stats0 (val_start w) = Done st w1 ->
      exists r, val (map Ok bs) w = Done r (set_grad_enabled (grad_enabled w) w1)) /\
  (forall w, for_batches train_batch [] stats0 w = Done stats0 w /\
             for_batches val_batch [] stats0 w = Done stats0 w /\
             Py.eqb (total stats0) (Py.Int 0) = true) /\
  (forall bs st w0 w1,
      bs <> [] ->
      (forall b, In b bs -> 1 <= Torch.size0 (labels b) <= 2 ^ 53) ->
      for_batches train_batch (map Ok bs) stats0 w0 = Done st w1 \/
      for_batches val_batch (map Ok bs) stats0 w0 = Done st w1 ->
      exists t,
        total st = Py.Float t /\ (0 <? t)%float = true /\
        (exists l, Py.truediv (running_loss st) (total st) = Ok l) /\
        Py.truediv (running_corrects st) (total st) <> Raise ZeroDivisionError /\
        (samples bs < 2 ^ 1022 -> exists r, epoch_means st = Ok r)) /\
  (forall bs w st w1,
      bs <> [] ->
      (forall b, In b bs -> 1 <= Torch.size0 (labels b) <= 2 ^ 53) ->
      samples bs < 2 ^ 1022 ->
      (for_batches train_batch (map Ok bs) stats0 (train_start w) = Done st w1 ->
       exists r, train (map Ok bs) w = Done r w1) /\
      (for_batches val_batch (map Ok bs) stats0 (val_start w) = Done st w1 ->
       exists r, val (map Ok bs) w = Done r (set_grad_enabled (grad_enabled w) w1))).
Proof.
  split; [|split; [|split; [|split; [|split; [|split]]]]].
  - intros w. reflexivity.
  - intros w. reflexivity.
  - intros bs w st w1 Hsum Hloop.
    destruct (means_defined _ _ _ _ _ train_batch_updates_stats Hsum Hloop) as (r & Hr).
    exists r. unfold train, seq_bind, model_train, modify.
    fold (train_start w). rewrite Hloop. unfold lift. rewrite Hr. reflexivity.
  - intros bs w st w1 Hsum Hloop.
    destruct (means_defined _ _ _ _ _ val_batch_updates_stats Hsum Hloop) as (r & Hr).
    exists r. unfold val, seq_bind, model_eval, modify, no_grad.
    cbn [grad_enabled set_training log]. fold (val_start w).
    rewrite Hloop. unfold lift. rewrite Hr. reflexivity.
  - intros w. repeat split; reflexivity.
  - intros bs st w0 w1 Hne Hsz [H|H].
    + exact (means_of_positive_count _ _ _ _ _ train_batch_updates_stats Hne Hsz H).
    + exact (means_of_positive_count _ _ _ _ _ val_batch_updates_stats Hne Hsz H).
  - intros bs w st w1 Hne Hsz Hs. split; intros Hloop.
    + destruct (means_of_positive_count _ _ _ _ _ train_batch_updates_stats Hne Hsz
                  Hloop) as (t & _ & _ & _ & _ & Hr).
      destruct (Hr Hs) as (r & Er).
      exists r. unfold train, seq_bind, model_train, modify.
      fold (train_start w). rewrite Hloop. unfold lift. rewrite Er. reflexivity.
    + destruct (means_of_positive_count _ _ _ _ _ val_batch_updates_stats Hne Hsz
                  Hloop) as (t & _ & _ & _ & _ & Hr).
      destruct (Hr Hs) as (r & Er).
      exists r. unfold val, seq_bind, model_eval, modify, no_grad.
      cbn [grad_enabled set_training log]. fold (val_start w).
      rewrite Hloop. unfold lift. rewrite Er. reflexivity.
Qed.

(** ** What an epoch leaves untouched *)

(** A relation between the world before and the world after that every
    step keeps holds across the whole loop, finished or not. *)
Lemma for_batches_world (R : World -> World -> Prop)
    (body : Batch -> Stats -> prog Stats) :
  (forall w, R w w) ->
  (forall w1 w2 w3, R w1 w2 -> R w2 w3 -> R w1 w3) ->
  (forall b st w, R w (final_world (body b st w))) ->
  forall loader st w, R w (final_world (for_batches body loader st w)).
Proof.
  intros Hrefl Htrans Hbody loader.
  induction loader as [|fetch rest IH]; intros st w; [apply Hrefl|].
  cbn [for_batches]. unfold seq_bind, lift.
  destruct fetch as [b|e]; [|apply Hrefl].
  pose proof (Hbody b st w) as Hb.
  destruct (body b st w) as [st1 w1|e w1]; [|exact Hb].
  exact (Htrans _ _ _ Hb (IH st1 w1)).
Qed.

Lemma val_keeps_refl (w : World) : val_keeps w w.
Proof.
  intros Ht Hg. repeat split; try assumption.
  exists 0%nat. simpl. rewrite app_nil_r. reflexivity.
Qed.

Lemma val_keeps_trans (w1 w2 w3 : World) :
  val_keeps w1 w2 -> val_keeps w2 w3 -> val_keeps w1 w3.
Proof.
  intros H12 H23 Ht Hg.
  destruct (H12 Ht Hg) as (Hp & Hgr & Ho & Hh & Ht2 & Hg2 & k1 & Hc1).
  destruct (H23 Ht2 Hg2) as (Hp' & Hgr' & Ho' & Hh' & Ht3 & Hg3 & k2 & Hc2).
  repeat split; try congruence.
  exists (k1 + k2)%nat. rewrite Hc2, Hc1, repeat_app, app_assoc. reflexivity.
Qed.

Lemma val_batch_keeps (b : Batch) (st : Stats) (w : World) :
  val_keeps w (final_world (val_batch b st w)).
Proof.
  intros Ht Hg.
  unfold val_batch, seq_bind, cuda, lift, model.
  destruct cuda_fault as [e|].
  { cbn [final_world]. apply val_keeps_refl; assumption. }
  cbn [log set_buffers params buffers training grad_enabled].
  rewrite Ht, Hg.
  assert (Hone : forall w', params w' = params w -> grads w' = grads w ->
                   opt_state w' = opt_state w -> history w' = history w ->
                   training w' = false -> grad_enabled w' = false ->
                   calls w' = calls w ++ [CForward false false] ->
                   params w' = params w /\ grads w' = grads w /\
                   opt_state w' = opt_state w /\ history w' = history w /\
                   training w' = false /\ grad_enabled w' = false /\
                   exists k, calls w' = calls w ++ repeat (CForward false false) k).
  { intros w' ? ? ? ? ? ? Hc. repeat split; try assumption. exists 1%nat. exact Hc. }
  destruct (forward _ _ _ _ _) as [[output bufs]|e]; cbn [final_world].
  - destruct (criterion output (labels b)) as [loss|e]; cbn [final_world].
    + destruct (update_stats _ _ _ _ _); cbn [final_world];
        apply Hone; try reflexivity; assumption.
    + apply Hone; try reflexivity; assumption.
  - apply Hone; try reflexivity; assumption.
Qed.

Lemma val_keeps_world (loader : list (result Batch)) (w : World) :
  let w' := final_world (val loader w) in
  params w' = params w /\ grads w' = grads w /\ opt_state w' = opt_state w /\
  history w' = history w /\ grad_enabled w' = grad_enabled w /\
  training w' = false /\
  exists k, calls w' = calls w ++ CEvalMode :: repeat (CForward false false) k.
Proof.
  cbn zeta.
  pose proof (for_batches_world val_keeps val_batch val_keeps_refl val_keeps_trans
                val_batch_keeps loader stats0 (val_start w)) as H.
  destruct H as (Hp & Hg & Ho & Hh & Ht & _ & k & Hc); try reflexivity.
  change (calls (val_start w)) with (calls w ++ [CEvalMode]) in Hc.
  rewrite <- app_assoc in Hc. cbn [app] in Hc.
  unfold val, seq_bind, model_eval, modify, no_grad.
  cbn [grad_enabled set_training log]. fold (val_start w).
  destruct (for_batches val_batch loader stats0 (val_start w)) as [st w1|e w1];
    cbn [final_world] in *.
  - unfold lift. destruct (epoch_means st); cbn [final_world].
    all: repeat split; try assumption; try reflexivity.
    all: exists k; exact Hc.
  - repeat split; try assumption; try reflexivity.
    exists k; exact Hc.
Qed.

(** C3: an epoch of [val], finished or stopped by a fault, leaves every
    parameter as it was, and the stored gradients and the optimizer state
    too: it makes no call to [backward] or to the optimizer, only forward
    passes in evaluation mode with gradients switched off. *)
Theorem val_never_alters_parameters (loader : list (result Batch)) (w : World) :
  params (final_world (val loader w)) = params w /\
  grads (final_world (val loader w)) = grads w /\
  opt_state (final_world (val loader w)) = opt_state w /\
  exists k, calls (final_world (val loader w))
            = calls w ++ CEvalMode :: repeat (CForward false false) k.
Proof.
  destruct (val_keeps_world loader w) as (Hp & Hg & Ho & _ & _ & _ & Hc).
  repeat split; assumption.
Qed.

Lemma train_batch_keeps (b : Batch) (st : Stats) (w : World) :
  train_keeps w (final_world (train_batch b st w)).
Proof.
  unfold train_keeps, train_batch, seq_bind, optimizer_zero_grad, modify, cuda,
    lift, model, loss_backward, optimizer_step.
  repeat (break_match; cbn [final_world]); repeat split; reflexivity.
Qed.

Lemma train_loop_keeps (loader : list (result Batch)) (st : Stats) (w : World) :
  train_keeps w (final_world (for_batches train_batch loader st w)).
Proof.
  apply for_batches_world.
  - intros w0. repeat split; reflexivity.
  - intros w1 w2 w3 (H1 & H2 & H3) (H1' & H2' & H3'). repeat split; congruence.
  - apply train_batch_keeps.
Qed.

Lemma train_keeps_history (loader : list (result Batch)) (w : World) :
  history (final_world (train loader w)) = history w.
Proof.
  pose proof (train_loop_keeps loader stats0 (train_start w)) as (Hh & _).
  unfold train, seq_bind, model_train, modify. fold (train_start w).
  destruct (for_batches train_batch loader stats0 (train_start w)) as [st w1|e w1];
    cbn [final_world] in *; [|exact Hh].
  rewrite lift_world. exact Hh.
Qed.

Lemma val_keeps_history (loader : list (result Batch)) (w : World) :
  history (final_world (val loader w)) = history w.
Proof. apply val_keeps_world. Qed.

(** ** The steps of [train] on each batch (claim C5) *)

Lemma train_loop_calls (bs : list Batch) (st st' : Stats) (w w' : World) :
  for_batches train_batch (map Ok bs) st w = Done st' w' ->
  calls w' = calls w ++
             concat (map (fun _ => [CZeroGrad; CForward (training w) (grad_enabled w);
                                    CBackward; CStep]) bs).
Proof.
  revert st w. induction bs as [|b bs IH]; intros st w H.
  - simpl in H. inversion H. simpl. rewrite app_nil_r. reflexivity.
  - apply for_batches_cons in H. destruct H as (st1 & w1 & Hb & H).
    destruct (train_batch_done _ _ _ _ _ Hb)
      as (output & bufs & loss & g & p & o & _ & _ & _ & _ & _ & _ & ->).
    rewrite (IH _ _ H). unfold after_train_batch.
    cbn [calls training grad_enabled set_params log set_grads set_buffers map concat].
    rewrite <- !app_assoc. reflexivity.
Qed.

Lemma int_to_float_value (n : Z) (f : float) :
  Py.int_to_float n = Ok f -> f = Py.float_of_Z n.
Proof.
  unfold Py.int_to_float, Py.finite_or_overflow, Py.float_of_Z.
  destruct (Py.nearest n); intros H; inversion H; reflexivity.
Qed.

(** The [True] entries of an elementwise comparison are the positions at
    which the two tensors agree. *)
Lemma zip_eqb_matches (a b : list Z) :
  Torch.sum_item (Torch.zip_eqb a b)
  = Z.of_nat (length (filter (fun py => fst py =? snd py) (combine a b))).
Proof.
  unfold Torch.sum_item. f_equal. revert b.
  induction a as [|x a IH]; intros [|y b]; cbn [Torch.zip_eqb combine filter fst snd];
    try reflexivity.
  destruct (x =? y); cbn [length]; rewrite IH; reflexivity.
Qed.

(** What the three statistics lines add to the accumulators. *)
Lemma update_stats_values (loss : Loss) (x : list Sample) (preds y : list Z)
    (st st' : Stats) (f0 t0 : float) (c0 : Z) :
  length preds = length y ->
  accumulators st f0 t0 c0 ->
  update_stats loss x preds y st = Ok st' ->
  accumulators st'
    (f0 + item loss * SF2Prim (binary_normalize prec emax (Z.of_nat (length x)) 0%Z false))
    (t0 + SF2Prim (binary_normalize prec emax (Z.of_nat (length y)) 0%Z false))
    (c0 + Z.of_nat (length (filter (fun py => fst py =? snd py) (combine preds y)))) /\
  running_loss st'
  = Py.Float (f0 + item loss
                   * SF2Prim (binary_normalize prec emax (Z.of_nat (length x)) 0%Z false)) /\
  total st'
  = Py.Float (t0 + SF2Prim (binary_normalize prec emax (Z.of_nat (length y)) 0%Z false)).
Proof.
  intros Hlen (Hf & Ht & Hc) Hu.
  destruct (update_stats_done _ _ _ _ _ _ Hu) as (wl & m & k & Hwl & Hrl & Hm & Hrc & Hk & Htot).
  cbn [Py.mul Py.to_float bind] in Hwl. apply bind_inv in Hwl.
  destruct Hwl as (fx & Hfx & Hwl). apply int_to_float_value in Hfx.
  inversion Hwl; subst wl.
  unfold Py.pyfloat in Hk. cbn [Py.to_float] in Hk. apply bind_inv in Hk.
  destruct Hk as (fy & Hfy & Hk). apply int_to_float_value in Hfy.
  inversion Hk; subst k.
  unfold Torch.eq in Hm. rewrite Hlen, Nat.eqb_refl in Hm. inversion Hm; subst m.
  rewrite Hc in Hrc. cbn [Py.add] in Hrc. inversion Hrc as [Hc'].
  rewrite zip_eqb_matches in Hc'.
  assert (Hadd : forall v g r z,
             (v = Py.Int 0 /\ z = 0%float \/ v = Py.Float z) ->
             Py.add v (Py.Float g) = Ok r -> r = Py.Float (z + g)).
  { intros v g r z [[-> ->]| ->] H; cbn [Py.add Py.to_float bind] in H.
    - rewrite int_to_float_count in H by lia. cbn [bind] in H.
      inversion H. reflexivity.
    - inversion H. reflexivity. }
  apply (Hadd _ _ _ f0 Hf) in Hrl. apply (Hadd _ _ _ t0 Ht) in Htot.
  subst fx fy.
  assert (El : running_loss st'
               = Py.Float (f0 + item loss * SF2Prim (binary_normalize prec emax
                                                      (Z.of_nat (length x)) 0%Z false)))
    by exact Hrl.
  assert (Et : total st'
               = Py.Float (t0 + SF2Prim (binary_normalize prec emax
                                           (Z.of_nat (length y)) 0%Z false)))
    by exact Htot.
  split; [|split; assumption].
  split; [right; exact El|]. split; [right; exact Et|]. symmetry. exact Hc'.
Qed.

(** The accumulators after any loop that finished. *)
Lemma accumulators_after (body : Batch -> Stats -> prog Stats) :
  updates_stats body ->
  forall (bs : list Batch) (st st' : Stats) (w w' : World),
    (exists f t c, accumulators st f t c) ->
    for_batches body (map Ok bs) st w = Done st' w' ->
    exists f t c, accumulators st' f t c.
Proof.
  intros Hbody bs. induction bs as [|b bs IH]; intros st st' w w' Hacc H.
  - simpl in H. inversion H; subst. exact Hacc.
  - apply for_batches_cons in H. destruct H as (st1 & w1 & Hb & H).
    destruct (Hbody _ _ _ _ _ Hb) as (loss & output & Hlen & Hu).
    destruct Hacc as (f & t & c & Hacc).
    apply (IH st1 st' w1 w'); [|exact H].
    destruct (update_stats_values loss (data b) (map argmax (rows output)) (labels b)
                st st1 f t c) as (Hacc1 & _); try assumption.
    { rewrite length_map. exact Hlen. }
    eauto.
Qed.

Lemma train_batch_eval (b : Batch) (st : Stats) (w : World) (output : Output)
    (bufs : Buffers) (loss : Loss) (g : Grads) (p : Params) (o : OptState) :
  cuda_fault = None ->
  forward (params w) (buffers w) (training w) (grad_enabled w) (data b)
    = Ok (output, bufs) ->
  criterion output (labels b) = Ok loss ->
  backward loss (zero_grad (grads w)) = Ok g ->
  sgd_step (params w) g (opt_state w) = Ok (p, o) ->
  train_batch b st w
  = lift (update_stats loss (data b) (map argmax (rows output)) (labels b) st)
      (after_train_batch bufs g p o w).
Proof.
  intros Hc Hf Hl Hb Hs.
  unfold train_batch, seq_bind, optimizer_zero_grad, modify, cuda, model,
    loss_backward, optimizer_step, after_train_batch.
  rewrite Hc.
  cbn [lift log set_grads set_buffers set_params params buffers training grad_enabled
       grads opt_state].
  rewrite Hf, Hl.
  cbn [lift log set_grads set_buffers set_params params buffers training grad_enabled
       grads opt_state].
  rewrite Hb.
  cbn [lift log set_grads set_buffers set_params params buffers training grad_enabled
       grads opt_state].
  rewrite Hs. reflexivity.
Qed.

(** C5: an epoch of [train] that finishes has made, after [model.train()],
    the calls [zero_grad], forward, [backward], [step] once per batch, in
    this order; and for every batch [b] of it, the batches before it have
    been processed and then the gradients are cleared, the model is run on
    the batch in training mode, the loss of its output against the labels
    is computed, [backward] gives the gradients of that loss, the optimizer
    makes one step from them, and the statistics grow by loss times batch
    size, by the number of arg-max predictions that equal their label, and
    by the batch size: the running loss by [loss.item()] times the float of
    the number of inputs, the correct predictions by the number of
    positions at which the arg-max of the output equals the label, the
    count by the float of the number of labels. The statistics are updated
    last, after the optimizer step: arithmetic of theirs that fails, stops
    the batch in the world that the step has left. *)
Theorem train_steps_per_batch (pre : list Batch) (b : Batch) (post : list Batch)
    (w w_end : World) (r : float * float) :
  train (map Ok (pre ++ b :: post)) w = Done r w_end ->
  calls w_end
  = calls w ++ CTrainMode ::
    concat (map (fun _ => train_batch_calls (grad_enabled w)) (pre ++ b :: post)) /\
  exists st w1 st' w2 output bufs loss g p o,
    for_batches train_batch (map Ok pre) stats0 (train_start w) = Done st w1 /\
    train_batch b st w1 = Done st' w2 /\
    forward (params w1) (buffers w1) true (grad_enabled w) (data b) = Ok (output, bufs) /\
    criterion output (labels b) = Ok loss /\
    backward loss (zero_grad (grads w1)) = Ok g /\
    sgd_step (params w1) g (opt_state w1) = Ok (p, o) /\
    params w2 = p /\ opt_state w2 = o /\ grads w2 = g /\ buffers w2 = bufs /\
    calls w2 = calls w1 ++ train_batch_calls (grad_enabled w) /\
    (exists wl m n,
      Py.mul (Py.Float (item loss)) (Py.Int (Torch.size0 (data b))) = Ok wl /\
      Py.add (running_loss st) wl = Ok (running_loss st') /\
      Torch.eq (map argmax (rows output)) (labels b) = Ok m /\
      Py.add (running_corrects st) (Py.Int (Torch.sum_item m)) = Ok (running_corrects st') /\
      Py.pyfloat (Py.Int (Torch.size0 (labels b))) = Ok n /\
      Py.add (total st) n = Ok (total st')) /\
    (exists (f0 t0 : float) (c0 : Z),
      (running_loss st = Py.Int 0 /\ f0 = 0%float \/ running_loss st = Py.Float f0) /\
      (total st = Py.Int 0 /\ t0 = 0%float \/ total st = Py.Float t0) /\
      running_corrects st = Py.Int c0 /\
      running_loss st'
      = Py.Float (f0 + item loss
                       * SF2Prim (binary_normalize prec emax
                                    (Z.of_nat (length (data b))) 0%Z false)) /\
      running_corrects st'
      = Py.Int (c0 + Z.of_nat (length (filter (fun py => fst py =? snd py)
                                         (combine (map argmax (rows output))
                                            (labels b))))) /\
      total st'
      = Py.Float (t0 + SF2Prim (binary_normalize prec emax
                                  (Z.of_nat (length (labels b))) 0%Z false))) /\
    (forall st0 e,
        update_stats loss (data b) (map argmax (rows output)) (labels b) st0 = Raise e ->
        train_batch b st0 w1 = Fault e w2).
Proof.
  intros H. apply train_done in H. destruct H as (st_end & Hloop & _).
  split.
  { rewrite (train_loop_calls _ _ _ _ _ Hloop).
    cbn [calls train_start set_training log training grad_enabled].
    rewrite <- app_assoc. reflexivity. }
  apply for_batches_prefix in Hloop. destruct Hloop as (st & w1 & Hpre & Hrest).
  apply for_batches_cons in Hrest. destruct Hrest as (st' & w2 & Hb & _).
  pose proof (train_loop_keeps (map Ok pre) stats0 (train_start w)) as (_ & Ht & Hg).
  rewrite Hpre in Ht, Hg. cbn [final_world] in Ht, Hg.
  change (training (train_start w)) with true in Ht.
  change (grad_enabled (train_start w)) with (grad_enabled w) in Hg.
  destruct (train_batch_done _ _ _ _ _ Hb)
    as (output & bufs & loss & g & p & o & Hcu & Hf & Hc & Hbw & Hs & Hu & ->).
  pose proof Hf as Hf0. rewrite Ht, Hg in Hf.
  exists st, w1, st', (after_train_batch bufs g p o w1), output, bufs, loss, g, p, o.
  repeat (split; [first [assumption | reflexivity]|]).
  split; [|split; [|split]].
  - unfold after_train_batch, train_batch_calls.
    cbn [calls set_params log set_grads set_buffers].
    rewrite Ht, Hg, <- !app_assoc. reflexivity.
  - exact (update_stats_done _ _ _ _ _ _ Hu).
  - destruct (accumulators_after train_batch train_batch_updates_stats pre stats0 st
                (train_start w) w1) as (f0 & t0 & c0 & Hacc); [|exact Hpre|].
    { exists 0%float, 0%float, 0. repeat split; left; split; reflexivity. }
    destruct (update_stats_values loss (data b) (map argmax (rows output)) (labels b)
                st st' f0 t0 c0) as ((_ & _ & Hc') & Hl' & Ht'); try assumption.
    { rewrite length_map. exact (criterion_shape _ _ _ Hc). }
    destruct Hacc as (Hf1 & Ht1 & Hc1).
    exists f0, t0, c0. repeat split; assumption.
  - intros st0 e He.
    rewrite (train_batch_eval b st0 w1 output bufs loss g p o Hcu Hf0 Hc Hbw Hs), He.
    reflexivity.
Qed.

(** ** The training loop (claims C6, C2, C10) *)

Lemma epoch_body_done (epoch : nat) (w w' : World) :
  epoch_body epoch w = Done tt w' -> epoch_step epoch w w'.
Proof.
  unfold epoch_body, seq_bind, modify, plot.
  pose proof (train_keeps_history (train_loader epoch) w) as Ht.
  destruct (train (train_loader epoch) w) as [[tl ta] w1|e w1] eqn:Etr;
    [|discriminate].
  pose proof (val_keeps_history (val_loader epoch) (append_train tl ta w1)) as Hv.
  destruct (val (val_loader epoch) (append_train tl ta w1)) as [[vl va] w2|e w2]
    eqn:Eva; [|discriminate].
  cbn [final_world] in *.
  destruct (live_plot _ _ _ _); [|discriminate].
  intros H. inversion H; subst w'.
  exists tl, ta, w1, vl, va, w2. split; [exact Etr|]. split; [exact Eva|].
  unfold history in *.
  cbn [train_loss train_accuracy val_loss val_accuracy log append_val append_train] in *.
  inversion Hv. inversion Ht. congruence.
Qed.

Lemma epoch_step_lengths (epoch k : nat) (w w' : World) :
  epoch_step epoch w w' -> history_lengths w k -> history_lengths w' (S k).
Proof.
  intros (tl & ta & w1 & vl & va & w2 & _ & _ & Hh) (H1 & H2 & H3 & H4).
  unfold history in Hh. inversion Hh as [[E1 E2 E3 E4]].
  unfold history_lengths. rewrite E1, E2, E3, E4, !length_app. simpl.
  repeat split; lia.
Qed.

(** The worlds between the epochs of a loop that finished. *)
Lemma for_epochs_seq (n : nat) (w0 w' : World) :
  for_epochs (seq 0 n) w0 = Done tt w' ->
  exists ws : nat -> World,
    ws 0%nat = w0 /\ ws n = w' /\
    forall k, (k < n)%nat -> epoch_body k (ws k) = Done tt (ws (S k)).
Proof.
  revert w'. induction n as [|n IH]; intros w' H.
  - simpl in H. unfold ret in H. injection H as Hw. exists (fun _ => w0).
    split; [reflexivity|]. split; [exact Hw|]. intros k Hk. lia.
  - rewrite seq_S, for_epochs_app in H. cbn [Nat.add] in H.
    destruct (for_epochs (seq 0 n) w0) as [[] wn|e wn] eqn:Hn; [|discriminate].
    destruct (IH wn eq_refl) as (ws & H0 & Hwn & Hstep).
    cbn [for_epochs] in H. unfold seq_bind, ret in H.
    destruct (epoch_body n wn) as [[] w1|e w1] eqn:Hb; [|discriminate].
    inversion H; subst w'.
    exists (fun k => if (k <=? n)%nat then ws k else w1).
    split; [simpl; exact H0|]. split.
    + destruct (Nat.leb_spec (S n) n); [lia|reflexivity].
    + intros k Hk.
      destruct (Nat.leb_spec k n); [|lia].
      destruct (Nat.leb_spec (S k) n).
      * apply Hstep. lia.
      * assert (k = n) by lia. subst k. rewrite Hwn. exact Hb.
Qed.

Lemma training_loop_worlds (n : Z) (w w' : World) :
  training_loop n w = Done tt w' ->
  exists ws : nat -> World,
    ws 0%nat = reset_history w /\ ws (Z.to_nat n) = w' /\
    (forall k, (k < Z.to_nat n)%nat ->
               epoch_body k (ws k) = Done tt (ws (S k)) /\
               epoch_step k (ws k) (ws (S k))) /\
    (forall k, (k <= Z.to_nat n)%nat -> history_lengths (ws k) k).
Proof.
  intros H.
  unfold training_loop, seq_bind, modify, range in H.
  destruct (for_epochs_seq _ _ _ H) as (ws & H0 & Hn & Hstep).
  exists ws. split; [exact H0|]. split; [exact Hn|]. split.
  - intros k Hk. split; [exact (Hstep k Hk)|].
    exact (epoch_body_done _ _ _ (Hstep k Hk)).
  - intros k. induction k as [|k IH]; intros Hk.
    + rewrite H0. repeat split; reflexivity.
    + apply (epoch_step_lengths k k (ws k)); [|apply IH; lia].
      apply epoch_body_done, Hstep. lia.
Qed.

(** C6: [train] and [val] leave the four histories as they are, finished
    or not; a training loop of [n] epochs that finishes goes through the
    epoch indices [0 .. n-1] one after the other, from the emptied
    histories; each pass calls [train], then [val], and leaves each history
    one element longer: [k] elements before epoch [k], [n] at the end. *)
Theorem training_loop_epochs :
  (forall loader w, history (final_world (train loader w)) = history w) /\
  (forall loader w, history (final_world (val loader w)) = history w) /\
  (forall n w w',
      training_loop n w = Done tt w' ->
      exists ws : nat -> World,
        ws 0%nat = reset_history w /\ ws (Z.to_nat n) = w' /\
        (forall k, (k < Z.to_nat n)%nat ->
                   epoch_body k (ws k) = Done tt (ws (S k)) /\
                   epoch_step k (ws k) (ws (S k))) /\
        (forall k, (k <= Z.to_nat n)%nat -> history_lengths (ws k) k)).
Proof.
  split; [exact train_keeps_history|]. split; [exact val_keeps_history|].
  exact training_loop_worlds.
Qed.

Lemma notebook_done (n : Z) (w w' : World) (best : float) :
  notebook n w = Done best w' ->
  training_loop n w = Done tt w' /\ Py.max (val_accuracy w') = Ok best.
Proof.
  unfold notebook, seq_bind, report.
  destruct (training_loop n w) as [[] w1|e w1]; [|discriminate].
  intros H. apply lift_inv in H. destruct H as [H ->]. split; [reflexivity|exact H].
Qed.

Lemma max_spec (l : list float) (best : float) :
  Py.max l = Ok best ->
  In best l /\ forall a, In a l -> (best <? a)%float = false.
Proof.
  destruct l as [|x xs]; simpl; [discriminate|].
  intros H. injection H as <-.
  destruct (running_max_spec xs x) as (_ & Hin & Hub). split; assumption.
Qed.

(** C2: the value the notebook reports after the last epoch is an element
    of the validation-accuracy history that no element of it exceeds, its
    maximum; on the history [0.5, 0.72, 0.61] the report is [0.72]. *)
Theorem report_is_best_validation_accuracy :
  (forall n w w' best,
      notebook n w = Done best w' ->
      training_loop n w = Done tt w' /\
      Py.max (val_accuracy w') = Ok best /\
      In best (val_accuracy w') /\
      forall a, In a (val_accuracy w') -> (best <? a)%float = false) /\
  (forall w, val_accuracy w = [0.5; 0.72; 0.61]%float ->
             report w = Done 0.72%float w).
Proof.
  split.
  - intros n w w' best H. apply notebook_done in H. destruct H as [Hl Hm].
    split; [exact Hl|]. split; [exact Hm|]. exact (max_spec _ _ Hm).
  - intros w Hv. unfold report. rewrite Hv. reflexivity.
Qed.

Lemma training_loop_lengths (n : Z) (w w' : World) :
  training_loop n w = Done tt w' -> history_lengths w' (Z.to_nat n).
Proof.
  intros H.
  destruct (training_loop_worlds n w w' H) as (ws & _ & <- & _ & Hlen).
  apply Hlen. lia.
Qed.

Lemma report_defined (n : Z) (w w' : World) :
  1 <= n -> training_loop n w = Done tt w' ->
  val_accuracy w' <> [] /\ exists best, notebook n w = Done best w'.
Proof.
  intros Hn H. pose proof (training_loop_lengths n w w' H) as (_ & _ & _ & Hlen).
  assert (Hne : val_accuracy w' <> []).
  { intros E. rewrite E in Hlen. simpl in Hlen. lia. }
  split; [exact Hne|].
  unfold notebook, seq_bind, report. rewrite H.
  destruct (val_accuracy w') as [|x xs]; [congruence|].
  eexists. reflexivity.
Qed.

(** C10: with an epoch count of 0 (or less) the validation-accuracy history
    is empty and the report stops at [max] with [ValueError]; with an
    epoch count of at least 1, and so with the notebook's 50, a loop that
    finishes leaves a history that is not empty and the report is defined. *)
Theorem report_needs_one_epoch :
  (forall n w, n <= 0 -> notebook n w = Fault ValueError (reset_history w)) /\
  (forall n w w',
      1 <= n -> training_loop n w = Done tt w' ->
      val_accuracy w' <> [] /\ exists best, notebook n w = Done best w') /\
  (forall w w',
      training_loop epochs w = Done tt w' ->
      length (val_accuracy w') = 50%nat /\
      exists best, notebook epochs w = Done best w').
Proof.
  split; [|split].
  - intros n w Hn. unfold notebook, training_loop, seq_bind, modify, range.
    replace (Z.to_nat n) with 0%nat by lia. reflexivity.
  - exact report_defined.
  - intros w w' H. split.
    + apply (training_loop_lengths epochs w w' H).
    + apply (report_defined epochs w w'); [unfold epochs; lia|exact H].
Qed.

(** ** Faults (claim C7) *)

Lemma train_batch_raises (b : Batch) (st : Stats) (w : World) (e : exn) :
  train_call_fault b st w e -> raises e (train_batch b st w).
Proof.
  unfold raises, train_batch, seq_bind, optimizer_zero_grad, modify, cuda, lift,
    model, loss_backward, optimizer_step.
  cbn [log set_grads set_buffers set_params params buffers training grad_enabled
       grads opt_state].
  intros [Hc|Hc Hf|out bufs Hc Hf Hl|out bufs loss Hc Hf Hl Hb
          |out bufs loss g Hc Hf Hl Hb Hs|out bufs loss g p o Hc Hf Hl Hb Hs Hu].
  - run_call Hc. eexists; reflexivity.
  - run_call Hc. run_call Hf. eexists; reflexivity.
  - run_call Hc. run_call Hf. run_call Hl. eexists; reflexivity.
  - run_call Hc. run_call Hf. run_call Hl. run_call Hb. eexists; reflexivity.
  - run_call Hc. run_call Hf. run_call Hl. run_call Hb. run_call Hs.
    eexists; reflexivity.
  - run_call Hc. run_call Hf. run_call Hl. run_call Hb. run_call Hs. run_call Hu.
    eexists; reflexivity.
Qed.

Lemma val_batch_raises (b : Batch) (st : Stats) (w : World) (e : exn) :
  val_call_fault b st w e -> raises e (val_batch b st w).
Proof.
  unfold raises, val_batch, seq_bind, cuda, lift, model.
  cbn [log set_buffers params buffers training grad_enabled].
  intros [Hc|Hc Hf|out bufs Hc Hf Hl|out bufs loss Hc Hf Hl Hu].
  - run_call Hc. eexists; reflexivity.
  - run_call Hc. run_call Hf. eexists; reflexivity.
  - run_call Hc. run_call Hf. run_call Hl. eexists; reflexivity.
  - run_call Hc. run_call Hf. run_call Hl. run_call Hu. eexists; reflexivity.
Qed.

Lemma for_batches_stops (body : Batch -> Stats -> prog Stats)
    (pre post : list (result Batch)) (fetch : result Batch)
    (st st1 : Stats) (w w1 wf : World) (e : exn) :
  for_batches body pre st w = Done st1 w1 ->
  (fetch = Raise e /\ wf = w1) \/ (exists b, fetch = Ok b /\ body b st1 w1 = Fault e wf) ->
  for_batches body (pre ++ fetch :: post) st w = Fault e wf.
Proof.
  intros Hpre H. rewrite for_batches_app, Hpre. cbn [for_batches].
  unfold seq_bind, lift.
  destruct H as [[-> ->]|(b & -> & Hb)]; [reflexivity|].
  rewrite Hb. reflexivity.
Qed.

Lemma for_epochs_stops (pre post : list nat) (k : nat) (w w1 wf : World) (e : exn) :
  for_epochs pre w = Done tt w1 -> epoch_body k w1 = Fault e wf ->
  for_epochs (pre ++ k :: post) w = Fault e wf.
Proof.
  intros Hpre Hk. rewrite for_epochs_app, Hpre. cbn [for_epochs].
  unfold seq_bind. rewrite Hk. reflexivity.
Qed.


(** ** Running [val] forward on batches whose predictions are all right

    Used for the concrete runs at the end of the file. *)

Lemma eq_self (y : list Z) :
  exists m, Torch.eq y y = Ok m /\ Torch.sum_item m = Torch.size0 y.
Proof.
  exists (Torch.zip_eqb y y). split.
  - unfold Torch.eq. rewrite Nat.eqb_refl. reflexivity.
  - unfold Torch.sum_item, Torch.size0. f_equal.
    induction y as [|a y IH]; simpl; [reflexivity|].
    rewrite Z.eqb_refl. simpl. rewrite IH. reflexivity.
Qed.

Lemma update_stats_all_correct (loss : Loss) (x : list Sample) (y : list Z)
    (st : Stats) :
  update_stats loss x y y st = stats_step (item loss) (Torch.size0 x) (Torch.size0 y) st.
Proof.
  unfold update_stats, stats_step.
  destruct (eq_self y) as (m & Hm & Hs). rewrite Hm.
  destruct (Py.mul _ _) as [wl|]; [|reflexivity]. cbn [bind].
  destruct (Py.add (running_loss st) wl) as [rl|]; [|reflexivity]. cbn [bind].
  rewrite Hs. reflexivity.
Qed.

Lemma val_batch_eval (b : Batch) (st : Stats) (w : World) (output : Output)
    (bufs : Buffers) (loss : Loss) :
  cuda_fault = None ->
  forward (params w) (buffers w) (training w) (grad_enabled w) (data b)
    = Ok (output, bufs) ->
  criterion output (labels b) = Ok loss ->
  val_batch b st w
  = lift (update_stats loss (data b) (map argmax (rows output)) (labels b) st)
      (set_buffers bufs (log (CForward (training w) (grad_enabled w)) w)).
Proof.
  intros Hc Hf Hl. unfold val_batch, seq_bind, cuda, model.
  rewrite Hc. cbn [lift log set_buffers params buffers training grad_enabled].
  rewrite Hf, Hl. reflexivity.
Qed.

(** ** Further properties of the epoch functions and of the loop *)

(** *** Floats: NaN, and the quotients of a count by itself and of zero *)

Lemma SFeqb_refl_nan (x : spec_float) : SFeqb x x = false -> x = S754_nan.
Proof.
  unfold SFeqb. destruct x as [s|s| |s m e]; simpl; try reflexivity.
  - destruct s; intros H; discriminate H.
  - destruct s; intros H; discriminate H.
  - rewrite Z.compare_refl.
    destruct s; rewrite ?Pos.compare_cont_refl; simpl; intros H; discriminate H.
Qed.

Lemma is_nan_SF (f : float) : is_nan f = true <-> Prim2SF f = S754_nan.
Proof.
  unfold is_nan. rewrite eqb_spec. split.
  - intros H. apply SFeqb_refl_nan. apply negb_true_iff. exact H.
  - intros ->. reflexivity.
Qed.

Lemma nan_add_l (x y : float) : is_nan x = true -> is_nan (x + y) = true.
Proof. rewrite !is_nan_SF, add_spec. intros ->. reflexivity. Qed.

Lemma nan_add_r (x y : float) : is_nan y = true -> is_nan (x + y) = true.
Proof.
  rewrite !is_nan_SF, add_spec. intros ->. destruct (Prim2SF x); reflexivity.
Qed.

Lemma nan_mul_l (x y : float) : is_nan x = true -> is_nan (x * y) = true.
Proof. rewrite !is_nan_SF, mul_spec. intros ->. reflexivity. Qed.

Lemma nan_div_l (x y : float) : is_nan x = true -> is_nan (x / y) = true.
Proof. rewrite !is_nan_SF, div_spec. intros ->. reflexivity. Qed.

Lemma div_count_self (n : Z) :
  1 <= n <= 2 ^ 53 ->
  SF64div (Py.nearest n) (Py.nearest n) = S754_finite false 4503599627370496 (-52).
Proof.
  intros Hn. destruct (nearest_repr n Hn) as (m & e & -> & Hl & He & _).
  unfold SF64div, SFdiv. rewrite div_core_53 by assumption. cbn [xorb].
  rewrite (Z.mul_comm (Zpos m)), Z.div_mul, Z.mod_mul by lia.
  replace (new_location (Zpos m) 0) with loc_Exact
    by (unfold new_location, new_location_even, new_location_odd;
        destruct (Z.even (Zpos m)); reflexivity).
  replace (e - e - 53) with (-53) by lia. reflexivity.
Qed.

Lemma float_of_Z_self_ratio (n : Z) :
  1 <= n <= 2 ^ 53 -> (Py.float_of_Z n / Py.float_of_Z n)%float = 1%float.
Proof.
  intros Hn. apply Prim2SF_inj.
  rewrite div_spec, !float_of_Z_spec by lia.
  rewrite div_count_self by assumption. reflexivity.
Qed.

Lemma float_of_Z_zero_ratio (n : Z) :
  1 <= n <= 2 ^ 53 -> (Py.float_of_Z 0 / Py.float_of_Z n)%float = 0%float.
Proof.
  intros Hn. apply Prim2SF_inj.
  rewrite div_spec, !float_of_Z_spec by lia.
  destruct (nearest_repr n Hn) as (m & e & -> & _). reflexivity.
Qed.

(** *** The mode flags *)

Lemma train_keeps_world (loader : list (result Batch)) (w : World) :
  train_keeps (train_start w) (final_world (train loader w)).
Proof.
  pose proof (train_loop_keeps loader stats0 (train_start w)) as H.
  unfold train, seq_bind, model_train, modify. fold (train_start w).
  destruct (for_batches train_batch loader stats0 (train_start w)) as [st w1|e w1];
    cbn [final_world] in *; [|exact H].
  rewrite lift_world. exact H.
Qed.

(** X1: [train] leaves the model in training mode and [val] in evaluation
    mode; both leave the gradient mode as they found it, [val] although
    it runs with gradients switched off, and also when a fault stops it. *)
Theorem epoch_mode_flags (loader : list (result Batch)) (w : World) :
  training (final_world (train loader w)) = true /\
  grad_enabled (final_world (train loader w)) = grad_enabled w /\
  training (final_world (val loader w)) = false /\
  grad_enabled (final_world (val loader w)) = grad_enabled w.
Proof.
  destruct (train_keeps_world loader w) as (_ & Ht & Hg).
  destruct (val_keeps_world loader w) as (_ & _ & _ & _ & Hg' & Ht' & _).
  repeat split; assumption.
Qed.

(** What a pass of the loop body that finishes is made of. *)
Lemma epoch_body_inv (epoch : nat) (w w' : World) :
  epoch_body epoch w = Done tt w' ->
  exists tl ta w1 vl va w2,
    train (train_loader epoch) w = Done (tl, ta) w1 /\
    val (val_loader epoch) (append_train tl ta w1) = Done (vl, va) w2 /\
    live_plot (train_loss (append_val vl va w2)) (val_loss (append_val vl va w2))
      (train_accuracy (append_val vl va w2)) (val_accuracy (append_val vl va w2))
    = Ok tt /\
    w' = log (CPlot (train_loss (append_val vl va w2)) (val_loss (append_val vl va w2))
                (train_accuracy (append_val vl va w2))
                (val_accuracy (append_val vl va w2)))
           (append_val vl va w2).
Proof.
  unfold epoch_body, seq_bind, modify, plot.
  destruct (train (train_loader epoch) w) as [[tl ta] w1|e w1] eqn:Etr;
    [|discriminate].
  destruct (val (val_loader epoch) (append_train tl ta w1)) as [[vl va] w2|e w2]
    eqn:Eva; [|discriminate].
  cbn [train_loss val_loss train_accuracy val_accuracy log].
  destruct (live_plot _ _ _ _) as [[]|e] eqn:Hp; [|discriminate].
  intros H. inversion H.
  exists tl, ta, w1, vl, va, w2.
  split; [reflexivity|]. split; [exact Eva|]. split; [exact Hp|reflexivity].
Qed.

Lemma epoch_body_grad_mode (epoch : nat) (w : World) :
  grad_enabled (final_world (epoch_body epoch w)) = grad_enabled w.
Proof.
  unfold epoch_body, seq_bind, modify, plot.
  destruct (train_keeps_world (train_loader epoch) w) as (_ & _ & Hg).
  destruct (train (train_loader epoch) w) as [[tl ta] w1|e w1];
    cbn [final_world] in *; [|exact Hg].
  destruct (val_keeps_world (val_loader epoch) (append_train tl ta w1))
    as (_ & _ & _ & _ & Hg' & _).
  destruct (val (val_loader epoch) (append_train tl ta w1)) as [[vl va] w2|e w2];
    cbn [final_world] in *; [|rewrite Hg'; exact Hg].
  destruct (live_plot _ _ _ _); cbn [final_world log append_val grad_enabled];
    rewrite Hg'; exact Hg.
Qed.

Lemma for_epochs_grad_mode (es : list nat) (w : World) :
  grad_enabled (final_world (for_epochs es w)) = grad_enabled w.
Proof.
  revert w. induction es as [|epoch es IH]; intros w; [reflexivity|].
  cbn [for_epochs]. unfold seq_bind.
  pose proof (epoch_body_grad_mode epoch w) as H.
  destruct (epoch_body epoch w) as [[] w1|e w1]; cbn [final_world] in *;
    [|exact H].
  rewrite IH. exact H.
Qed.

Lemma epoch_body_eval_mode (epoch : nat) (w w' : World) :
  epoch_body epoch w = Done tt w' -> training w' = false.
Proof.
  intros H. destruct (epoch_body_inv _ _ _ H)
    as (tl & ta & w1 & vl & va & w2 & _ & Hv & _ & ->).
  destruct (val_keeps_world (val_loader epoch) (append_train tl ta w1))
    as (_ & _ & _ & _ & _ & Ht & _).
  rewrite Hv in Ht. exact Ht.
Qed.

(** X2: the training loop and the notebook, finished or stopped by a fault,
    leave the gradient mode as it was before the loop; a loop of at least
    one epoch that finishes leaves the model in evaluation mode, the mode
    the last [val] set. *)
Theorem training_loop_modes (n : Z) (w : World) :
  grad_enabled (final_world (training_loop n w)) = grad_enabled w /\
  grad_enabled (final_world (notebook n w)) = grad_enabled w /\
  (forall w', 1 <= n -> training_loop n w = Done tt w' -> training w' = false).
Proof.
  assert (Hloop : grad_enabled (final_world (training_loop n w)) = grad_enabled w).
  { unfold training_loop, seq_bind, modify.
    rewrite for_epochs_grad_mode. reflexivity. }
  split; [exact Hloop|]. split.
  - unfold notebook, seq_bind, report.
    destruct (training_loop n w) as [[] w1|e w1]; cbn [final_world] in *;
      [|exact Hloop].
    rewrite lift_world. exact Hloop.
  - intros w' Hn H.
    destruct (training_loop_worlds n w w' H) as (ws & _ & Hend & Hstep & _).
    destruct (Z.to_nat n) as [|k] eqn:Hk; [lia|].
    destruct (Hstep k) as [Hb _]; [lia|].
    rewrite Hend in Hb. exact (epoch_body_eval_mode _ _ _ Hb).
Qed.

(** *** The histories when a fault stops the loop *)

Lemma for_epochs_fault (n : nat) (w0 wf : World) (e : exn) :
  for_epochs (seq 0 n) w0 = Fault e wf ->
  exists k wk, (k < n)%nat /\ for_epochs (seq 0 k) w0 = Done tt wk /\
               epoch_body k wk = Fault e wf.
Proof.
  induction n as [|n IH]; intros H.
  - simpl in H. discriminate.
  - rewrite seq_S, for_epochs_app in H. cbn [Nat.add] in H.
    destruct (for_epochs (seq 0 n) w0) as [[] wn|e' w'] eqn:Hn.
    + cbn [for_epochs] in H. unfold seq_bind, ret in H.
      destruct (epoch_body n wn) as [[] w1|e' w1] eqn:Hb; [discriminate|].
      inversion H; subst. exists n, wn. split; [lia|]. split; [exact Hn|exact Hb].
    + inversion H; subst.
      destruct (IH eq_refl) as (k & wk & Hk & Hpre & Hb).
      exists k, wk. split; [lia|]. split; assumption.
Qed.

Lemma training_loop_prefix (k : nat) (w wk : World) :
  for_epochs (seq 0 k) (reset_history w) = Done tt wk ->
  training_loop (Z.of_nat k) w = Done tt wk.
Proof.
  intros H. unfold training_loop, seq_bind, modify, range.
  rewrite Nat2Z.id. exact H.
Qed.

Lemma epoch_body_fault_lengths (k : nat) (w wf : World) (e : exn) :
  epoch_body k w = Fault e wf -> history_lengths w k ->
  length (train_loss wf) = length (train_accuracy wf) /\
  length (val_loss wf) = length (val_accuracy wf) /\
  (k <= length (val_loss wf))%nat /\
  (length (val_loss wf) <= length (train_loss wf))%nat /\
  (length (train_loss wf) <= S k)%nat.
Proof.
  intros H (H1 & H2 & H3 & H4).
  unfold epoch_body, seq_bind, modify, plot in H.
  pose proof (train_keeps_history (train_loader k) w) as Ht.
  destruct (train (train_loader k) w) as [[tl ta] w1|e1 w1]; cbn [final_world] in Ht.
  - pose proof (val_keeps_history (val_loader k) (append_train tl ta w1)) as Hv.
    destruct (val (val_loader k) (append_train tl ta w1)) as [[vl va] w2|e2 w2];
      cbn [final_world] in Hv.
    + destruct (live_plot _ _ _ _); [discriminate|].
      inversion H; subst wf.
      unfold history in *.
      cbn [train_loss train_accuracy val_loss val_accuracy log append_val
           append_train] in *.
      inversion Hv as [[E1 E2 E3 E4]]. inversion Ht as [[F1 F2 F3 F4]].
      rewrite E1, E2, E3, E4, F1, F2, F3, F4, !length_app. simpl. lia.
    + inversion H; subst wf.
      unfold history in *.
      cbn [train_loss train_accuracy val_loss val_accuracy append_train] in *.
      inversion Hv as [[E1 E2 E3 E4]]. inversion Ht as [[F1 F2 F3 F4]].
      rewrite E1, E2, E3, E4, F1, F2, F3, F4, !length_app. simpl. lia.
  - inversion H; subst wf.
    unfold history in Ht. inversion Ht as [[F1 F2 F3 F4]].
    rewrite F1, F2, F3, F4. lia.
Qed.

(** X3: a training loop that a fault stops has stopped in some epoch [k] below
    the epoch count, after [k] complete epochs; the histories it leaves
    hold the results of those [k] epochs and, when the fault came after
    [train] had returned, the results of [train] (or of both [train] and
    [val]) of epoch [k] as well: loss and accuracy of a kind always have
    the same length. *)
Theorem histories_when_the_loop_stops (n : Z) (w wf : World) (e : exn) :
  training_loop n w = Fault e wf ->
  exists (k : nat) (wk : World),
    (k < Z.to_nat n)%nat /\
    training_loop (Z.of_nat k) w = Done tt wk /\
    epoch_body k wk = Fault e wf /\
    length (train_loss wf) = length (train_accuracy wf) /\
    length (val_loss wf) = length (val_accuracy wf) /\
    (k <= length (val_loss wf))%nat /\
    (length (val_loss wf) <= length (train_loss wf))%nat /\
    (length (train_loss wf) <= S k)%nat.
Proof.
  intros H. unfold training_loop, seq_bind, modify, range in H.
  destruct (for_epochs_fault _ _ _ _ H) as (k & wk & Hk & Hpre & Hb).
  apply training_loop_prefix in Hpre.
  exists k, wk. split; [exact Hk|]. split; [exact Hpre|]. split; [exact Hb|].
  apply (epoch_body_fault_lengths k wk wf e Hb).
  pose proof (training_loop_lengths _ _ _ Hpre) as Hl.
  rewrite Nat2Z.id in Hl. exact Hl.
Qed.

(** *** The accuracies of a whole run *)

Lemma loader_samples_map (bs : list Batch) : loader_samples (map Ok bs) = samples bs.
Proof.
  induction bs as [|b bs IH]; simpl; [reflexivity|].
  fold (loader_samples (map Ok bs)). fold (samples bs). rewrite IH. reflexivity.
Qed.

Lemma train_accuracy_bounds (loader : list (result Batch)) (w w' : World) (l a : float) :
  loader_samples loader <= 2 ^ 53 ->
  train loader w = Done (l, a) w' -> in_unit_interval a.
Proof.
  intros Hs H. apply train_done in H. destruct H as (st & Hloop & Hmeans).
  destruct (for_batches_done _ _ _ _ _ _ Hloop) as (bs & ->).
  rewrite loader_samples_map in Hs.
  exact (accuracy_bounds _ _ _ _ _ _ _ train_batch_updates_stats Hs Hloop Hmeans).
Qed.

Lemma val_accuracy_bounds (loader : list (result Batch)) (w w' : World) (l a : float) :
  loader_samples loader <= 2 ^ 53 ->
  val loader w = Done (l, a) w' -> in_unit_interval a.
Proof.
  intros Hs H. apply val_done in H. destruct H as (st & w1 & Hloop & _ & Hmeans).
  destruct (for_batches_done _ _ _ _ _ _ Hloop) as (bs & ->).
  rewrite loader_samples_map in Hs.
  exact (accuracy_bounds _ _ _ _ _ _ _ val_batch_updates_stats Hs Hloop Hmeans).
Qed.

Lemma epoch_step_accuracies (epoch : nat) (w w' : World) :
  loader_samples (train_loader epoch) <= 2 ^ 53 ->
  loader_samples (val_loader epoch) <= 2 ^ 53 ->
  epoch_step epoch w w' ->
  Forall in_unit_interval (train_accuracy w) ->
  Forall in_unit_interval (val_accuracy w) ->
  Forall in_unit_interval (train_accuracy w') /\
  Forall in_unit_interval (val_accuracy w').
Proof.
  intros Ht Hv (tl & ta & w1 & vl & va & w2 & Htr & Hva & Hh) Fa Fv.
  unfold history in Hh. inversion Hh as [[E1 E2 E3 E4]].
  rewrite E2, E4. split; apply Forall_app; (split; [assumption|]);
    (apply Forall_cons; [|apply Forall_nil]).
  - exact (train_accuracy_bounds _ _ _ _ _ Ht Htr).
  - exact (val_accuracy_bounds _ _ _ _ _ Hv Hva).
Qed.

(** X4: when no loader yields more than 2^53 samples in an epoch, every
    accuracy that a finished training loop has recorded, of training and
    of validation, lies in [0, 1], and so does the best validation
    accuracy that the notebook reports. *)
Theorem recorded_accuracies_in_unit_interval (n : Z) (w w' : World) :
  (forall epoch, loader_samples (train_loader epoch) <= 2 ^ 53) ->
  (forall epoch, loader_samples (val_loader epoch) <= 2 ^ 53) ->
  training_loop n w = Done tt w' ->
  Forall in_unit_interval (train_accuracy w') /\
  Forall in_unit_interval (val_accuracy w') /\
  (forall best w'', notebook n w = Done best w'' -> in_unit_interval best).
Proof.
  intros Ht Hv H.
  destruct (training_loop_worlds n w w' H) as (ws & H0 & Hend & Hstep & _).
  assert (Hall : forall k, (k <= Z.to_nat n)%nat ->
                   Forall in_unit_interval (train_accuracy (ws k)) /\
                   Forall in_unit_interval (val_accuracy (ws k))).
  { induction k as [|k IH]; intros Hk.
    - rewrite H0. split; constructor.
    - destruct IH as [Fa Fv]; [lia|].
      destruct (Hstep k) as [_ Hs]; [lia|].
      exact (epoch_step_accuracies k _ _ (Ht k) (Hv k) Hs Fa Fv). }
  destruct (Hall (Z.to_nat n)) as [Fa Fv]; [lia|]. rewrite Hend in Fa, Fv.
  split; [exact Fa|]. split; [exact Fv|].
  intros best w'' Hb. apply notebook_done in Hb. destruct Hb as [Hl Hm].
  rewrite H in Hl. inversion Hl; subst w''.
  apply max_spec in Hm. destruct Hm as [Hin _].
  rewrite Forall_forall in Fv. exact (Fv best Hin).
Qed.

(** *** A loss that is not a number *)

Lemma update_stats_nan (loss : Loss) (x : list Sample) (preds y : list Z)
    (st st' : Stats) :
  update_stats loss x preds y st = Ok st' ->
  is_nan (item loss) = true \/
  (exists f, running_loss st = Py.Float f /\ is_nan f = true) ->
  exists f', running_loss st' = Py.Float f' /\ is_nan f' = true.
Proof.
  intros Hu Hnan.
  destruct (update_stats_done _ _ _ _ _ _ Hu) as (wl & m & k & Hwl & Hrl & _).
  cbn [Py.mul Py.to_float bind] in Hwl.
  apply bind_inv in Hwl. destruct Hwl as (fx & _ & Hwl). inversion Hwl; subst wl.
  destruct (running_loss st) as [z|f] eqn:Hr; cbn [Py.add Py.to_float bind] in Hrl.
  - apply bind_inv in Hrl. destruct Hrl as (fz & _ & Hrl). inversion Hrl as [E].
    eexists. split; [reflexivity|].
    destruct Hnan as [Hl|(f & Hf & _)]; [|discriminate].
    apply nan_add_r, nan_mul_l, Hl.
  - inversion Hrl as [E]. eexists. split; [reflexivity|].
    destruct Hnan as [Hl|(f' & Hf & Hn)].
    + apply nan_add_r, nan_mul_l, Hl.
    + inversion Hf; subst f'. apply nan_add_l, Hn.
Qed.

Lemma for_batches_nan (body : Batch -> Stats -> prog Stats) :
  updates_stats body ->
  forall (bs : list Batch) (st st' : Stats) (w w' : World),
    for_batches body (map Ok bs) st w = Done st' w' ->
    (exists f, running_loss st = Py.Float f /\ is_nan f = true) ->
    exists f', running_loss st' = Py.Float f' /\ is_nan f' = true.
Proof.
  intros Hbody bs. induction bs as [|b bs IH]; intros st st' w w' H Hnan.
  - simpl in H. inversion H; subst. exact Hnan.
  - apply for_batches_cons in H. destruct H as (st1 & w1 & Hb & H).
    destruct (Hbody _ _ _ _ _ Hb) as (loss & output & _ & Hu).
    apply (IH _ _ _ _ H).
    exact (update_stats_nan _ _ _ _ _ _ Hu (or_intror Hnan)).
Qed.

Lemma epoch_means_nan (st : Stats) (l a : float) :
  epoch_means st = Ok (l, a) ->
  (exists f, running_loss st = Py.Float f /\ is_nan f = true) ->
  is_nan l = true.
Proof.
  intros H (f & Hf & Hn). apply epoch_means_inv in H. destruct H as [Hl _].
  rewrite Hf in Hl. cbn [Py.truediv Py.to_float bind] in Hl.
  assert (Hd : exists ft, l = (f / ft)%float).
  { destruct (total st) as [z|ft]; cbn [Py.to_float bind] in Hl.
    - destruct (Py.int_to_float z) as [ft|]; cbn [bind] in Hl; [|discriminate].
      destruct (ft =? 0)%float; [discriminate|]. inversion Hl. eauto.
    - destruct (ft =? 0)%float; [discriminate|]. inversion Hl. eauto. }
  destruct Hd as (ft & ->). apply nan_div_l, Hn.
Qed.

(** X5: a loss that is not a number raises nothing: when [loss.item()] is a
    NaN on some batch of an epoch of [train] or of [val] that returns, the
    mean loss the epoch returns is a NaN. *)
Theorem nan_loss_is_returned (pre : list Batch) (b : Batch) (post : list Batch)
    (w w' w1 : World) (st : Stats) (output : Output) (bufs : Buffers) (loss : Loss)
    (l a : float) :
  forward (params w1) (buffers w1) (training w1) (grad_enabled w1) (data b)
    = Ok (output, bufs) ->
  criterion output (labels b) = Ok loss ->
  is_nan (item loss) = true ->
  (train (map Ok (pre ++ b :: post)) w = Done (l, a) w' /\
   for_batches train_batch (map Ok pre) stats0 (train_start w) = Done st w1) \/
  (val (map Ok (pre ++ b :: post)) w = Done (l, a) w' /\
   for_batches val_batch (map Ok pre) stats0 (val_start w) = Done st w1) ->
  is_nan l = true.
Proof.
  intros Hf Hc Hnan [[H Hpre]|[H Hpre]].
  - apply train_done in H. destruct H as (st_end & Hloop & Hmeans).
    apply for_batches_prefix in Hloop. destruct Hloop as (st0 & w0 & Hpre' & Hrest).
    rewrite Hpre in Hpre'. inversion Hpre'; subst st0 w0.
    apply for_batches_cons in Hrest. destruct Hrest as (st1 & w2 & Hb & Hpost).
    destruct (train_batch_done _ _ _ _ _ Hb)
      as (output' & bufs' & loss' & g & p & o & _ & Hf' & Hc' & _ & _ & Hu & _).
    rewrite Hf in Hf'. inversion Hf'; subst output' bufs'.
    rewrite Hc in Hc'. inversion Hc'; subst loss'.
    apply (epoch_means_nan _ _ _ Hmeans).
    apply (for_batches_nan _ train_batch_updates_stats _ _ _ _ _ Hpost).
    exact (update_stats_nan _ _ _ _ _ _ Hu (or_introl Hnan)).
  - apply val_done in H. destruct H as (st_end & w_end & Hloop & _ & Hmeans).
    apply for_batches_prefix in Hloop. destruct Hloop as (st0 & w0 & Hpre' & Hrest).
    rewrite Hpre in Hpre'. inversion Hpre'; subst st0 w0.
    apply for_batches_cons in Hrest. destruct Hrest as (st1 & w2 & Hb & Hpost).
    destruct (val_batch_done _ _ _ _ _ Hb)
      as (output' & bufs' & loss' & _ & Hf' & Hc' & Hu & _).
    rewrite Hf in Hf'. inversion Hf'; subst output' bufs'.
    rewrite Hc in Hc'. inversion Hc'; subst loss'.
    apply (epoch_means_nan _ _ _ Hmeans).
    apply (for_batches_nan _ val_batch_updates_stats _ _ _ _ _ Hpost).
    exact (update_stats_nan _ _ _ _ _ _ Hu (or_introl Hnan)).
Qed.

(** *** The accuracy of [val] when every prediction, or none, is right *)

Lemma eq_none (a b : list Z) (m : list bool) :
  Forall2 (fun p y => p <> y) a b -> Torch.eq a b = Ok m -> Torch.sum_item m = 0.
Proof.
  intros HF. unfold Torch.eq. rewrite (Forall2_length HF), Nat.eqb_refl.
  intros H. inversion H; subst m. unfold Torch.sum_item.
  induction HF as [|p y a b Hne HF IH]; [reflexivity|].
  cbn [Torch.zip_eqb]. destruct (Z.eqb_spec p y) as [|_]; [contradiction|].
  cbn [filter]. apply IH. reflexivity.
Qed.

Lemma sum_of_zeros {A : Type} (l : list A) :
  fold_right (fun (_ : A) n => 0 + n) 0 l = 0.
Proof. induction l as [|x l IH]; simpl; [reflexivity|exact IH]. Qed.

(** The correct predictions [val] has counted when each batch [b]
    contributes [cnt b]. *)
Lemma val_corrects (cnt : Batch -> Z) (bs : list Batch) :
  forall (st st' : Stats) (w w' : World) (c : Z),
    (forall b bufs output bufs' m,
        In b bs ->
        forward (params w) bufs (training w) (grad_enabled w) (data b)
          = Ok (output, bufs') ->
        Torch.eq (map argmax (rows output)) (labels b) = Ok m ->
        Torch.sum_item m = cnt b) ->
    running_corrects st = Py.Int c ->
    for_batches val_batch (map Ok bs) st w = Done st' w' ->
    running_corrects st' = Py.Int (c + fold_right (fun b n => cnt b + n) 0 bs).
Proof.
  induction bs as [|b bs IH]; intros st st' w w' c Hcnt Hc H.
  - simpl in H. inversion H; subst. simpl. rewrite Z.add_0_r. exact Hc.
  - apply for_batches_cons in H. destruct H as (st1 & w1 & Hb & H).
    destruct (val_batch_done _ _ _ _ _ Hb) as (output & bufs & loss & _ & Hf & _ & Hu & ->).
    destruct (update_stats_done _ _ _ _ _ _ Hu) as (wl & m & k & _ & _ & Hm & Hrc & _).
    rewrite Hc in Hrc. cbn [Py.add] in Hrc. inversion Hrc as [Hc1].
    rewrite (Hcnt b _ _ _ m (or_introl eq_refl) Hf Hm) in Hc1.
    cbn [fold_right]. rewrite Z.add_assoc.
    refine (IH st1 st' _ w' (c + cnt b) _ (eq_sym Hc1) H).
    intros b' bufs0 output0 bufs0' m0 Hin.
    cbn [params training grad_enabled set_buffers log].
    apply Hcnt. right. exact Hin.
Qed.

Lemma val_accuracy_counted (cnt : Batch -> Z) (bs : list Batch) (w w' : World)
    (l a : float) :
  samples bs <= 2 ^ 53 ->
  val (map Ok bs) w = Done (l, a) w' ->
  (forall b bufs output bufs' m,
      In b bs ->
      forward (params w) bufs false false (data b) = Ok (output, bufs') ->
      Torch.eq (map argmax (rows output)) (labels b) = Ok m ->
      Torch.sum_item m = cnt b) ->
  1 <= samples bs /\
  a = (Py.float_of_Z (fold_right (fun b n => (cnt b + n)%Z) 0%Z bs)
       / Py.float_of_Z (samples bs))%float.
Proof.
  intros Hs H Hcnt. apply val_done in H. destruct H as (st & w1 & Hloop & _ & Hmeans).
  destruct (epoch_counts val_batch bs st _ _ (l, a) val_batch_updates_stats Hs Hloop
              Hmeans) as (Hpos & c & f & _ & Hc & _ & _ & Hr).
  split; [exact Hpos|].
  pose proof (val_corrects cnt bs stats0 st (val_start w) w1 0 Hcnt eq_refl Hloop) as Hc'.
  rewrite Hc in Hc'. inversion Hc'; subst c. inversion Hr. reflexivity.
Qed.

(** X6: when the model, with the parameters [val] finds, gives every sample
    of the validation batches the class of its label, the accuracy [val]
    returns is exactly 1.0; when it gives none the class of its label, the
    accuracy is exactly 0.0 (at most 2^53 samples). *)
Theorem val_accuracy_extremes (bs : list Batch) (w w' : World) (l a : float) :
  samples bs <= 2 ^ 53 ->
  val (map Ok bs) w = Done (l, a) w' ->
  ((forall b bufs output bufs',
       In b bs ->
       forward (params w) bufs false false (data b) = Ok (output, bufs') ->
       map argmax (rows output) = labels b) ->
   a = 1%float) /\
  ((forall b bufs output bufs',
       In b bs ->
       forward (params w) bufs false false (data b) = Ok (output, bufs') ->
       Forall2 (fun p y => p <> y) (map argmax (rows output)) (labels b)) ->
   a = 0%float).
Proof.
  intros Hs H. split; intros Hall.
  - destruct (val_accuracy_counted (fun b => Torch.size0 (labels b)) bs w w' l a Hs H)
      as (Hpos & ->).
    { intros b bufs output bufs' m Hin Hf Hm.
      rewrite (Hall b bufs output bufs' Hin Hf) in Hm.
      destruct (eq_self (labels b)) as (m' & Hm' & Hsum).
      rewrite Hm in Hm'. inversion Hm'; subst m'. exact Hsum. }
    fold (samples bs). apply float_of_Z_self_ratio. lia.
  - destruct (val_accuracy_counted (fun _ => 0) bs w w' l a Hs H) as (Hpos & ->).
    { intros b bufs output bufs' m Hin Hf Hm.
      exact (eq_none _ _ _ (Hall b bufs output bufs' Hin Hf) Hm). }
    rewrite sum_of_zeros.
    apply float_of_Z_zero_ratio. lia.
Qed.

(** *** The calls of an epoch *)

Lemma val_loop_calls (bs : list Batch) (st st' : Stats) (w w' : World) :
  for_batches val_batch (map Ok bs) st w = Done st' w' ->
  calls w' = calls w ++ repeat (CForward (training w) (grad_enabled w)) (length bs).
Proof.
  revert st w. induction bs as [|b bs IH]; intros st w H.
  - simpl in H. inversion H. simpl. rewrite app_nil_r. reflexivity.
  - apply for_batches_cons in H. destruct H as (st1 & w1 & Hb & H).
    destruct (val_batch_done _ _ _ _ _ Hb) as (output & bufs & loss & _ & _ & _ & _ & ->).
    rewrite (IH _ _ H).
    cbn [calls training grad_enabled set_buffers log length repeat].
    rewrite <- app_assoc. reflexivity.
Qed.

Lemma train_calls (bs : list Batch) (w w' : World) (r : float * float) :
  train (map Ok bs) w = Done r w' ->
  calls w' = calls w ++ CTrainMode ::
             concat (map (fun _ => train_batch_calls (grad_enabled w)) bs).
Proof.
  intros H. apply train_done in H. destruct H as (st & Hloop & _).
  rewrite (train_loop_calls _ _ _ _ _ Hloop).
  cbn [calls train_start set_training log training grad_enabled].
  rewrite <- app_assoc. reflexivity.
Qed.

Lemma val_calls (bs : list Batch) (w w' : World) (r : float * float) :
  val (map Ok bs) w = Done r w' ->
  calls w' = calls w ++ CEvalMode :: repeat (CForward false false) (length bs).
Proof.
  intros H. apply val_done in H. destruct H as (st & w1 & Hloop & -> & _).
  cbn [calls set_grad_enabled]. rewrite (val_loop_calls _ _ _ _ _ Hloop).
  cbn [calls val_start set_grad_enabled set_training log training grad_enabled].
  rewrite <- app_assoc. reflexivity.
Qed.

Lemma train_done_loader (loader : list (result Batch)) (w w' : World)
    (r : float * float) :
  train loader w = Done r w' -> exists bs, loader = map Ok bs.
Proof.
  intros H. apply train_done in H. destruct H as (st & Hloop & _).
  exact (for_batches_done _ _ _ _ _ _ Hloop).
Qed.

Lemma val_done_loader (loader : list (result Batch)) (w w' : World)
    (r : float * float) :
  val loader w = Done r w' -> exists bs, loader = map Ok bs.
Proof.
  intros H. apply val_done in H. destruct H as (st & w1 & Hloop & _).
  exact (for_batches_done _ _ _ _ _ _ Hloop).
Qed.

(** X9: the calls of a pass of the loop body that finishes, in order:
    [model.train()], then [zero_grad], forward, [backward], [step] for
    each training batch, then [model.eval()] and one forward pass in
    evaluation mode without gradients for each validation batch, and last
    the figure, drawn once from the four histories as they stand after the
    results of this epoch were appended. *)
Theorem epoch_call_sequence (epoch : nat) (w w' : World) :
  epoch_body epoch w = Done tt w' ->
  exists tbs vbs tl ta vl va,
    train_loader epoch = map Ok tbs /\ val_loader epoch = map Ok vbs /\
    history w' = (train_loss w ++ [tl], train_accuracy w ++ [ta],
                  val_loss w ++ [vl], val_accuracy w ++ [va]) /\
    live_plot (train_loss w') (val_loss w') (train_accuracy w') (val_accuracy w')
    = Ok tt /\
    calls w' = calls w
               ++ (CTrainMode ::
                   concat (map (fun _ => train_batch_calls (grad_enabled w)) tbs))
               ++ (CEvalMode :: repeat (CForward false false) (length vbs))
               ++ [CPlot (train_loss w') (val_loss w') (train_accuracy w')
                     (val_accuracy w')].
Proof.
  intros H. destruct (epoch_body_inv _ _ _ H)
    as (tl & ta & w1 & vl & va & w2 & Htr & Hva & Hp & ->).
  destruct (train_done_loader _ _ _ _ Htr) as (tbs & Et).
  destruct (val_done_loader _ _ _ _ Hva) as (vbs & Ev).
  pose proof (train_keeps_history (train_loader epoch) w) as Ht.
  pose proof (val_keeps_history (val_loader epoch) (append_train tl ta w1)) as Hv.
  rewrite Htr in Ht. rewrite Hva in Hv. cbn [final_world] in *.
  rewrite Et in Htr. rewrite Ev in Hva.
  apply train_calls in Htr. apply val_calls in Hva.
  unfold history in Ht, Hv.
  cbn [train_loss train_accuracy val_loss val_accuracy calls append_train] in Hv, Hva.
  inversion Hv as [[E1 E2 E3 E4]]. inversion Ht as [[F1 F2 F3 F4]].
  exists tbs, vbs, tl, ta, vl, va.
  unfold history.
  cbn [train_loss train_accuracy val_loss val_accuracy calls log append_val] in *.
  split; [exact Et|]. split; [exact Ev|]. split; [congruence|].
  split; [exact Hp|].
  rewrite Hva, Htr, <- !app_assoc. cbn [app]. reflexivity.
Qed.

(** X10: nothing in the loop body but [train] writes the parameters, the stored
    gradients or the state of the optimizer: once [train] has returned,
    they stay as [train] left them to the end of the pass, whether [val]
    and the drawing finish or fail. *)
Theorem only_train_writes_the_model (epoch : nat) (w w1 : World) (r : float * float) :
  train (train_loader epoch) w = Done r w1 ->
  params (final_world (epoch_body epoch w)) = params w1 /\
  grads (final_world (epoch_body epoch w)) = grads w1 /\
  opt_state (final_world (epoch_body epoch w)) = opt_state w1.
Proof.
  intros Htr. unfold epoch_body, seq_bind, modify, plot. rewrite Htr.
  destruct r as [tl ta].
  destruct (val_keeps_world (val_loader epoch) (append_train tl ta w1))
    as (Hp & Hg & Ho & _).
  destruct (val (val_loader epoch) (append_train tl ta w1)) as [[vl va] w2|e w2];
    cbn [final_world] in *.
  - destruct (live_plot _ _ _ _); cbn [final_world];
      cbn [params grads opt_state log append_val];
      rewrite Hp, Hg, Ho; repeat split; reflexivity.
  - rewrite Hp, Hg, Ho. repeat split; reflexivity.
Qed.

(** *** The arithmetic of the statistics *)

Lemma update_stats_defined (loss : Loss) (x : list Sample) (preds y : list Z)
    (st : Stats) (n : Z) :
  counted n st ->
  (running_loss st = Py.Int 0 \/ exists f, running_loss st = Py.Float f) ->
  0 <= n -> n + Torch.size0 y <= 2 ^ 53 -> Torch.size0 x <= 2 ^ 53 ->
  length preds = length y ->
  exists st', update_stats loss x preds y st = Ok st'.
Proof.
  intros [Ht (c & Hc & _)] Hl Hn Hy Hx Hlen.
  pose proof (size0_nonneg x). pose proof (size0_nonneg y).
  unfold update_stats.
  cbn [Py.mul Py.to_float]. rewrite int_to_float_count by lia. cbn [bind].
  assert (Hadd : forall v g, (v = Py.Int 0 \/ exists f, v = Py.Float f) ->
                   exists r, Py.add v (Py.Float g) = Ok r).
  { intros v g [->|(f & ->)]; cbn [Py.add Py.to_float].
    - rewrite int_to_float_count by lia. cbn [bind]. eauto.
    - cbn [bind]. eauto. }
  destruct (Hadd (running_loss st) (item loss * Py.float_of_Z (Torch.size0 x))%float Hl)
    as (rl & ->). cbn [bind].
  unfold Torch.eq. rewrite Hlen, Nat.eqb_refl. cbn [bind].
  rewrite Hc. cbn [Py.add bind].
  unfold Py.pyfloat. cbn [Py.to_float]. rewrite int_to_float_count by lia. cbn [bind].
  destruct (Hadd (total st) (Py.float_of_Z (Torch.size0 y))) as (t & ->).
  { destruct Ht as [[-> _]| ->]; [left; reflexivity|right; eauto]. }
  cbn [bind]. eauto.
Qed.

Lemma prefix_stats (body : Batch -> Stats -> prog Stats) (pre : list Batch)
    (st : Stats) (w0 w1 : World) :
  updates_stats body -> samples pre <= 2 ^ 53 ->
  for_batches body (map Ok pre) stats0 w0 = Done st w1 ->
  counted (samples pre) st /\
  (running_loss st = Py.Int 0 \/ exists f, running_loss st = Py.Float f).
Proof.
  intros Hbody Hs H. pose proof (samples_nonneg pre).
  destruct (for_batches_counted body Hbody pre stats0 st w0 w1 0 counted_stats0)
    as (Hc & Hne); try assumption; try lia.
  rewrite Z.add_0_l in Hc. split; [exact Hc|].
  destruct pre as [|b pre].
  - simpl in H. inversion H; subst. left. reflexivity.
  - right. apply Hne. discriminate.
Qed.

(** X11: the statistics lines raise nothing of their own: in an epoch of at
    most 2^53 samples, on a batch that the device, the model and the loss
    have accepted (and, in [train], [backward] and the optimizer), the
    body of the loop finishes, with no overflow in the conversions to
    float and no shape error in the comparison of predictions and labels. *)
Theorem statistics_lines_cannot_fail (pre : list Batch) (b : Batch) (st : Stats)
    (w0 w1 : World) (output : Output) (bufs : Buffers) (loss : Loss) :
  samples (pre ++ [b]) <= 2 ^ 53 -> Torch.size0 (data b) <= 2 ^ 53 ->
  cuda_fault = None ->
  forward (params w1) (buffers w1) (training w1) (grad_enabled w1) (data b)
    = Ok (output, bufs) ->
  criterion output (labels b) = Ok loss ->
  (for_batches val_batch (map Ok pre) stats0 w0 = Done st w1 ->
   exists st',
     val_batch b st w1
     = Done st' (set_buffers bufs (log (CForward (training w1) (grad_enabled w1)) w1))) /\
  (for_batches train_batch (map Ok pre) stats0 w0 = Done st w1 ->
   forall g p o,
     backward loss (zero_grad (grads w1)) = Ok g ->
     sgd_step (params w1) g (opt_state w1) = Ok (p, o) ->
     exists st', train_batch b st w1 = Done st' (after_train_batch bufs g p o w1)).
Proof.
  intros Hs Hx Hc Hf Hl.
  rewrite samples_app in Hs. cbn [samples fold_right] in Hs.
  pose proof (samples_nonneg pre) as Hp.
  pose proof (size0_nonneg (labels b)) as Hy.
  assert (Hdef : forall body, updates_stats body ->
            for_batches body (map Ok pre) stats0 w0 = Done st w1 ->
            exists st', update_stats loss (data b) (map argmax (rows output))
                          (labels b) st = Ok st').
  { intros body Hbody Hpre.
    destruct (prefix_stats body pre st w0 w1 Hbody) as (Hcnt & Hrl);
      [lia|exact Hpre|].
    apply (update_stats_defined loss (data b) _ (labels b) st (samples pre));
      try assumption; try lia.
    rewrite length_map. exact (criterion_shape _ _ _ Hl). }
  split.
  - intros Hpre. destruct (Hdef _ val_batch_updates_stats Hpre) as (st' & Hu).
    exists st'. rewrite (val_batch_eval b st w1 output bufs loss Hc Hf Hl), Hu.
    reflexivity.
  - intros Hpre g p o Hb Hstep.
    destruct (Hdef _ train_batch_updates_stats Hpre) as (st' & Hu).
    exists st'.
    rewrite (train_batch_eval b st w1 output bufs loss g p o Hc Hf Hl Hb Hstep), Hu.
    reflexivity.
Qed.

(** *** The count of correct predictions *)

(** X12: the count of correct predictions stays an exact integer, between 0
    and the number of samples seen, whatever that number: it is never
    converted to a float before the final division, unlike the sample
    count, which stops being exact beyond 2^53. *)
Theorem corrects_stay_exact (bs : list Batch) (st : Stats) (w w' : World) :
  for_batches train_batch (map Ok bs) stats0 w = Done st w' \/
  for_batches val_batch (map Ok bs) stats0 w = Done st w' ->
  exists c, running_corrects st = Py.Int c /\ 0 <= c <= samples bs.
Proof.
  intros [H|H].
  - destruct (corrects_counted _ train_batch_updates_stats bs stats0 st w w' 0
                eq_refl H) as (d & Hc & Hd).
    exists d. split; assumption.
  - destruct (corrects_counted _ val_batch_updates_stats bs stats0 st w w' 0
                eq_refl H) as (d & Hc & Hd).
    exists d. split; assumption.
Qed.

(** *** The sign of the mean loss *)

(** The specification floats that are not negative. *)
Lemma SFleb_zero (x : spec_float) :
  SFleb (S754_zero false) x = true <->
  (exists s, x = S754_zero s) \/ (exists m e, x = S754_finite false m e) \/
  x = S754_infinity false.
Proof.
  unfold SFleb, SFcompare. split.
  - destruct x as [s|[]| |[] m e]; intros H; try discriminate H; eauto 6.
  - intros [(s & ->)|[(m & e & ->)| ->]]; reflexivity.
Qed.

Lemma shr_1_nonneg (mrs : shr_record) : 0 <= shr_m mrs -> 0 <= shr_m (shr_1 mrs).
Proof.
  destruct mrs as [m r s]. cbn [shr_m]. intros H.
  destruct m as [|[p|p|]|p]; cbn [shr_1 shr_m]; lia.
Qed.

Lemma iter_shr_1_nonneg (k : positive) (mrs : shr_record) :
  0 <= shr_m mrs -> 0 <= shr_m (iter_pos shr_1 k mrs).
Proof.
  rewrite iter_pos_iter.
  apply (Pos.iter_invariant k _ shr_1 (fun r => 0 <= shr_m r)).
  intros x. apply shr_1_nonneg.
Qed.

Lemma shr_fexp_nonneg (m e : Z) (l : location) :
  0 <= m -> 0 <= shr_m (fst (shr_fexp prec emax m e l)).
Proof.
  intros H. unfold shr_fexp, shr.
  assert (H0 : 0 <= shr_m (shr_record_of_loc m l)) by (destruct l as [|[]]; exact H).
  destruct (fexp prec emax (Zdigits2 m + e) - e); cbn [fst]; try exact H0.
  apply iter_shr_1_nonneg, H0.
Qed.

Lemma round_nearest_even_nonneg (m : Z) (l : location) :
  0 <= m -> 0 <= round_nearest_even m l.
Proof.
  intros H. destruct l as [|[]]; cbn [round_nearest_even]; try lia.
  destruct (Z.even m); lia.
Qed.

Lemma round_aux_nonneg (m e : Z) (l : location) :
  0 <= m -> SFleb (S754_zero false) (binary_round_aux prec emax false m e l) = true.
Proof.
  intros H. unfold binary_round_aux.
  pose proof (shr_fexp_nonneg m e l H) as H1.
  destruct (shr_fexp prec emax m e l) as [mrs' e']. cbn [fst] in H1.
  pose proof (shr_fexp_nonneg _ e' loc_Exact
                (round_nearest_even_nonneg _ (loc_of_shr_record mrs') H1)) as H2.
  destruct (shr_fexp prec emax (round_nearest_even (shr_m mrs') (loc_of_shr_record mrs'))
              e' loc_Exact) as [mrs'' e'']. cbn [fst] in H2.
  destruct (shr_m mrs'') as [|p|p]; [reflexivity| |lia].
  destruct (e'' <=? emax - prec); reflexivity.
Qed.

Lemma SFadd_nonneg (x y : spec_float) :
  SFleb (S754_zero false) x = true -> SFleb (S754_zero false) y = true ->
  SFleb (S754_zero false) (SF64add x y) = true.
Proof.
  intros Hx Hy. apply SFleb_zero in Hx, Hy.
  destruct Hx as [(sx & ->)|[(mx & ex & ->)| ->]],
           Hy as [(sy & ->)|[(my & ey & ->)| ->]];
    try (destruct sx); try (destruct sy); try reflexivity.
  unfold SF64add, SFadd, binary_normalize. cbn [cond_Zopp].
  rewrite <- Pos2Z.inj_add. unfold binary_round.
  destruct (shl_align _ _ _) as [mz ez].
  apply round_aux_nonneg. lia.
Qed.

Lemma SFmul_nonneg (x : spec_float) (k : Z) :
  SFleb (S754_zero false) x = true -> x <> S754_infinity false ->
  0 <= k <= 2 ^ 53 ->
  SFleb (S754_zero false) (SF64mul x (Py.nearest k)) = true.
Proof.
  intros Hx Hinf Hk. apply SFleb_zero in Hx.
  destruct (nearest_finite k Hk) as [->|(m & e & ->)];
    destruct Hx as [(sx & ->)|[(mx & ex & ->)| ->]];
    try (destruct sx); try reflexivity; try congruence.
  unfold SF64mul, SFmul. cbn [xorb]. apply round_aux_nonneg. lia.
Qed.

Lemma SFdiv_nonneg (x : spec_float) (n : Z) :
  SFleb (S754_zero false) x = true -> 1 <= n <= 2 ^ 53 ->
  SFleb (S754_zero false) (SF64div x (Py.nearest n)) = true.
Proof.
  intros Hx Hn. apply SFleb_zero in Hx.
  destruct (nearest_repr n Hn) as (m & e & -> & _).
  destruct Hx as [(sx & ->)|[(mx & ex & ->)| ->]];
    try (destruct sx); try reflexivity.
  unfold SF64div, SFdiv. cbn [xorb].
  destruct (SFdiv_core_binary prec emax (Zpos mx) ex (Zpos m) e) as [[q e'] lz] eqn:Hd.
  apply round_aux_nonneg.
  unfold SFdiv_core_binary in Hd.
  set (s := ex - e
            - Z.min (fexp prec emax (Zdigits2 (Zpos mx) + ex - (Zdigits2 (Zpos m) + e)))
                (ex - e)) in Hd.
  assert (Hm' : 0 <= match s with
                     | 0 => Zpos mx
                     | Zpos _ => Z.shiftl (Zpos mx) s
                     | Z.neg _ => 0
                     end).
  { destruct s; try lia. apply Z.shiftl_nonneg. lia. }
  pose proof (Z.div_pos _ (Zpos m) Hm' (Pos2Z.is_pos m)) as Hq.
  unfold Z.div in Hq.
  destruct (Z.div_eucl _ (Zpos m)) as [q' r']. inversion Hd; subst. exact Hq.
Qed.

Lemma nonneg_add (x y : float) : nonneg x -> nonneg y -> nonneg (x + y).
Proof.
  unfold nonneg. rewrite !leb_spec, add_spec. apply SFadd_nonneg.
Qed.

Lemma nonneg_mul_count (x : float) (k : Z) :
  nonneg x -> (x <? infinity)%float = true -> 0 <= k <= 2 ^ 53 ->
  nonneg (x * Py.float_of_Z k).
Proof.
  unfold nonneg. intros Hx Hlt Hk.
  rewrite leb_spec in *. rewrite ltb_spec in Hlt.
  rewrite mul_spec, float_of_Z_spec by assumption.
  apply SFmul_nonneg; try assumption.
  intros E. rewrite E in Hlt. discriminate Hlt.
Qed.

Lemma nonneg_div_count (x : float) (n : Z) :
  nonneg x -> 1 <= n <= 2 ^ 53 -> nonneg (x / Py.float_of_Z n).
Proof.
  unfold nonneg. intros Hx Hn.
  rewrite leb_spec in *. rewrite div_spec, float_of_Z_spec by lia.
  apply SFdiv_nonneg; assumption.
Qed.

Lemma train_batch_updates_with_loss : updates_with_loss train_batch.
Proof.
  intros b st st' w w' H.
  destruct (train_batch_done _ _ _ _ _ H)
    as (output & bufs & loss & g & p & o & _ & _ & Hc & _ & _ & Hu & _).
  exists loss, output. split; assumption.
Qed.

Lemma val_batch_updates_with_loss : updates_with_loss val_batch.
Proof.
  intros b st st' w w' H.
  destruct (val_batch_done _ _ _ _ _ H) as (output & bufs & loss & _ & _ & Hc & Hu & _).
  exists loss, output. split; assumption.
Qed.

Lemma criterion_cross_entropy (output : Output) (y : list Z) (loss : Loss) :
  criterion output y = Ok loss -> cross_entropy output y = Ok loss.
Proof.
  unfold criterion. destruct (length (rows output) =? length y)%nat;
    [trivial|discriminate].
Qed.

Lemma update_stats_nonneg (loss : Loss) (x : list Sample) (preds y : list Z)
    (st st' : Stats) :
  nonneg (item loss) -> (item loss <? infinity)%float = true ->
  Torch.size0 x <= 2 ^ 53 ->
  loss_nonneg (running_loss st) ->
  update_stats loss x preds y st = Ok st' ->
  loss_nonneg (running_loss st').
Proof.
  intros Hl Hfin Hx Hr Hu. pose proof (size0_nonneg x) as Hx0.
  destruct (update_stats_done _ _ _ _ _ _ Hu) as (wl & m & k & Hwl & Hrl & _).
  cbn [Py.mul Py.to_float] in Hwl. rewrite int_to_float_count in Hwl by lia.
  cbn [bind] in Hwl. inversion Hwl; subst wl.
  assert (Hw : nonneg (item loss * Py.float_of_Z (Torch.size0 x)))
    by (apply nonneg_mul_count; [assumption|assumption|lia]).
  right. destruct Hr as [Hr|(f & Hr & Hf)]; rewrite Hr in Hrl;
    cbn [Py.add Py.to_float] in Hrl.
  - rewrite int_to_float_count in Hrl by lia. cbn [bind] in Hrl.
    inversion Hrl as [E]. eexists. split; [reflexivity|].
    apply nonneg_add; [reflexivity|exact Hw].
  - cbn [bind] in Hrl. inversion Hrl as [E]. eexists. split; [reflexivity|].
    apply nonneg_add; assumption.
Qed.

Lemma for_batches_nonneg (body : Batch -> Stats -> prog Stats) :
  updates_with_loss body ->
  (forall output y loss, cross_entropy output y = Ok loss ->
     nonneg (item loss) /\ (item loss <? infinity)%float = true) ->
  forall (bs : list Batch) (st st' : Stats) (w w' : World),
    (forall b, In b bs -> Torch.size0 (data b) <= 2 ^ 53) ->
    loss_nonneg (running_loss st) ->
    for_batches body (map Ok bs) st w = Done st' w' ->
    loss_nonneg (running_loss st').
Proof.
  intros Hbody Hce bs. induction bs as [|b bs IH]; intros st st' w w' Hx Hr H.
  - simpl in H. inversion H; subst. exact Hr.
  - apply for_batches_cons in H. destruct H as (st1 & w1 & Hb & H).
    destruct (Hbody _ _ _ _ _ Hb) as (loss & output & Hc & Hu).
    destruct (Hce _ _ _ (criterion_cross_entropy _ _ _ Hc)) as [Hl Hfin].
    apply (IH st1 st' w1 w'); [|
      |exact H].
    + intros b' Hin. apply Hx. right. exact Hin.
    + apply (update_stats_nonneg loss (data b) (map argmax (rows output)) (labels b)
               st st1); try assumption.
      apply Hx. left. reflexivity.
Qed.

Lemma mean_loss_nonneg (body : Batch -> Stats -> prog Stats) (bs : list Batch)
    (st : Stats) (w w' : World) (l a : float) :
  updates_stats body -> updates_with_loss body ->
  (forall output y loss, cross_entropy output y = Ok loss ->
     nonneg (item loss) /\ (item loss <? infinity)%float = true) ->
  (forall b, In b bs -> Torch.size0 (data b) <= 2 ^ 53) ->
  samples bs <= 2 ^ 53 ->
  for_batches body (map Ok bs) stats0 w = Done st w' ->
  epoch_means st = Ok (l, a) ->
  nonneg l.
Proof.
  intros Hstats Hbody Hce Hx Hs Hloop Hmeans.
  destruct (epoch_counts body bs st w w' (l, a) Hstats Hs Hloop Hmeans)
    as (Hpos & c & f & _ & _ & _ & Hf & Hr).
  pose proof (for_batches_nonneg body Hbody Hce bs stats0 st w w' Hx
                (or_introl eq_refl) Hloop) as Hn.
  rewrite Hf in Hn. destruct Hn as [Hn|(f' & Hn & Hf')]; [discriminate|].
  inversion Hn; subst f'. inversion Hr; subst.
  apply nonneg_div_count; [exact Hf'|lia].
Qed.

(** X14: when the loss function never gives a negative, infinite or NaN value,
    the mean loss that an epoch of [train] or of [val] returns is not
    negative and not a NaN (batches of at most 2^53 inputs, at most 2^53
    samples in the epoch). *)
Theorem mean_loss_is_not_negative (bs : list Batch) (w w' : World) (l a : float) :
  (forall output y loss, cross_entropy output y = Ok loss ->
     nonneg (item loss) /\ (item loss <? infinity)%float = true) ->
  (forall b, In b bs -> Torch.size0 (data b) <= 2 ^ 53) ->
  samples bs <= 2 ^ 53 ->
  train (map Ok bs) w = Done (l, a) w' \/ val (map Ok bs) w = Done (l, a) w' ->
  nonneg l.
Proof.
  intros Hce Hx Hs [H|H].
  - apply train_done in H. destruct H as (st & Hloop & Hmeans).
    exact (mean_loss_nonneg _ _ _ _ _ _ _ train_batch_updates_stats
             train_batch_updates_with_loss Hce Hx Hs Hloop Hmeans).
  - apply val_done in H. destruct H as (st & w1 & Hloop & _ & Hmeans).
    exact (mean_loss_nonneg _ _ _ _ _ _ _ val_batch_updates_stats
             val_batch_updates_with_loss Hce Hx Hs Hloop Hmeans).
Qed.

(** *** An accuracy of 1.0 *)

Lemma round_aux_no_carry (q e : Z) (l : location) :
  2 ^ 52 <= q <= 2 ^ 53 - 2 -> -1074 <= e <= 900 ->
  exists m2, binary_round_aux prec emax false q e l = S754_finite false m2 e /\
             Z.log2 (Zpos m2) = 52.
Proof.
  intros Hq He. destruct q as [|q|q]; try lia.
  unfold binary_round_aux. rewrite shr_fexp_53 by (try apply bounds_log2_52; lia).
  destruct (loc_of_record_of_loc (Zpos q) l) as (-> & ->).
  pose proof (round_nearest_even_bounds (Zpos q) l) as Hr.
  destruct (round_nearest_even (Zpos q) l) as [|r|r] eqn:E; try lia.
  exists r. rewrite round_finish by (try apply bounds_log2_52; lia).
  split; [reflexivity|apply bounds_log2_52; lia].
Qed.

Lemma round_aux_shift_no_carry (q e : Z) (l : location) :
  2 ^ 53 <= q <= 2 ^ 54 - 3 -> -1074 <= e <= 800 ->
  exists m2, binary_round_aux prec emax false q e l = S754_finite false m2 (e + 1) /\
             Z.log2 (Zpos m2) = 52.
Proof.
  intros Hq He. destruct q as [|q|q]; try lia.
  unfold binary_round_aux, shr_fexp at 1.
  rewrite Zdigits2_log2.
  replace (Z.log2 (Zpos q)) with 53 by (symmetry; apply Z.log2_unique; lia).
  replace (fexp prec emax (53 + 1 + e) - e) with 1
    by (unfold fexp, SpecFloat.emin, prec, emax; lia).
  cbn [shr iter_pos].
  destruct l as [|[]]; cbn [shr_record_of_loc].
  all: match goal with |- context [shr_1 {| shr_m := _; shr_r := ?r; shr_s := ?s |}] =>
         destruct (shr_1_half q r s) as (r' & s' & ->); [lia|] end.
  all: cbn [shr_m].
  all: assert (Hh : 2 ^ 52 <= Zpos q / 2 <= 2 ^ 53 - 2)
         by (split; [apply Z.div_le_lower_bound; lia|];
             apply Z.lt_succ_r, Z.div_lt_upper_bound; lia).
  all: match goal with |- context [round_nearest_even ?m ?l] =>
         pose proof (round_nearest_even_bounds m l) as Hr;
         destruct (round_nearest_even m l) as [|r|r] eqn:E; try lia end.
  all: exists r; rewrite round_finish by (try apply bounds_log2_52; lia).
  all: split; [reflexivity|apply bounds_log2_52; lia].
Qed.

(** The canonical forms of two counts are ordered as the counts are. *)
Lemma repr_order (c n : Z) (mc mn : positive) (ec en : Z) :
  0 < c < n ->
  2 ^ 52 <= Zpos mc < 2 ^ 53 -> 2 ^ 52 <= Zpos mn < 2 ^ 53 ->
  -52 <= ec -> -52 <= en ->
  c * 2 ^ 52 = Zpos mc * 2 ^ (ec + 52) -> n * 2 ^ 52 = Zpos mn * 2 ^ (en + 52) ->
  ec < en \/ (ec = en /\ Zpos mc < Zpos mn).
Proof.
  intros Hc Bc Bn Hec Hen Hvc Hvn.
  destruct (Z_lt_le_dec ec en) as [|Hge]; [left; assumption|right].
  assert (Hlt : Zpos mc * 2 ^ (ec + 52) < Zpos mn * 2 ^ (en + 52)) by nia.
  assert (Hp : 0 < 2 ^ (en + 52)) by (apply Z.pow_pos_nonneg; lia).
  destruct (Z.eq_dec ec en) as [->|Hne].
  - split; [reflexivity|]. nia.
  - exfalso.
    replace (ec + 52) with (en + 52 + (ec - en)) in Hlt by lia.
    rewrite Z.pow_add_r in Hlt by lia.
    assert (HQ : 2 <= 2 ^ (ec - en)).
    { change 2 with (2 ^ 1) at 1. apply Z.pow_le_mono_r; lia. }
    set (P := 2 ^ (en + 52)) in *. set (Q := 2 ^ (ec - en)) in *.
    assert (P * 2 <= P * Q) by (apply Z.mul_le_mono_nonneg_l; lia).
    assert (2 ^ 52 * (P * 2) <= Zpos mc * (P * Q))
      by (apply Z.mul_le_mono_nonneg; lia).
    assert (Zpos mn * P < 2 ^ 53 * P) by (apply Z.mul_lt_mono_pos_r; lia).
    lia.
Qed.

Lemma div_counts_below_one (c n : Z) :
  0 <= c < n -> 1 <= n <= 2 ^ 53 ->
  SFltb (SF64div (Py.nearest c) (Py.nearest n))
    (S754_finite false 4503599627370496 (-52)) = true.
Proof.
  intros Hc Hn.
  destruct (nearest_repr n Hn) as (mn & en & -> & Hln & Hen & Hvn).
  destruct (Z.eq_dec c 0) as [->|Hc0].
  { rewrite nearest_0. reflexivity. }
  destruct (nearest_repr c) as (mc & ec & -> & Hlc & Hec & Hvc); [lia|].
  pose proof (log2_52_bounds mc Hlc) as Bc.
  pose proof (log2_52_bounds mn Hln) as Bn.
  assert (Hord : ec < en \/ (ec = en /\ Zpos mc < Zpos mn))
    by (apply (repr_order c n); try assumption; lia).
  unfold SF64div, SFdiv.
  rewrite div_core_53 by assumption. cbn [xorb].
  set (q := Zpos mc * 2 ^ 53 / Zpos mn).
  set (l := new_location (Zpos mn) (Zpos mc * 2 ^ 53 mod Zpos mn)).
  assert (Hq : 2 ^ 52 <= q <= 2 ^ 54 - 2).
  { unfold q. split.
    - apply Z.div_le_lower_bound; lia.
    - apply Z.lt_succ_r, Z.div_lt_upper_bound; lia. }
  assert (Hfin : forall m2 e2,
             Z.log2 (Zpos m2) = 52 -> e2 <= -53 ->
             SFltb (S754_finite false m2 e2) (S754_finite false 4503599627370496 (-52))
             = true).
  { intros m2 e2 _ He2. unfold SFltb, SFcompare.
    destruct (Z.compare_spec e2 (-52)); try reflexivity; lia. }
  destruct Hord as [Hlt|[-> Hlt]].
  - destruct (Z_lt_le_dec (ec - en) (-1)) as [Hfar|Hnear].
    + destruct (round_aux_bounds q (ec - en - 53) l) as (m2 & e2 & -> & Hl2 & Hcase);
        try lia.
      apply Hfin; [assumption|]. lia.
    + assert (E : ec - en - 53 = -54) by lia. rewrite E.
      destruct (Z_lt_le_dec q (2 ^ 53)) as [Hsmall|Hbig].
      * destruct (round_aux_bounds q (-54) l) as (m2 & e2 & -> & Hl2 & Hcase);
          try lia.
        apply Hfin; [assumption|]. lia.
      * destruct (Z.eq_dec q (2 ^ 54 - 2)) as [Htop|Hnot].
        -- (* only for [mc = 2^53 - 1] and [mn = 2^52], with no remainder *)
           assert (Hmul : (2 ^ 54 - 2) * Zpos mn <= Zpos mc * 2 ^ 53).
           { rewrite <- Htop. unfold q. rewrite Z.mul_comm.
             apply Z.mul_div_le. lia. }
           assert (Emn : Zpos mn = 2 ^ 52) by nia.
           assert (Emc : Zpos mc = 2 ^ 53 - 1) by nia.
           unfold l, q in *. rewrite Emn, Emc. reflexivity.
        -- destruct (round_aux_shift_no_carry q (-54) l) as (m2 & -> & Hl2); try lia.
           apply Hfin; [assumption|]. lia.
  - replace (en - en - 53) with (-53) by lia.
    assert (Hq' : q <= 2 ^ 53 - 2).
    { unfold q. apply Z.lt_succ_r, Z.div_lt_upper_bound; [lia|]. nia. }
    destruct (round_aux_no_carry q (-53) l) as (m2 & -> & Hl2); try lia.
    apply Hfin; [assumption|]. lia.
Qed.

Lemma float_of_Z_ratio_below_one (c n : Z) :
  0 <= c < n -> 1 <= n <= 2 ^ 53 ->
  (Py.float_of_Z c / Py.float_of_Z n <? 1)%float = true.
Proof.
  intros Hc Hn. rewrite ltb_spec, div_spec, !float_of_Z_spec by lia.
  apply div_counts_below_one; assumption.
Qed.

(** X16: the accuracy that an epoch of [train] or of [val] returns (at most
    2^53 samples) is exactly 1.0 when the count of correct predictions
    equals the number of samples, and strictly below 1.0 otherwise: the
    division never rounds up to 1.0; it is exactly 0.0 when the count is
    zero. *)
Theorem accuracy_one_means_all_correct (bs : list Batch) (w w' : World) (l a : float) :
  samples bs <= 2 ^ 53 ->
  train (map Ok bs) w = Done (l, a) w' \/ val (map Ok bs) w = Done (l, a) w' ->
  exists st c,
    (for_batches train_batch (map Ok bs) stats0 (train_start w) = Done st w' \/
     exists w1, for_batches val_batch (map Ok bs) stats0 (val_start w) = Done st w1) /\
    running_corrects st = Py.Int c /\ 0 <= c <= samples bs /\
    (c = samples bs -> a = 1%float) /\
    (c < samples bs -> (a <? 1)%float = true) /\
    (c = 0 -> a = 0%float).
Proof.
  intros Hs H.
  assert (Hgen : forall body st w0 w1,
             updates_stats body ->
             for_batches body (map Ok bs) stats0 w0 = Done st w1 ->
             epoch_means st = Ok (l, a) ->
             exists c, running_corrects st = Py.Int c /\ 0 <= c <= samples bs /\
                       (c = samples bs -> a = 1%float) /\
                       (c < samples bs -> (a <? 1)%float = true) /\
                       (c = 0 -> a = 0%float)).
  { intros body st w0 w1 Hbody Hloop Hmeans.
    destruct (epoch_counts body bs st w0 w1 (l, a) Hbody Hs Hloop Hmeans)
      as (Hpos & c & f & _ & Hc & Hcn & _ & Hr).
    inversion Hr; subst.
    exists c. split; [exact Hc|]. split; [exact Hcn|]. split; [|split].
    - intros ->. apply float_of_Z_self_ratio. lia.
    - intros Hlt. apply float_of_Z_ratio_below_one; lia.
    - intros ->. apply float_of_Z_zero_ratio. lia. }
  destruct H as [H|H].
  - apply train_done in H. destruct H as (st & Hloop & Hmeans).
    destruct (Hgen _ _ _ _ train_batch_updates_stats Hloop Hmeans) as (c & Hc).
    exists st, c. split; [left; exact Hloop|exact Hc].
  - apply val_done in H. destruct H as (st & w1 & Hloop & _ & Hmeans).
    destruct (Hgen _ _ _ _ val_batch_updates_stats Hloop Hmeans) as (c & Hc).
    exists st, c. split; [right; exists w1; exact Hloop|exact Hc].
Qed.

End Notebook.

Arguments Done {Params Buffers Grads OptState A} a w.
Arguments Fault {Params Buffers Grads OptState A} e w.

(** ** A concrete instance

    A classifier with one integer weight: a sample [s] gets class
    [(s + weight) mod 2]; the loss is a constant; [backward] adds one to the
    stored gradient and the optimizer subtracts the gradient from the
    weight. It runs the notebook on small data, and on batches too large
    for a float to count. *)

Module Demo.

Definition forward (p : Z) (_ : unit) (_ _ : bool) (x : list Z) : result (list Z * unit) :=
  Ok (map (fun s => (s + p) mod 2) x, tt).
Definition rows (output : list Z) : list Z := output.
Definition argmax (row : Z) : Z := row.
Definition cross_entropy (_ : list Z) (_ : list Z) : result float := Ok 0.5%float.
Definition item (loss : float) : float := loss.
Definition backward (_ : float) (g : Z) : result Z := Ok (g + 1).
Definition zero_grad (_ : Z) : Z := 0.
Definition sgd_step (p g : Z) (o : unit) : result (Z * unit) := Ok (p - g, o).
Definition live_plot (_ _ _ _ : list float) : result unit := Ok tt.

Definition batch1 : Batch := {| data := [0; 1; 2; 3]; labels := [0; 1; 1; 1] |}.
Definition batch2 : Batch := {| data := [4; 5; 6; 7]; labels := [0; 0; 0; 1] |}.
Definition empty_batch : Batch := {| data := @nil Z; labels := [] |}.
Definition train_loader (_ : nat) : list (result Batch) := [Ok batch1; Ok batch2].
Definition val_loader (_ : nat) : list (result Batch) := [Ok batch2].

(** 2^53 as a number of samples. *)
Definition huge : nat := Z.to_nat 9007199254740992.

(** [n] samples of class 0, all labelled 0. *)
Definition uniform_batch (n : nat) : Batch :=
  {| data := repeat 0 n; labels := repeat 0 n |}.

Definition w0 : @World Z unit Z unit :=
  {| params := 0; buffers := tt; training := false; grad_enabled := true;
     grads := 0; opt_state := tt;
     train_loss := []; train_accuracy := []; val_loss := []; val_accuracy := [];
     calls := [] |}.

(** A model whose forward pass fails. *)
Definition broken_forward (_ : Z) (_ : unit) (_ _ : bool) (_ : list Z)
    : result (list Z * unit) :=
  Raise (LibraryError 7).

Abbreviation broken_notebook :=
  (@notebook Z Z (list Z) float Z unit Z unit None broken_forward rows argmax
     cross_entropy item backward zero_grad sgd_step live_plot train_loader val_loader).

(** A loss that is not a number. *)
Definition nan_cross_entropy (_ : list Z) (_ : list Z) : result float := Ok nan.

(** Samples to which the classifier of weight 0 gives the class of their
    label. *)
Definition easy_batch : Batch := {| data := [0; 1; 2; 3]; labels := [0; 1; 0; 1] |}.

Abbreviation nan_val :=
  (@val Z Z (list Z) float Z unit Z unit None forward rows argmax
     nan_cross_entropy item).
(** Statistics whose running loss is an int too large for a float. *)
Definition overflowing_stats : Stats :=
  {| running_loss := Py.Int (2 ^ 1024); running_corrects := Py.Int 0;
     total := Py.Int 0 |}.

(** A validation loader whose first fetch fails in the epoch of index 1. *)
Definition late_val_loader (epoch : nat) : list (result Batch) :=
  if (epoch =? 1)%nat then [Raise (LibraryError 9)] else [Ok batch2].

Abbreviation stopped_training_loop :=
  (@training_loop Z Z (list Z) float Z unit Z unit None forward rows argmax
     cross_entropy item backward zero_grad sgd_step live_plot train_loader
     late_val_loader).
Abbreviation epoch_body :=
  (@epoch_body Z Z (list Z) float Z unit Z unit None forward rows argmax
     cross_entropy item backward zero_grad sgd_step live_plot train_loader val_loader).

(** The notebook's functions on this instance. *)
Abbreviation train_batch :=
  (@train_batch Z Z (list Z) float Z unit Z unit None forward rows argmax
     cross_entropy item backward zero_grad sgd_step).
Abbreviation val_batch :=
  (@val_batch Z Z (list Z) float Z unit Z unit None forward rows argmax
     cross_entropy item).
Abbreviation train :=
  (@train Z Z (list Z) float Z unit Z unit None forward rows argmax
     cross_entropy item backward zero_grad sgd_step).
Abbreviation val :=
  (@val Z Z (list Z) float Z unit Z unit None forward rows argmax
     cross_entropy item).
Abbreviation training_loop :=
  (@training_loop Z Z (list Z) float Z unit Z unit None forward rows argmax
     cross_entropy item backward zero_grad sgd_step live_plot train_loader val_loader).
Abbreviation notebook :=
  (@notebook Z Z (list Z) float Z unit Z unit None forward rows argmax
     cross_entropy item backward zero_grad sgd_step live_plot train_loader val_loader).

(** The statistics of [val] over uniform batches of the given sizes. *)
Fixpoint stats_after (sizes : list Z) (st : Stats) : result Stats :=
  match sizes with
  | [] => Ok st
  | n :: rest => st <- stats_step 0.5%float n n st ;; stats_after rest st
  end.

End Demo.

Lemma demo_val_batch (n : nat) (st : Stats) (w : @World Z unit Z unit) :
  params w = 0 ->
  exists w', params w' = 0 /\
    Demo.val_batch (Demo.uniform_batch n) st w
    = lift (stats_step 0.5%float (Z.of_nat n) (Z.of_nat n) st) w'.
Proof.
  intros Hp. eexists. split.
  2:{ erewrite val_batch_eval; [| reflexivity | reflexivity |].
      - unfold Demo.uniform_batch, Demo.rows, Demo.argmax. cbn [data labels].
        rewrite Hp, map_id, map_repeat. change ((0 + 0) mod 2) with 0.
        rewrite update_stats_all_correct. unfold Torch.size0.
        rewrite repeat_length. reflexivity.
      - unfold criterion, Demo.rows, Demo.uniform_batch. cbn [data labels].
        rewrite length_map, Nat.eqb_refl. reflexivity. }
  exact Hp.
Qed.

Lemma demo_val_loop (ns : list nat) (st st' : Stats) (w : @World Z unit Z unit) :
  params w = 0 ->
  Demo.stats_after (map Z.of_nat ns) st = Ok st' ->
  exists w', for_batches Demo.val_batch (map Ok (map Demo.uniform_batch ns)) st w
             = Done st' w'.
Proof.
  revert st w. induction ns as [|n ns IH]; intros st w Hp H.
  - simpl in H. inversion H. exists w. reflexivity.
  - cbn [map Demo.stats_after] in H.
    apply bind_inv in H. destruct H as (st1 & H1 & H).
    destruct (demo_val_batch n st w Hp) as (w1 & Hp1 & Hb).
    destruct (IH st1 w1 Hp1 H) as (w' & Hl).
    exists w'. cbn [map for_batches]. unfold seq_bind at 1. cbn [lift].
    unfold seq_bind. rewrite Hb, H1. cbn [lift]. exact Hl.
Qed.

Lemma demo_val (ns : list nat) (st : Stats) (r : float * float) :
  Demo.stats_after (map Z.of_nat ns) stats0 = Ok st ->
  epoch_means st = Ok r ->
  exists w1,
    for_batches Demo.val_batch (map Ok (map Demo.uniform_batch ns)) stats0
      (val_start Demo.w0) = Done st w1 /\
    Demo.val (map Ok (map Demo.uniform_batch ns)) Demo.w0
    = Done r (set_grad_enabled true w1).
Proof.
  intros Hst Hr.
  destruct (demo_val_loop ns stats0 st (val_start Demo.w0) eq_refl Hst) as (w1 & Hl).
  exists w1. split; [exact Hl|].
  unfold val, seq_bind, model_eval, modify, no_grad.
  change (set_grad_enabled false (set_training false (log CEvalMode Demo.w0)))
    with (val_start Demo.w0).
  rewrite Hl. unfold lift. rewrite Hr. reflexivity.
Qed.

Lemma lost_count (n : nat) :
  Z.of_nat n = 2 ^ 53 ->
  exists r w',
    Demo.val (map Ok [Demo.uniform_batch n; Demo.uniform_batch 1]) Demo.w0 = Done r w' /\
    ~ epoch_invariant Demo.val_batch (val_start Demo.w0)
        [Demo.uniform_batch n; Demo.uniform_batch 1] r.
Proof.
  intros Hn.
  remember (Demo.stats_after [2 ^ 53; 1] stats0) as R eqn:HR.
  vm_compute in HR.
  match type of HR with _ = Ok ?s => set (st := s) in HR end.
  remember (epoch_means st) as M eqn:HM. vm_compute in HM.
  match type of HM with _ = Ok ?x => set (r := x) in HM end.
  assert (Hst : Demo.stats_after (map Z.of_nat [n; 1%nat]) stats0 = Ok st).
  { cbn [map]. rewrite Hn. vm_compute. reflexivity. }
  assert (Hr : epoch_means st = Ok r) by (vm_compute; reflexivity).
  destruct (demo_val [n; 1%nat] st r Hst Hr) as (w1 & Hl & Hv).
  exists r, (set_grad_enabled true w1). split; [exact Hv|].
  intros (st' & w1' & Hl' & _ & Hexact & _).
  cbn [map] in Hl, Hl'. rewrite Hl in Hl'. injection Hl' as <- _.
  cbn [samples fold_right Demo.uniform_batch labels] in Hexact.
  unfold Torch.size0 in Hexact. rewrite !repeat_length, Hn in Hexact.
  vm_compute in Hexact. discriminate.
Qed.

(** *** Counts beyond the reach of a float *)

(** Past the side condition of C1, on a batch larger than any loader
    yields: after a batch of 2^53 samples and one more sample the float
    that counts the samples still holds 2^53, one less than the number of
    samples seen. *)
Lemma count_lost_beyond_2p53 :
  exists r w',
    Demo.val (map Ok [Demo.uniform_batch Demo.huge; Demo.uniform_batch 1]) Demo.w0
      = Done r w' /\
    samples [Demo.uniform_batch Demo.huge; Demo.uniform_batch 1] = 2 ^ 53 + 1 /\
    ~ epoch_invariant Demo.val_batch (val_start Demo.w0)
        [Demo.uniform_batch Demo.huge; Demo.uniform_batch 1] r.
Proof.
  destruct (lost_count Demo.huge (Z2Nat.id _ (Pos2Z.is_nonneg _)))
    as (r & w' & Hv & Hn).
  exists r, w'. split; [exact Hv|]. split; [|exact Hn].
  cbn [samples fold_right Demo.uniform_batch labels]. unfold Torch.size0.
  rewrite !repeat_length. unfold Demo.huge. rewrite Z2Nat.id by apply Pos2Z.is_nonneg.
  reflexivity.
Qed.

Lemma accuracy_above_one (n : nat) :
  Z.of_nat n = 2 ^ 53 ->
  exists l a w',
    Demo.val (map Ok [Demo.uniform_batch n; Demo.uniform_batch 1; Demo.uniform_batch 1])
      Demo.w0 = Done (l, a) w' /\
    (a <=? 1)%float = false.
Proof.
  intros Hn.
  remember (Demo.stats_after [2 ^ 53; 1; 1] stats0) as R eqn:HR.
  vm_compute in HR.
  match type of HR with _ = Ok ?s => set (st := s) in HR end.
  remember (epoch_means st) as M eqn:HM. vm_compute in HM.
  match type of HM with _ = Ok (?x, ?y) => set (l := x) in HM; set (a := y) in HM end.
  assert (Hst : Demo.stats_after (map Z.of_nat [n; 1%nat; 1%nat]) stats0 = Ok st).
  { cbn [map]. rewrite Hn. vm_compute. reflexivity. }
  assert (Hr : epoch_means st = Ok (l, a)) by (vm_compute; reflexivity).
  destruct (demo_val [n; 1%nat; 1%nat] st (l, a) Hst Hr) as (w1 & _ & Hv).
  exists l, a, (set_grad_enabled true w1). split; [exact Hv|].
  vm_compute. reflexivity.
Qed.

(** Past the side condition of C4, on a batch larger than any loader
    yields: [val] over a batch of 2^53 samples and two batches of one
    sample, every prediction right, returns an accuracy above 1: the int
    that counts the correct predictions has grown to 2^53 + 2, the float
    that counts the samples has stayed at 2^53. *)
Lemma accuracy_exceeds_one_beyond_2p53 :
  exists l a w',
    Demo.val (map Ok [Demo.uniform_batch Demo.huge; Demo.uniform_batch 1;
                      Demo.uniform_batch 1]) Demo.w0 = Done (l, a) w' /\
    (a <=? 1)%float = false.
Proof.
  exact (accuracy_above_one Demo.huge (Z2Nat.id _ (Pos2Z.is_nonneg _))).
Qed.

(** Why C9 asks that each batch hold a sample: on a batch without any,
    which no loader yields, [train] and [val] end at the division by
    zero. *)
Lemma empty_batch_divides_by_zero :
  [Demo.empty_batch] <> [] /\
  (exists w', Demo.train (map Ok [Demo.empty_batch]) Demo.w0
              = Fault ZeroDivisionError w') /\
  (exists w', Demo.val (map Ok [Demo.empty_batch]) Demo.w0
              = Fault ZeroDivisionError w').
Proof.
  split; [discriminate|].
  split; eexists; vm_compute; reflexivity.
Qed.

(** *** The notebook run on the small data *)


Lemma accuracy_in_unit_interval_witness :
  samples [Demo.batch1; Demo.batch2] <= 2 ^ 53 /\
  exists l a w',
    Demo.train (map Ok [Demo.batch1; Demo.batch2]) Demo.w0 = Done (l, a) w' /\
    (0 <=? a)%float = true /\ (a <=? 1)%float = true.
Proof.
  assert (Hs : samples [Demo.batch1; Demo.batch2] <= 2 ^ 53)
    by (vm_compute; discriminate).
  split; [exact Hs|].
  destruct (Demo.train (map Ok [Demo.batch1; Demo.batch2]) Demo.w0)
    as [[l a] w'|e wf] eqn:H; [|vm_compute in H; discriminate].
  exists l, a, w'. split; [reflexivity|].
  exact (proj2 (accuracy_in_unit_interval None Demo.forward Demo.rows Demo.argmax
                  Demo.cross_entropy Demo.item Demo.backward Demo.zero_grad
                  Demo.sgd_step)
           [Demo.batch1; Demo.batch2] Demo.w0 w' l a Hs (or_introl H)).
Defined.

Lemma epoch_means_division_witness :
  [Demo.batch1; Demo.batch2] <> [] /\
  (forall b, In b [Demo.batch1; Demo.batch2] ->
             1 <= Torch.size0 (labels b) <= 2 ^ 53) /\
  samples [Demo.batch1; Demo.batch2] < 2 ^ 1022 /\
  exists st w1,
    for_batches Demo.train_batch (map Ok [Demo.batch1; Demo.batch2]) stats0
      (train_start Demo.w0) = Done st w1 /\
    (exists t, total st = Py.Float t /\ (0 <? t)%float = true) /\
    exists r, Demo.train (map Ok [Demo.batch1; Demo.batch2]) Demo.w0 = Done r w1.
Proof.
  assert (Hne : [Demo.batch1; Demo.batch2] <> []) by discriminate.
  assert (Hsz : forall b, In b [Demo.batch1; Demo.batch2] ->
                          1 <= Torch.size0 (labels b) <= 2 ^ 53)
    by (intros b [<-|[<-|[]]]; vm_compute; split; discriminate).
  assert (Hs : samples [Demo.batch1; Demo.batch2] < 2 ^ 1022)
    by (vm_compute; reflexivity).
  split; [exact Hne|]. split; [exact Hsz|]. split; [exact Hs|].
  destruct (for_batches Demo.train_batch (map Ok [Demo.batch1; Demo.batch2]) stats0
              (train_start Demo.w0)) as [st w1|e wf] eqn:H;
    [|vm_compute in H; discriminate].
  exists st, w1. split; [reflexivity|].
  destruct (epoch_means_division None Demo.forward Demo.rows Demo.argmax
              Demo.cross_entropy Demo.item Demo.backward Demo.zero_grad Demo.sgd_step)
    as (_ & _ & _ & _ & _ & Hpos & Hret).
  split.
  - destruct (Hpos [Demo.batch1; Demo.batch2] st (train_start Demo.w0) w1 Hne Hsz
                (or_introl H)) as (t & Ht & Hlt & _).
    exists t. split; assumption.
  - exact (proj1 (Hret [Demo.batch1; Demo.batch2] Demo.w0 st w1 Hne Hsz Hs) H).
Defined.

Lemma train_steps_per_batch_witness :
  exists r w_end,
    Demo.train (map Ok ([Demo.batch1] ++ Demo.batch2 :: [])) Demo.w0 = Done r w_end /\
    exists st w1 st' w2 output,
      for_batches Demo.train_batch (map Ok [Demo.batch1]) stats0 (train_start Demo.w0)
        = Done st w1 /\
      Demo.train_batch Demo.batch2 st w1 = Done st' w2 /\
      calls w2 = calls w1 ++ train_batch_calls true /\
      (exists c0,
        running_corrects st = Py.Int c0 /\
        running_corrects st'
        = Py.Int (c0 + Z.of_nat (length (filter (fun py => fst py =? snd py)
                                           (combine (map Demo.argmax (Demo.rows output))
                                              (labels Demo.batch2)))))) /\
      Demo.train_batch Demo.batch2 Demo.overflowing_stats w1 = Fault OverflowError w2.
Proof.
  destruct (Demo.train (map Ok ([Demo.batch1] ++ Demo.batch2 :: [])) Demo.w0)
    as [r w_end|e wf] eqn:H; [|vm_compute in H; discriminate].
  exists r, w_end. split; [reflexivity|].
  destruct (train_steps_per_batch None Demo.forward Demo.rows Demo.argmax
              Demo.cross_entropy Demo.item Demo.backward Demo.zero_grad Demo.sgd_step
              [Demo.batch1] Demo.batch2 [] Demo.w0 w_end r H)
    as (_ & st & w1 & st' & w2 & output & bufs & loss & g & p & o & Hpre & Hb & _ & _
        & _ & _ & _ & _ & _ & _ & Hc & _ & (f0 & t0 & c0 & _ & _ & Hc0 & _ & Hc1 & _)
        & Hlast).
  exists st, w1, st', w2, output. split; [exact Hpre|]. split; [exact Hb|].
  split; [exact Hc|]. split; [exists c0; split; [exact Hc0|exact Hc1]|].
  apply Hlast. reflexivity.
Defined.

Lemma training_loop_epochs_witness :
  exists w',
    Demo.training_loop 2 Demo.w0 = Done tt w' /\ history_lengths w' 2.
Proof.
  destruct (Demo.training_loop 2 Demo.w0) as [[] w'|e wf] eqn:H;
    [|vm_compute in H; discriminate].
  exists w'. split; [reflexivity|].
  destruct (proj2 (proj2 (training_loop_epochs None Demo.forward Demo.rows Demo.argmax
                            Demo.cross_entropy Demo.item Demo.backward Demo.zero_grad
                            Demo.sgd_step Demo.live_plot Demo.train_loader
                            Demo.val_loader)) 2 Demo.w0 w' H)
    as (ws & _ & Hend & _ & Hlen).
  rewrite <- Hend. apply (Hlen 2%nat). apply le_n.
Defined.

Lemma report_is_best_validation_accuracy_witness :
  exists best w',
    Demo.notebook 2 Demo.w0 = Done best w' /\ In best (val_accuracy w').
Proof.
  destruct (Demo.notebook 2 Demo.w0) as [best w'|e wf] eqn:H;
    [|vm_compute in H; discriminate].
  exists best, w'. split; [reflexivity|].
  exact (proj1 (proj2 (proj2 (proj1 (report_is_best_validation_accuracy None
                                       Demo.forward Demo.rows Demo.argmax
                                       Demo.cross_entropy Demo.item Demo.backward
                                       Demo.zero_grad Demo.sgd_step Demo.live_plot
                                       Demo.train_loader Demo.val_loader)
                                2 Demo.w0 w' best H)))).
Defined.

Lemma report_needs_one_epoch_witness :
  exists w',
    Demo.training_loop epochs Demo.w0 = Done tt w' /\
    length (val_accuracy w') = 50%nat /\
    exists best, Demo.notebook epochs Demo.w0 = Done best w'.
Proof.
  destruct (Demo.training_loop epochs Demo.w0) as [[] w'|e wf] eqn:H;
    [|vm_compute in H; discriminate].
  exists w'. split; [reflexivity|].
  exact (proj2 (proj2 (report_needs_one_epoch None Demo.forward Demo.rows Demo.argmax
                         Demo.cross_entropy Demo.item Demo.backward Demo.zero_grad
                         Demo.sgd_step Demo.live_plot Demo.train_loader
                         Demo.val_loader)) Demo.w0 w' H).
Defined.


(** ** The further properties on the concrete instance *)

Lemma training_loop_modes_witness :
  exists w', Demo.training_loop 2 Demo.w0 = Done tt w' /\ training w' = false.
Proof.
  destruct (Demo.training_loop 2 Demo.w0) as [[] w'|e wf] eqn:H;
    [|vm_compute in H; discriminate].
  exists w'. split; [reflexivity|].
  apply (proj2 (proj2 (training_loop_modes None Demo.forward Demo.rows Demo.argmax
                         Demo.cross_entropy Demo.item Demo.backward Demo.zero_grad
                         Demo.sgd_step Demo.live_plot Demo.train_loader
                         Demo.val_loader 2 Demo.w0)) w'); [lia|exact H].
Defined.

Lemma histories_when_the_loop_stops_witness :
  exists e wf k wk,
    Demo.stopped_training_loop 3 Demo.w0 = Fault e wf /\
    k = 1%nat /\
    Demo.stopped_training_loop (Z.of_nat k) Demo.w0 = Done tt wk /\
    length (train_loss wf) = 2%nat /\ length (train_accuracy wf) = 2%nat /\
    length (val_loss wf) = 1%nat /\ length (val_accuracy wf) = 1%nat.
Proof.
  destruct (Demo.stopped_training_loop 3 Demo.w0) as [[] w'|e wf] eqn:H;
    [vm_compute in H; discriminate|].
  destruct (histories_when_the_loop_stops None Demo.forward Demo.rows
              Demo.argmax Demo.cross_entropy Demo.item Demo.backward Demo.zero_grad
              Demo.sgd_step Demo.live_plot Demo.train_loader Demo.late_val_loader
              3 Demo.w0 wf e H)
    as (k & wk & _ & Hk & _ & H1 & H2 & H3 & _ & H4).
  assert (Hl : length (train_loss wf) = 2%nat /\ length (val_loss wf) = 1%nat).
  { pose proof H as H'. vm_compute in H'. injection H' as _ <-. split; reflexivity. }
  destruct Hl as [Ht Hv].
  exists e, wf, k, wk. split; [reflexivity|].
  split; [lia|]. split; [exact Hk|].
  split; [exact Ht|]. split; [lia|]. split; [exact Hv|lia].
Defined.

Lemma recorded_accuracies_in_unit_interval_witness :
  (forall epoch, loader_samples (Demo.train_loader epoch) <= 2 ^ 53) /\
  (forall epoch, loader_samples (Demo.val_loader epoch) <= 2 ^ 53) /\
  exists w',
    Demo.training_loop 2 Demo.w0 = Done tt w' /\
    Forall in_unit_interval (val_accuracy w').
Proof.
  assert (Ht : forall epoch, loader_samples (Demo.train_loader epoch) <= 2 ^ 53)
    by (intros epoch; vm_compute; discriminate).
  assert (Hv : forall epoch, loader_samples (Demo.val_loader epoch) <= 2 ^ 53)
    by (intros epoch; vm_compute; discriminate).
  split; [exact Ht|]. split; [exact Hv|].
  destruct (Demo.training_loop 2 Demo.w0) as [[] w'|e wf] eqn:H;
    [|vm_compute in H; discriminate].
  exists w'. split; [reflexivity|].
  exact (proj1 (proj2 (recorded_accuracies_in_unit_interval None Demo.forward
                         Demo.rows Demo.argmax Demo.cross_entropy Demo.item
                         Demo.backward Demo.zero_grad Demo.sgd_step Demo.live_plot
                         Demo.train_loader Demo.val_loader 2 Demo.w0 w' Ht Hv H))).
Defined.

Lemma nan_loss_is_returned_witness :
  exists l a w',
    Demo.nan_val (map Ok ([] ++ Demo.batch2 :: [])) Demo.w0 = Done (l, a) w' /\
    is_nan l = true.
Proof.
  destruct (Demo.nan_val (map Ok ([] ++ Demo.batch2 :: [])) Demo.w0)
    as [[l a] w'|e wf] eqn:H; [|vm_compute in H; discriminate].
  exists l, a, w'. split; [reflexivity|].
  apply (nan_loss_is_returned None Demo.forward Demo.rows Demo.argmax
           Demo.nan_cross_entropy Demo.item Demo.backward Demo.zero_grad
           Demo.sgd_step [] Demo.batch2 [] Demo.w0 w' (val_start Demo.w0) stats0
           [0; 1; 0; 1] tt nan l a).
  - reflexivity.
  - reflexivity.
  - reflexivity.
  - right. split; [exact H|reflexivity].
Defined.

Lemma val_accuracy_extremes_witness :
  samples [Demo.easy_batch] <= 2 ^ 53 /\
  exists l w', Demo.val (map Ok [Demo.easy_batch]) Demo.w0 = Done (l, 1%float) w'.
Proof.
  assert (Hs : samples [Demo.easy_batch] <= 2 ^ 53) by (vm_compute; discriminate).
  split; [exact Hs|].
  destruct (Demo.val (map Ok [Demo.easy_batch]) Demo.w0) as [[l a] w'|e wf] eqn:H;
    [|vm_compute in H; discriminate].
  exists l, w'.
  rewrite <- (proj1 (val_accuracy_extremes None Demo.forward Demo.rows Demo.argmax
                       Demo.cross_entropy Demo.item [Demo.easy_batch] Demo.w0 w' l a
                       Hs H)); [reflexivity|].
  intros b bufs output bufs' [<-|[]] Hf.
  injection Hf as <- _. reflexivity.
Defined.

Lemma epoch_call_sequence_witness :
  exists w' tbs vbs,
    Demo.epoch_body 0 Demo.w0 = Done tt w' /\
    Demo.train_loader 0 = map Ok tbs /\ Demo.val_loader 0 = map Ok vbs /\
    calls w' = calls Demo.w0
               ++ (CTrainMode ::
                   concat (map (fun _ => train_batch_calls (grad_enabled Demo.w0)) tbs))
               ++ (CEvalMode :: repeat (CForward false false) (length vbs))
               ++ [CPlot (train_loss w') (val_loss w') (train_accuracy w')
                     (val_accuracy w')].
Proof.
  destruct (Demo.epoch_body 0 Demo.w0) as [[] w'|e wf] eqn:H;
    [|vm_compute in H; discriminate].
  destruct (epoch_call_sequence None Demo.forward Demo.rows Demo.argmax
              Demo.cross_entropy Demo.item Demo.backward Demo.zero_grad Demo.sgd_step
              Demo.live_plot Demo.train_loader Demo.val_loader 0%nat Demo.w0 w' H)
    as (tbs & vbs & tl & ta & vl & va & Et & Ev & _ & _ & Hc).
  exists w', tbs, vbs. repeat split; try assumption.
Defined.

Lemma only_train_writes_the_model_witness :
  exists r w1,
    Demo.train (Demo.train_loader 0) Demo.w0 = Done r w1 /\
    params (final_world (Demo.epoch_body 0 Demo.w0)) = params w1.
Proof.
  destruct (Demo.train (Demo.train_loader 0) Demo.w0) as [r w1|e wf] eqn:H;
    [|vm_compute in H; discriminate].
  exists r, w1. split; [reflexivity|].
  exact (proj1 (only_train_writes_the_model None Demo.forward Demo.rows Demo.argmax
                  Demo.cross_entropy Demo.item Demo.backward Demo.zero_grad
                  Demo.sgd_step Demo.live_plot Demo.train_loader Demo.val_loader
                  0%nat Demo.w0 w1 r H)).
Defined.

Lemma statistics_lines_cannot_fail_witness :
  samples ([] ++ [Demo.batch2]) <= 2 ^ 53 /\
  Torch.size0 (data Demo.batch2) <= 2 ^ 53 /\
  exists st',
    Demo.val_batch Demo.batch2 stats0 (val_start Demo.w0)
    = Done st' (set_buffers tt (log (CForward false false) (val_start Demo.w0))).
Proof.
  assert (Hs : samples ([] ++ [Demo.batch2]) <= 2 ^ 53) by (vm_compute; discriminate).
  assert (Hx : Torch.size0 (data Demo.batch2) <= 2 ^ 53) by (vm_compute; discriminate).
  split; [exact Hs|]. split; [exact Hx|].
  exact (proj1 (statistics_lines_cannot_fail None Demo.forward Demo.rows Demo.argmax
                  Demo.cross_entropy Demo.item Demo.backward Demo.zero_grad
                  Demo.sgd_step [] Demo.batch2 stats0 (val_start Demo.w0)
                  (val_start Demo.w0) [0; 1; 0; 1] tt 0.5%float Hs Hx eq_refl
                  eq_refl eq_refl) eq_refl).
Defined.

Lemma corrects_stay_exact_witness :
  exists st w',
    for_batches Demo.train_batch (map Ok [Demo.batch1; Demo.batch2]) stats0
      (train_start Demo.w0) = Done st w' /\
    exists c, running_corrects st = Py.Int c /\
              0 <= c <= samples [Demo.batch1; Demo.batch2].
Proof.
  destruct (for_batches Demo.train_batch (map Ok [Demo.batch1; Demo.batch2]) stats0
              (train_start Demo.w0)) as [st w'|e wf] eqn:H;
    [|vm_compute in H; discriminate].
  exists st, w'. split; [reflexivity|].
  exact (corrects_stay_exact None Demo.forward Demo.rows Demo.argmax
           Demo.cross_entropy Demo.item Demo.backward Demo.zero_grad Demo.sgd_step
           [Demo.batch1; Demo.batch2] st (train_start Demo.w0) w' (or_introl H)).
Defined.

Lemma mean_loss_is_not_negative_witness :
  exists l a w',
    Demo.train (map Ok [Demo.batch1; Demo.batch2]) Demo.w0 = Done (l, a) w' /\
    nonneg l.
Proof.
  destruct (Demo.train (map Ok [Demo.batch1; Demo.batch2]) Demo.w0)
    as [[l a] w'|e wf] eqn:H; [|vm_compute in H; discriminate].
  exists l, a, w'. split; [reflexivity|].
  apply (mean_loss_is_not_negative None Demo.forward Demo.rows Demo.argmax
           Demo.cross_entropy Demo.item Demo.backward Demo.zero_grad Demo.sgd_step
           [Demo.batch1; Demo.batch2] Demo.w0 w' l a).
  - intros output y loss Hl. injection Hl as <-. split; reflexivity.
  - intros b [<-|[<-|[]]]; vm_compute; discriminate.
  - vm_compute. discriminate.
  - left. exact H.
Defined.

Lemma accuracy_one_means_all_correct_witness :
  samples [Demo.batch1; Demo.batch2] <= 2 ^ 53 /\
  exists l a w' st c,
    Demo.train (map Ok [Demo.batch1; Demo.batch2]) Demo.w0 = Done (l, a) w' /\
    running_corrects st = Py.Int c /\
    (c < samples [Demo.batch1; Demo.batch2] -> (a <? 1)%float = true).
Proof.
  assert (Hs : samples [Demo.batch1; Demo.batch2] <= 2 ^ 53)
    by (vm_compute; discriminate).
  split; [exact Hs|].
  destruct (Demo.train (map Ok [Demo.batch1; Demo.batch2]) Demo.w0)
    as [[l a] w'|e wf] eqn:H; [|vm_compute in H; discriminate].
  destruct (accuracy_one_means_all_correct None Demo.forward Demo.rows Demo.argmax
              Demo.cross_entropy Demo.item Demo.backward Demo.zero_grad Demo.sgd_step
              [Demo.batch1; Demo.batch2] Demo.w0 w' l a Hs (or_introl H))
    as (st & c & _ & Hc & _ & _ & Hlt & _).
  exists l, a, w', st, c. split; [reflexivity|]. split; [exact Hc|exact Hlt].
Defined.
